(** * academia-slides: service routing, visual planning and the
      presentation pipeline

    A shallow embedding of [src/lib/service-orchestrator.ts] together with
    the tables and types it imports from [@/types/services] and
    [@/types/enhanced], and of [getServiceForTask] from
    [src/lib/domain-experts.ts].

    Conventions of the embedding:
    - a JavaScript string is a [string]; the only case conversions and
      substring tests the code performs look for ASCII needles, for which
      byte-wise matching on the UTF-8 text agrees with the UTF-16 one;
    - a JavaScript object used as a dictionary (the service [config]) is a
      [gmap string JSValue], object spread is map union;
    - a [Map] whose iteration order is observed ([ServiceManager.services])
      is an association list in insertion order; a [Map] only read by key
      is a [gmap];
    - a method of [ServiceManager], and every [async] function, is a
      computation [JS S A]: it takes the state, ends in a completion
      (normal or thrown) and leaves a state. *)

From stdpp Require Import gmap strings list fin_maps sorting pretty.
From Stdlib Require Import ZArith Ascii String Permutation.

Local Open Scope Z_scope.
Local Open Scope string_scope.
Local Open Scope list_scope.
Local Open Scope stdpp_scope.

(* ===================================================================== *)
(** ** JavaScript values, strings and completions *)
(* ===================================================================== *)

Inductive JSValue :=
| JUndefined
| JBoolean (b : bool)
| JString (s : string)
| JNumber (n : Z).

#[global] Instance JSValue_eq_dec : EqDecision JSValue.
Proof. solve_decision. Defined.

(** ToBoolean, on the values a configuration can hold. *)
Definition truthy (v : JSValue) : bool :=
  match v with
  | JUndefined => false
  | JBoolean b => b
  | JString s => negb (bool_decide (s = ""))
  | JNumber n => negb (bool_decide (n = 0))
  end.

(** Reading a property: an absent key reads as [undefined]. *)
Definition prop (o : gmap string JSValue) (k : string) : JSValue :=
  default JUndefined (o !! k).

(** A string is truthy when it is not empty; an optional one when it is
    present and not empty. *)
Definition truthy_str (s : string) : bool := negb (bool_decide (s = "")).

Definition truthy_opt (o : option string) : bool :=
  match o with Some s => truthy_str s | None => false end.

(** [a || b] on strings. *)
Definition or_str (a : option string) (b : string) : string :=
  match a with
  | Some s => if truthy_str s then s else b
  | None => b
  end.

Fixpoint startsWith (needle hay : string) : bool :=
  match needle, hay with
  | EmptyString, _ => true
  | String _ _, EmptyString => false
  | String a n', String b h' => bool_decide (a = b) && startsWith n' h'
  end.

(** [hay.includes(needle)] *)
Fixpoint includes (hay needle : string) : bool :=
  startsWith needle hay ||
  match hay with
  | EmptyString => false
  | String _ h' => includes h' needle
  end.

Definition lower_ascii (c : ascii) : ascii :=
  let n := nat_of_ascii c in
  if (Nat.leb 65 n && Nat.leb n 90)%bool then ascii_of_nat (n + 32) else c.

(** [s.toLowerCase()], on the ASCII letters. The code compares the
    lower-cased text with, or searches it for, ASCII words only; the two
    characters outside ASCII whose lower case contains an ASCII letter
    (U+212A, giving k, and U+0130, giving i followed by U+0307) cannot
    complete any of these words. *)
Fixpoint toLowerCase (s : string) : string :=
  match s with
  | EmptyString => EmptyString
  | String c s' => String (lower_ascii c) (toLowerCase s')
  end.

(** [parts.join(sep)] *)
Fixpoint join (sep : string) (parts : list string) : string :=
  match parts with
  | [] => ""
  | [p] => p
  | p :: rest => p +:+ sep +:+ join sep rest
  end.

(** [xs.some(p)] *)
Definition some {A} (p : A -> bool) (xs : list A) : bool := existsb p xs.

(** How a call ends: with a value, or with a thrown error (a rejected
    promise, for an [async] function). *)
Inductive Completion (A : Type) :=
| Normal (a : A)
| Throw (e : string).
Arguments Normal {A} a.
Arguments Throw {A} e.

Definition JS (S A : Type) : Type := S -> Completion A * S.

#[global] Instance JS_ret {S} : MRet (JS S) :=
  fun A a s => (Normal a, s).

#[global] Instance JS_bind {S} : MBind (JS S) :=
  fun A B k c s =>
    match c s with
    | (Normal a, s') => k a s'
    | (Throw e, s') => (Throw e, s')
    end.

Definition throw {S A} (e : string) : JS S A := fun s => (Throw e, s).

(** [try { body } catch (error) { handler(error) }] *)
Definition tryCatch {S A} (body : JS S A) (handler : string -> JS S A) : JS S A :=
  fun s =>
    match body s with
    | (Normal a, s') => (Normal a, s')
    | (Throw e, s') => handler e s'
    end.

(** A call whose outcome the environment decides. *)
Definition external {S A} (c : Completion A) : JS S A := fun s => (c, s).

Definition modify {S} (f : S -> S) : JS S unit := fun s => (Normal tt, f s).

(** An insertion-ordered [Map<string, V>]. *)
Definition Map_get {V} (k : string) (m : list (string * V)) : option V :=
  snd <$> List.find (fun kv => bool_decide (kv.1 = k)) m.

Fixpoint Map_set {V} (k : string) (v : V) (m : list (string * V)) : list (string * V) :=
  match m with
  | [] => [(k, v)]
  | (k', v') :: rest =>
      if bool_decide (k' = k) then (k, v) :: rest
      else (k', v') :: Map_set k v rest
  end.

Definition Map_values {V} (m : list (string * V)) : list V := m.*2.

(* ===================================================================== *)
(** ** [@/types/services] *)
(* ===================================================================== *)

Inductive ServiceType :=
| text_analysis
| image_generation
| chart_generation
| diagram_generation
| equation_rendering
| voice_generation
| slide_layout
| citation_formatting.

#[global] Instance ServiceType_eq_dec : EqDecision ServiceType.
Proof. solve_decision. Defined.

(** [AIService]; [config] is the [ServiceConfig] object, [priority] and
    [requiresApiKey] are optional. *)
Record AIService := {
  service_id : string;
  service_type : ServiceType;
  service_name : string;
  service_provider : string;
  service_description : string;
  service_capabilities : list string;
  service_config : gmap string JSValue;
  service_requiresApiKey : option bool;
  service_priority : option Z
}.

(** [service.config.enabled], as a condition. *)
Definition enabled (service : AIService) : bool :=
  truthy (prop (service_config service) "enabled").

Definition with_config (service : AIService) (config : gmap string JSValue) : AIService :=
  {| service_id := service_id service;
     service_type := service_type service;
     service_name := service_name service;
     service_provider := service_provider service;
     service_description := service_description service;
     service_capabilities := service_capabilities service;
     service_config := config;
     service_requiresApiKey := service_requiresApiKey service;
     service_priority := service_priority service |}.

Definition mkService (i : string) (t : ServiceType) (n p d : string)
    (caps : list string) (en : bool) (prio : Z) : AIService :=
  {| service_id := i; service_type := t; service_name := n;
     service_provider := p; service_description := d;
     service_capabilities := caps;
     service_config := {[ "enabled" := JBoolean en ]};
     service_requiresApiKey := None;
     service_priority := Some prio |}.

Definition SERVICE_REGISTRY : list AIService := [
  mkService "openai-gpt4" text_analysis "GPT-4o" "OpenAI"
    "Best for paper analysis, slide content, summaries"
    ["paper-analysis"; "slide-generation"; "summarization"; "qa-generation"] true 1;
  mkService "anthropic-claude" text_analysis "Claude 3.5 Sonnet" "Anthropic"
    "Excellent for academic content, long context"
    ["paper-analysis"; "slide-generation"; "script-generation"] true 2;
  mkService "google-gemini" text_analysis "Gemini Pro" "Google"
    "Good free tier, multimodal"
    ["paper-analysis"; "slide-generation"] true 3;
  mkService "local-ollama" text_analysis "Local Ollama" "Local"
    "100% private, runs locally"
    ["paper-analysis"; "slide-generation"] false 4;
  mkService "nano-banana" image_generation "Nano Banana" "Nano Banana"
    "Fast, affordable image generation for slides"
    ["slide-illustrations"; "diagrams"; "backgrounds"; "icons"] true 1;
  mkService "dall-e-3" image_generation "DALL-E 3" "OpenAI"
    "High quality, follows prompts precisely"
    ["slide-illustrations"; "diagrams"; "backgrounds"] true 2;
  mkService "midjourney" image_generation "Midjourney API" "Midjourney"
    "Artistic, beautiful visuals"
    ["slide-illustrations"; "backgrounds"; "covers"] false 3;
  mkService "stable-diffusion" image_generation "Stable Diffusion XL" "Stability AI"
    "Open source, customizable"
    ["slide-illustrations"; "diagrams"; "backgrounds"] false 4;
  mkService "quickchart" chart_generation "QuickChart" "QuickChart"
    "Generate charts from data"
    ["bar-charts"; "line-charts"; "pie-charts"; "scatter-plots"] true 1;
  mkService "chartjs-server" chart_generation "Chart.js Server" "Internal"
    "Custom chart rendering"
    ["all-chart-types"; "custom-styling"] true 2;
  mkService "mermaid" diagram_generation "Mermaid.js" "Mermaid"
    "Flowcharts, sequence diagrams, graphs"
    ["flowcharts"; "sequence-diagrams"; "class-diagrams"; "er-diagrams"; "gantt"] true 1;
  mkService "plantuml" diagram_generation "PlantUML" "PlantUML"
    "Complex technical diagrams"
    ["uml-diagrams"; "architecture-diagrams"] true 2;
  mkService "katex" equation_rendering "KaTeX" "KaTeX"
    "Fast math rendering"
    ["latex-equations"; "math-symbols"; "formulas"] true 1;
  mkService "mathjax" equation_rendering "MathJax" "MathJax"
    "Comprehensive math support"
    ["latex-equations"; "asciimath"; "mml"] true 2
].

Inductive FallbackStrategy := next_available | fail_strategy | degrade.

#[global] Instance FallbackStrategy_eq_dec : EqDecision FallbackStrategy.
Proof. solve_decision. Defined.

Record TaskRouting := {
  task : string;
  serviceType : ServiceType;
  preferredServices : list string;
  fallbackStrategy : FallbackStrategy
}.

Definition TASK_ROUTING : list TaskRouting := [
  {| task := "paper-analysis"; serviceType := text_analysis;
     preferredServices := ["openai-gpt4"; "anthropic-claude"; "google-gemini"; "local-ollama"];
     fallbackStrategy := next_available |};
  {| task := "slide-content-generation"; serviceType := text_analysis;
     preferredServices := ["openai-gpt4"; "anthropic-claude"; "google-gemini"];
     fallbackStrategy := next_available |};
  {| task := "speaker-script"; serviceType := text_analysis;
     preferredServices := ["anthropic-claude"; "openai-gpt4"];
     fallbackStrategy := next_available |};
  {| task := "slide-illustration"; serviceType := image_generation;
     preferredServices := ["nano-banana"; "dall-e-3"; "stable-diffusion"];
     fallbackStrategy := next_available |};
  {| task := "slide-background"; serviceType := image_generation;
     preferredServices := ["nano-banana"; "dall-e-3"; "midjourney"];
     fallbackStrategy := next_available |};
  {| task := "diagram-illustration"; serviceType := image_generation;
     preferredServices := ["dall-e-3"; "nano-banana"; "stable-diffusion"];
     fallbackStrategy := next_available |};
  {| task := "concept-visualization"; serviceType := image_generation;
     preferredServices := ["nano-banana"; "dall-e-3"];
     fallbackStrategy := next_available |};
  {| task := "data-chart"; serviceType := chart_generation;
     preferredServices := ["quickchart"; "chartjs-server"];
     fallbackStrategy := next_available |};
  {| task := "flowchart"; serviceType := diagram_generation;
     preferredServices := ["mermaid"; "plantuml"];
     fallbackStrategy := next_available |};
  {| task := "sequence-diagram"; serviceType := diagram_generation;
     preferredServices := ["mermaid"; "plantuml"];
     fallbackStrategy := next_available |};
  {| task := "architecture-diagram"; serviceType := diagram_generation;
     preferredServices := ["plantuml"; "mermaid"];
     fallbackStrategy := next_available |};
  {| task := "equation-render"; serviceType := equation_rendering;
     preferredServices := ["katex"; "mathjax"];
     fallbackStrategy := next_available |}
].

Inductive HealthStatus := healthy | degraded | down | unknown.

#[global] Instance HealthStatus_eq_dec : EqDecision HealthStatus.
Proof. solve_decision. Defined.

(** [ServiceHealth]; the numeric fields are carried as integers, nothing
    in the manager reads them. *)
Record ServiceHealth := {
  health_serviceId : string;
  status : HealthStatus;
  latency : Z;
  lastChecked : string;
  errorRate : Z;
  remainingQuota : option Z
}.

(* ===================================================================== *)
(** ** [class ServiceManager] *)
(* ===================================================================== *)

Record ServiceManager := {
  services : list (string * AIService);
  health : gmap string ServiceHealth
}.

(** The constructor, over the registry it is initialised from:
    [registry.forEach(service => this.services.set(service.id, {...service}))]. *)
Definition new_ServiceManager_from (registry : list AIService) : ServiceManager :=
  {| services := fold_left (fun m service => Map_set (service_id service) service m) registry [];
     health := ∅ |}.

Definition new_ServiceManager : ServiceManager :=
  new_ServiceManager_from SERVICE_REGISTRY.

(** [configureService(serviceId, config)]: the spread
    [{ ...service.config, ...config }] lets the keys of [config] win. *)
Definition configureService (serviceId : string) (config : gmap string JSValue)
    : JS ServiceManager unit :=
  fun this =>
    match Map_get serviceId (services this) with
    | Some service =>
        let service' := with_config service (config ∪ service_config service) in
        (Normal tt, {| services := Map_set serviceId service' (services this);
                       health := health this |})
    | None => (Normal tt, this)
    end.

(** The [for (const serviceId of routing.preferredServices)] loop of
    [getServiceForTask]; falling off the end is the [return null]. *)
Fixpoint firstPreferred (this : ServiceManager) (ids : list string) : option AIService :=
  match ids with
  | [] => None
  | serviceId :: rest =>
      match Map_get serviceId (services this) with
      | Some service =>
          if enabled service then
            match health this !! serviceId with
            | None => Some service
            | Some h =>
                if bool_decide (status h = healthy) then Some service
                else firstPreferred this rest
            end
          else firstPreferred this rest
      | None => firstPreferred this rest
      end
  end.

(** [TASK_ROUTING.find(r => r.task === task)] *)
Definition findRouting (t : string) : option TaskRouting :=
  List.find (fun r => bool_decide (task r = t)) TASK_ROUTING.

(** [getServiceForTask(task)]; [None] is [null]. *)
Definition getServiceForTask (t : string) : JS ServiceManager (option AIService) :=
  fun this =>
    match findRouting t with
    | None => (Normal None, this)
    | Some routing => (Normal (firstPreferred this (preferredServices routing)), this)
    end.

(** [a.priority || 99] *)
Definition priorityOr99 (a : AIService) : Z :=
  match service_priority a with
  | Some p => if bool_decide (p = 0) then 99 else p
  | None => 99
  end.

(** [Array.prototype.sort] with the comparator [(a, b) => key a - key b]:
    the sort is stable, so its result is the one of a stable insertion
    sort. *)
Fixpoint insert_by {A} (key : A -> Z) (x : A) (l : list A) : list A :=
  match l with
  | [] => [x]
  | y :: ys => if bool_decide (key x ≤ key y)%Z then x :: y :: ys
               else y :: insert_by key x ys
  end.

Definition sort_by {A} (key : A -> Z) (l : list A) : list A :=
  foldr (insert_by key) [] l.

(** [getServicesByType(type)] *)
Definition getServicesByType (type : ServiceType) : JS ServiceManager (list AIService) :=
  fun this =>
    (Normal (sort_by priorityOr99
               (List.filter (fun s => bool_decide (service_type s = type) && enabled s)
                            (Map_values (services this)))),
     this).

(** [updateHealth(serviceId, health)] *)
Definition updateHealth (serviceId : string) (h : ServiceHealth) : JS ServiceManager unit :=
  fun this =>
    (Normal tt, {| services := services this; health := <[serviceId := h]> (health this) |}).

(** The state a computation leaves, and its completion. *)
Definition exec {S A} (c : JS S A) (s : S) : S := (c s).2.
Definition eval {S A} (c : JS S A) (s : S) : Completion A := (c s).1.


(** [UserSettings], with the fields the orchestrator reads. *)
Record UserSettings := {
  settings_provider : string;
  settings_apiKey : string;
  settings_model : string
}.

(** [initializeServices(settings)] *)
Definition initializeServices (settings : UserSettings) : JS ServiceManager unit :=
  let p := settings_provider settings in
  let textServiceId :=
    if bool_decide (p = "openai") then "openai-gpt4"
    else if bool_decide (p = "anthropic") then "anthropic-claude"
    else if bool_decide (p = "google") then "google-gemini"
    else if bool_decide (p = "local") then "local-ollama"
    else "openai-gpt4" in
  configureService textServiceId
    (<["enabled" := JBoolean true]>
       (<["apiKey" := JString (settings_apiKey settings)]>
          {[ "model" := JString (settings_model settings) ]}));;
  configureService "nano-banana" {[ "enabled" := JBoolean true ]};;
  configureService "mermaid" {[ "enabled" := JBoolean true ]};;
  configureService "quickchart" {[ "enabled" := JBoolean true ]};;
  configureService "katex" {[ "enabled" := JBoolean true ]}.

(** A preferred service is returned when it is registered and enabled and
    either has no health record or its record says [healthy]. *)
Definition qualifies (this : ServiceManager) (serviceId : string) (service : AIService) : Prop :=
  Map_get serviceId (services this) = Some service
  ∧ enabled service = true
  ∧ (health this !! serviceId = None
     ∨ ∃ h, health this !! serviceId = Some h ∧ status h = healthy).

(** The selection rule in the words of the routing contract, for
    comparison with [firstPreferred]: the first preferred provider that is
    enabled and whose tracked status is healthy, degraded or unknown, an
    absent record counting as unknown. *)
Definition contract_status (this : ServiceManager) (serviceId : string) : HealthStatus :=
  match health this !! serviceId with
  | Some h => status h
  | None => unknown
  end.

Definition contract_eligible (this : ServiceManager) (service : AIService) : bool :=
  enabled service
  && bool_decide (contract_status this (service_id service) ≠ down).

Fixpoint contract_firstPreferred (this : ServiceManager) (ids : list string)
    : option AIService :=
  match ids with
  | [] => None
  | serviceId :: rest =>
      match Map_get serviceId (services this) with
      | Some service =>
          if contract_eligible this service then Some service
          else contract_firstPreferred this rest
      | None => contract_firstPreferred this rest
      end
  end.

(* ===================================================================== *)
(** ** [getServiceForTask] of [src/lib/domain-experts.ts] *)
(* ===================================================================== *)

(** What [taskMap[key]] evaluates to. [taskMap] is an object literal, so
    besides its seven own keys a lookup also finds what it inherits from
    [Object.prototype]; of those names only [constructor] and [__proto__]
    can be the result of [toLowerCase]. An inherited value is truthy and
    is no service type. *)
Inductive TaskMapEntry :=
| OwnEntry (type : ServiceType)
| InheritedEntry.

Definition taskMap (key : string) : option TaskMapEntry :=
  if bool_decide (key = "image") then Some (OwnEntry image_generation)
  else if bool_decide (key = "diagram") then Some (OwnEntry diagram_generation)
  else if bool_decide (key = "chart") then Some (OwnEntry chart_generation)
  else if bool_decide (key = "equation") then Some (OwnEntry equation_rendering)
  else if bool_decide (key = "voice") then Some (OwnEntry voice_generation)
  else if bool_decide (key = "layout") then Some (OwnEntry slide_layout)
  else if bool_decide (key = "citation") then Some (OwnEntry citation_formatting)
  else if bool_decide (key = "constructor") then Some InheritedEntry
  else if bool_decide (key = "__proto__") then Some InheritedEntry
  else None.

(** [services.find(s => s.type === type && s.config.enabled)] *)
Definition getActiveService (type : TaskMapEntry) (svcs : list AIService) : option AIService :=
  List.find (fun s =>
          match type with
          | OwnEntry t => bool_decide (service_type s = t)
          | InheritedEntry => false
          end && enabled s) svcs.

Definition domain_getServiceForTask (t : string) (svcs : list AIService) : option AIService :=
  match taskMap (toLowerCase t) with
  | None => None
  | Some serviceType => getActiveService serviceType svcs
  end.

(* ===================================================================== *)
(** ** [@/types/enhanced] *)
(* ===================================================================== *)

Inductive FigureKind := kind_figure | kind_table | kind_chart.

Record ExtractedFigure := {
  figure_id : string;
  figure_page : Z;
  figure_caption : string;
  figure_type : FigureKind;
  figure_description : string;
  figure_placeholder : option string
}.

Record ExtractedCitation := {
  citation_id : string;
  citation_text : string;
  citation_authors : list string;
  citation_year : Z;
  citation_title : option string;
  citation_journal : option string;
  citation_doi : option string
}.

Record PaperMetadata := {
  title : string;
  authors : list string;
  affiliations : list string;
  abstract : string;
  keywords : list string;
  publicationDate : option string;
  doi : option string;
  journal : option string;
  conference : option string;
  figures : list ExtractedFigure;
  tables : list ExtractedFigure;
  citations : list ExtractedCitation;
  references : list ExtractedCitation;
  wordCount : Z;
  pageCount : Z;
  language : string
}.

Inductive SlideLayout :=
| layout_title | layout_content | layout_split | layout_image | layout_quote
| layout_references | layout_figure | layout_table | layout_chart
| layout_comparison | layout_timeline | layout_diagram | layout_equation
| layout_two_column | layout_three_column | layout_section_divider
| layout_thank_you.

#[global] Instance SlideLayout_eq_dec : EqDecision SlideLayout.
Proof. solve_decision. Defined.

Inductive AnimationType :=
| anim_none | anim_fade | anim_slide | anim_zoom | anim_appear | anim_wipe.

#[local] Unset Elimination Schemes.
Inductive EnhancedSlide := mkEnhancedSlide {
  slide_id : Z;
  slide_title : string;
  slide_content : list string;
  slide_notes : option string;
  layout : SlideLayout;
  slide_imageUrl : option string;
  slide_figure : option ExtractedFigure;
  slide_citations : option (list string);
  slide_speakerScript : option string;
  slide_timing : option Z;
  slide_animation : option AnimationType;
  slide_subSlides : option (list EnhancedSlide)
}.
#[local] Set Elimination Schemes.

(** [VisualAssetRequest] of [@/types/services] *)
Inductive AssetType :=
| asset_illustration | asset_diagram | asset_background | asset_icon
| asset_chart_visual | asset_concept_art.

Inductive AssetStyle :=
| style_realistic | style_flat | style_isometric | style_sketch | style_3d
| style_minimalist.

Record Dimensions := { width : Z; height : Z; aspectRatio : string }.

Record AssetContext := {
  context_slideTitle : string;
  context_paperTitle : string;
  context_subjectArea : string
}.

Record VisualAssetRequest := {
  request_type : AssetType;
  request_prompt : string;
  request_style : AssetStyle;
  request_colors : list string;
  request_dimensions : Dimensions;
  request_context : option AssetContext
}.

(* ===================================================================== *)
(** ** The visual generation pipeline *)
(* ===================================================================== *)

Inductive VisualType :=
| illustration | diagram | chart | equation | none.

#[global] Instance VisualType_eq_dec : EqDecision VisualType.
Proof. solve_decision. Defined.

Inductive VisualProvider := nano_banana | dall_e.

#[global] Instance VisualProvider_eq_dec : EqDecision VisualProvider.
Proof. solve_decision. Defined.

Record VisualServiceConfig := {
  visual_provider : VisualProvider;
  visual_apiKey : string
}.

Record OrchestrationConfig := {
  textService : UserSettings;
  visualService : option VisualServiceConfig;
  generateVisuals : bool
}.

(** [OrchestrationResult]: the three maps are keyed by slide index. *)
Record OrchestrationResult := {
  slides : list EnhancedSlide;
  visuals : gmap nat string;
  charts : gmap nat string;
  diagrams : gmap nat string
}.

(** What a run leaves behind: the console, and, as instrumentation, the
    entry into each function the claims count calls of and the settling
    of each fan-out promise. *)
Inductive Callee :=
| fn_analyzePaperWithService
| fn_generateSlidesWithService
| fn_planVisuals
| fn_generateWithNanoBanana (slideIndex : nat)
| fn_generateChart (slideIndex : nat)
| fn_generateDiagram (slideIndex : nat).

Inductive Event :=
| ConsoleLog (msg : string)
| ConsoleError (msg : string) (error : string)
| Called (fn : Callee)
| Settled (slideIndex : nat).

#[global] Instance Callee_eq_dec : EqDecision Callee.
Proof. solve_decision. Defined.

#[global] Instance Event_eq_dec : EqDecision Event.
Proof. solve_decision. Defined.

Definition emit (ev : Event) : JS (list Event) unit :=
  modify (fun tr => tr ++ [ev]).

(** Console messages are recorded without their leading pictograph. *)
Definition console_log (msg : string) : JS (list Event) unit :=
  emit (ConsoleLog msg).

Definition console_error (msg error : string) : JS (list Event) unit :=
  emit (ConsoleError msg error).

(** [for] over an array with an accumulator, stopping at the first throw. *)
Fixpoint foldJS {S A B} (f : B -> A -> JS S B) (acc : B) (l : list A) : JS S B :=
  match l with
  | [] => mret acc
  | x :: rest => acc' ← f acc x; foldJS f acc' rest
  end.

Definition newline : string := String "010" EmptyString.

(** The planner's classification in the words of its contract, for
    comparison with [planSlide]: ordered rules, the first that matches
    decides. *)
Definition figureHint (slide : EnhancedSlide) : bool :=
  bool_decide (layout slide = layout_figure) || bool_decide (is_Some (slide_figure slide)).

Definition processPattern (slide : EnhancedSlide) : bool :=
  bool_decide (layout slide = layout_diagram)
  || includes (toLowerCase (slide_title slide)) "method".

Definition numericPattern (slide : EnhancedSlide) : bool :=
  bool_decide (layout slide = layout_chart)
  || some (fun c => includes c "%" || includes c "increase" || includes c "decrease")
       (slide_content slide).

Definition mathNotation (slide : EnhancedSlide) : bool :=
  some (fun c => includes c "$" || includes c "\" || includes c "equation")
    (slide_content slide).

Definition everyNth (n index : nat) : bool :=
  bool_decide (index `mod` n = 0)%nat && bool_decide (0 < index)%nat.

Definition classify (index : nat) (slide : EnhancedSlide) : VisualType :=
  if figureHint slide then illustration
  else if processPattern slide then diagram
  else if numericPattern slide then chart
  else if mathNotation slide then equation
  else if everyNth 5 index then illustration
  else none.

Section Pipeline.

(** The chart data [extractChartData] collects from a slide's lines (a
    regular-expression scan producing labels and parsed numbers) and its
    serialisation [encodeURIComponent(JSON.stringify(chartConfig))] are
    kept abstract: the pipeline only stores and forwards them. *)
Context {ChartData : Type}.
Variable extractChartData : list string -> ChartData.
Variable encodeChartConfig : ChartData -> string.

(** The environment of a run: the two text-service calls of
    [./ai-enhanced] and the Nano Banana endpoint. The endpoint answers
    each fan-out unit (named by its slide index) on its own. *)
Variable analyzePaperEnhanced : string -> UserSettings -> Completion PaperMetadata.
Variable generateEnhancedSlides :
  PaperMetadata -> UserSettings -> Completion (list EnhancedSlide).
Variable nanoBananaEndpoint :
  nat -> VisualAssetRequest -> string -> Completion string.

Record VisualGenerationPlan := {
  slideIndex : nat;
  slideTitle : string;
  visualType : VisualType;
  prompt : option string;
  data : option ChartData
}.

(** The body of the [slides.forEach((slide, index) => ...)] callback of
    [planVisuals], up to the final [push]. *)
Definition planSlide (metadata : PaperMetadata) (index : nat) (slide : EnhancedSlide)
    : VisualGenerationPlan :=
  if bool_decide (layout slide = layout_figure) || bool_decide (is_Some (slide_figure slide)) then
    {| slideIndex := index; slideTitle := slide_title slide;
       visualType := illustration;
       prompt := Some (or_str (figure_description <$> slide_figure slide)
                         ("Illustration for: " +:+ slide_title slide +:+ ". "
                            +:+ join " " (slide_content slide)));
       data := None |}
  else if bool_decide (layout slide = layout_diagram)
          || includes (toLowerCase (slide_title slide)) "method" then
    {| slideIndex := index; slideTitle := slide_title slide;
       visualType := diagram;
       prompt := Some ("Diagram showing " +:+ slide_title slide +:+ ": "
                         +:+ join ", " (slide_content slide));
       data := None |}
  else if bool_decide (layout slide = layout_chart)
          || some (fun c => includes c "%" || includes c "increase" || includes c "decrease")
               (slide_content slide) then
    {| slideIndex := index; slideTitle := slide_title slide;
       visualType := chart;
       prompt := None;
       data := Some (extractChartData (slide_content slide)) |}
  else if some (fun c => includes c "$" || includes c "\" || includes c "equation")
            (slide_content slide) then
    {| slideIndex := index; slideTitle := slide_title slide;
       visualType := equation; prompt := None; data := None |}
  else if bool_decide (index `mod` 5 = 0)%nat && bool_decide (0 < index)%nat then
    {| slideIndex := index; slideTitle := slide_title slide;
       visualType := illustration;
       prompt := Some ("Abstract background illustration for: " +:+ slide_title slide
                         +:+ ". " +:+ or_str (head (keywords metadata)) "academic"
                         +:+ " theme.");
       data := None |}
  else
    {| slideIndex := index; slideTitle := slide_title slide;
       visualType := none; prompt := None; data := None |}.

(** The [forEach] itself, from position [index] on. *)
Fixpoint planVisuals_from (index : nat) (slides : list EnhancedSlide)
    (metadata : PaperMetadata) : list VisualGenerationPlan :=
  match slides with
  | [] => []
  | slide :: rest =>
      let plan := planSlide metadata index slide in
      if bool_decide (visualType plan ≠ none)
      then plan :: planVisuals_from (S index) rest metadata
      else planVisuals_from (S index) rest metadata
  end.

Definition planVisuals (slides : list EnhancedSlide) (metadata : PaperMetadata)
    : list VisualGenerationPlan :=
  planVisuals_from 0 slides metadata.

(** The index and kind of a plan, and the test of the final [push]. *)
Definition keyed (plan : VisualGenerationPlan) : nat * VisualType :=
  (slideIndex plan, visualType plan).

Definition wanted (iv : nat * VisualType) : bool := bool_decide (iv.2 ≠ none).

(** The placeholder services. [analyzePaperWithService] forwards to
    [analyzePaperEnhanced]; [generateSlidesWithService] builds a fixed
    presentation configuration and forwards to [generateEnhancedSlides]. *)
Definition analyzePaperWithService (text : string) (settings : UserSettings)
    : JS (list Event) PaperMetadata :=
  emit (Called fn_analyzePaperWithService);;
  external (analyzePaperEnhanced text settings).

Definition generateSlidesWithService (metadata : PaperMetadata) (settings : UserSettings)
    : JS (list Event) (list EnhancedSlide) :=
  emit (Called fn_generateSlidesWithService);;
  external (generateEnhancedSlides metadata settings).

(** The three generators take, besides their own arguments, the slide
    index of the unit that calls them: it names the call on the console
    and, for Nano Banana, the answer of the endpoint. *)
Definition generateChart (slideIndex : nat) (data : ChartData) : JS (list Event) string :=
  emit (Called (fn_generateChart slideIndex));;
  mret ("https://quickchart.io/chart?c=" +:+ encodeChartConfig data).

Definition generateDiagram (slideIndex : nat) (description : string)
    : JS (list Event) string :=
  emit (Called (fn_generateDiagram slideIndex));;
  mret ("flowchart TD" +:+ newline
        +:+ "    A[" +:+ description +:+ "] --> B[Step 1]" +:+ newline
        +:+ "    B --> C[Step 2]" +:+ newline
        +:+ "    C --> D[Result]").

(** [generateWithNanoBanana]: the request is posted; a failure is logged
    and thrown again. *)
Definition generateWithNanoBanana (slideIndex : nat) (request : VisualAssetRequest)
    (apiKey : string) : JS (list Event) string :=
  emit (Called (fn_generateWithNanoBanana slideIndex));;
  tryCatch
    (external (nanoBananaEndpoint slideIndex request apiKey))
    (fun error =>
       console_error "Nano Banana generation failed:" error;;
       throw error).

Definition set_visuals (result : OrchestrationResult) (k : nat) (v : string) :=
  {| slides := slides result; visuals := <[k := v]> (visuals result);
     charts := charts result; diagrams := diagrams result |}.

Definition set_charts (result : OrchestrationResult) (k : nat) (v : string) :=
  {| slides := slides result; visuals := visuals result;
     charts := <[k := v]> (charts result); diagrams := diagrams result |}.

Definition set_diagrams (result : OrchestrationResult) (k : nat) (v : string) :=
  {| slides := slides result; visuals := visuals result;
     charts := charts result; diagrams := <[k := v]> (diagrams result) |}.

(** The [request] built for an illustration plan. *)
Definition illustrationRequest (metadata : PaperMetadata) (plan : VisualGenerationPlan)
    : VisualAssetRequest :=
  {| request_type := asset_illustration;
     request_prompt := default "" (prompt plan);
     request_style := style_flat;
     request_colors := ["#3b82f6"; "#10b981"; "#8b5cf6"];
     request_dimensions := {| width := 1024; height := 768; aspectRatio := "4:3" |};
     request_context :=
       Some {| context_slideTitle := slideTitle plan;
               context_paperTitle := title metadata;
               context_subjectArea := or_str (head (keywords metadata)) "academic" |} |}.

(** The [try] block of the callback given to [visualPlans.map]. *)
Definition generateVisual (metadata : PaperMetadata) (visualService : VisualServiceConfig)
    (result : OrchestrationResult) (plan : VisualGenerationPlan)
    : JS (list Event) OrchestrationResult :=
  if bool_decide (visualType plan = illustration) && truthy_opt (prompt plan) then
    let request := illustrationRequest metadata plan in
    if bool_decide (visual_provider visualService = nano_banana) then
      imageUrl ← generateWithNanoBanana (slideIndex plan) request (visual_apiKey visualService);
      mret (set_visuals result (slideIndex plan) imageUrl)
    else mret result
  else if bool_decide (visualType plan = chart) && bool_decide (is_Some (data plan)) then
    match data plan with
    | Some d =>
        chartUrl ← generateChart (slideIndex plan) d;
        mret (set_charts result (slideIndex plan) chartUrl)
    | None => mret result
    end
  else if bool_decide (visualType plan = diagram) then
    diagramCode ← generateDiagram (slideIndex plan) (or_str (prompt plan) (slideTitle plan));
    mret (set_diagrams result (slideIndex plan) diagramCode)
  else mret result.

Definition failureMessage (slideIndex : nat) : string :=
  "Failed to generate visual for slide " +:+ pretty slideIndex +:+ ":".

(** One fan-out unit: the whole [async (plan) => { try ... catch ... }]
    callback, then the settling of its promise. *)
Definition visualUnit (metadata : PaperMetadata) (visualService : VisualServiceConfig)
    (result : OrchestrationResult) (plan : VisualGenerationPlan)
    : JS (list Event) OrchestrationResult :=
  result' ← tryCatch
    (generateVisual metadata visualService result plan)
    (fun error =>
       console_error (failureMessage (slideIndex plan)) error;;
       mret result);
  emit (Settled (slideIndex plan));;
  mret result'.

(** What becomes of a plan in its unit: an artifact is stored under its
    index, or the generation fails, or nothing is attempted. *)
Inductive Fate := Recorded | Failed | Skipped.

#[global] Instance Fate_eq_dec : EqDecision Fate.
Proof. solve_decision. Defined.

Definition fate (metadata : PaperMetadata) (visualService : VisualServiceConfig)
    (plan : VisualGenerationPlan) : Fate :=
  if bool_decide (visualType plan = illustration) && truthy_opt (prompt plan) then
    if bool_decide (visual_provider visualService = nano_banana) then
      match nanoBananaEndpoint (slideIndex plan) (illustrationRequest metadata plan)
              (visual_apiKey visualService) with
      | Normal _ => Recorded
      | Throw _ => Failed
      end
    else Skipped
  else if bool_decide (visualType plan = chart) && bool_decide (is_Some (data plan)) then Recorded
  else if bool_decide (visualType plan = diagram) then Recorded
  else Skipped.

Definition countFate (metadata : PaperMetadata) (visualService : VisualServiceConfig)
    (f : Fate) (plans : list VisualGenerationPlan) : nat :=
  List.length (filter (λ plan, fate metadata visualService plan = f) plans).

(** The indices of the plans of one kind whose artifact is stored. *)
Definition recordedAs (metadata : PaperMetadata) (visualService : VisualServiceConfig)
    (kind : VisualType) (plans : list VisualGenerationPlan) : list nat :=
  slideIndex <$> filter (λ plan, fate metadata visualService plan = Recorded
                                 ∧ visualType plan = kind) plans.

(** The result a unit leaves behind. *)
Definition unitResult (metadata : PaperMetadata) (visualService : VisualServiceConfig)
    (result : OrchestrationResult) (plan : VisualGenerationPlan) : OrchestrationResult :=
  match (visualUnit metadata visualService result plan []).1 with
  | Normal result' => result'
  | Throw _ => result
  end.

(** [await Promise.all(visualPlans.map(unit))]: every unit runs; they
    write to [result] in the order in which they are listed. *)
Definition fanOut (metadata : PaperMetadata) (visualService : VisualServiceConfig)
    (result : OrchestrationResult) (order : list VisualGenerationPlan)
    : JS (list Event) OrchestrationResult :=
  foldJS (visualUnit metadata visualService) result order.

Definition orchestratePresentation (paperText : string) (config : OrchestrationConfig)
    : JS (list Event) OrchestrationResult :=
  let result := {| slides := []; visuals := ∅; charts := ∅; diagrams := ∅ |} in
  console_log "Step 1: Analyzing paper with text service...";;
  metadata ← analyzePaperWithService paperText (textService config);
  console_log "Step 2: Generating slide structure...";;
  slides' ← generateSlidesWithService metadata (textService config);
  let result := {| slides := slides'; visuals := visuals result;
                   charts := charts result; diagrams := diagrams result |} in
  if negb (generateVisuals config) || negb (bool_decide (is_Some (visualService config)))
  then mret result
  else
    console_log "Step 3: Planning visuals...";;
    emit (Called fn_planVisuals);;
    let visualPlans := planVisuals slides' metadata in
    console_log "Step 4: Generating visuals...";;
    match visualService config with
    | None => throw "Visual service not configured"
    | Some visualService =>
        result ← fanOut metadata visualService result visualPlans;
        console_log "Orchestration complete!";;
        console_log ("   - Slides: " +:+ pretty (List.length (slides result)));;
        console_log ("   - Visuals: " +:+ pretty (size (visuals result)));;
        console_log ("   - Charts: " +:+ pretty (size (charts result)));;
        console_log ("   - Diagrams: " +:+ pretty (size (diagrams result)));;
        mret result
    end.

End Pipeline.

(* ===================================================================== *)
(** ** Statements shared by the properties, and sample states *)
(* ===================================================================== *)

(** [r] is what a walk over [ids] in order finds: the first id that
    qualifies, or nothing when none does. *)
Definition first_qualifying (this : ServiceManager) (ids : list string)
    (r : option AIService) : Prop :=
  match r with
  | Some service =>
      ∃ before serviceId after,
        ids = before ++ serviceId :: after
        ∧ qualifies this serviceId service
        ∧ ∀ i, i ∈ before → ∀ s, ¬ qualifies this i s
  | None => ∀ i, i ∈ ids → ∀ s, ¬ qualifies this i s
  end.

(** A computation on the console only appends to it, and does the same
    whatever the console already holds. *)
Definition appends {A} (c : JS (list Event) A) : Prop :=
  ∀ tr, c tr = ((c []).1, tr ++ (c []).2).

(** The failure of slide [i] has been written to the console. *)
Definition failureLogged (i : nat) (tr : list Event) : Prop :=
  ∃ e, ConsoleError (failureMessage i) e ∈ tr.

(** The indices under which a result holds an artifact. *)
Definition artifactKeys (result : OrchestrationResult) : gset nat :=
  dom (visuals result) ∪ dom (charts result) ∪ dom (diagrams result).

(** The map of a result that holds the artifacts of one kind. *)
Definition mapOf (kind : VisualType) (result : OrchestrationResult) : gmap nat string :=
  match kind with
  | illustration => visuals result
  | chart => charts result
  | diagram => diagrams result
  | equation | none => ∅
  end.

(** The events of the generation stage: calls of the generators, console
    errors and settlings; no [console.log] and no call of the planner. *)
Definition stageEvent (ev : Event) : Prop :=
  (∃ fn, ev = Called fn ∧ fn ≠ fn_planVisuals)
  ∨ (∃ msg e, ev = ConsoleError msg e)
  ∨ ∃ i, ev = Settled i.

(** The console of a run, piece by piece. *)
Definition criticalPathEvents : list Event :=
  [ConsoleLog "Step 1: Analyzing paper with text service...";
   Called fn_analyzePaperWithService;
   ConsoleLog "Step 2: Generating slide structure...";
   Called fn_generateSlidesWithService].

Definition planningEvents : list Event :=
  [ConsoleLog "Step 3: Planning visuals...";
   Called fn_planVisuals;
   ConsoleLog "Step 4: Generating visuals..."].

Definition summaryEvents (result : OrchestrationResult) : list Event :=
  [ConsoleLog "Orchestration complete!";
   ConsoleLog ("   - Slides: " +:+ pretty (List.length (slides result)));
   ConsoleLog ("   - Visuals: " +:+ pretty (size (visuals result)));
   ConsoleLog ("   - Charts: " +:+ pretty (size (charts result)));
   ConsoleLog ("   - Diagrams: " +:+ pretty (size (diagrams result)))].

(** An event of the generation stage proper: a generator is entered or a
    unit settles. *)
Definition generationEvent (ev : Event) : Prop :=
  ∃ i, ev = Called (fn_generateWithNanoBanana i) ∨ ev = Called (fn_generateChart i)
       ∨ ev = Called (fn_generateDiagram i) ∨ ev = Settled i.

(** The filter of [getServicesByType]. *)
Definition ofTypeEnabled (type : ServiceType) (s : AIService) : bool :=
  bool_decide (service_type s = type) && enabled s.

Definition hasPriority (p : Z) (s : AIService) : bool :=
  bool_decide (priorityOr99 s = p).

Definition report (serviceId : string) (st : HealthStatus) : ServiceHealth :=
  {| health_serviceId := serviceId; status := st; latency := 120;
     lastChecked := "2025-01-01T00:00:00.000Z"; errorRate := 0;
     remainingQuota := None |}.

(** The default manager after a probe reported [openai-gpt4] degraded. *)
Definition manager_openai_degraded : ServiceManager :=
  exec (updateHealth "openai-gpt4" (report "openai-gpt4" degraded)) new_ServiceManager.

(** The default manager after both preferred image services of
    [concept-visualization] were switched off and Midjourney switched on. *)
Definition manager_midjourney_only : ServiceManager :=
  exec (configureService "nano-banana" {[ "enabled" := JBoolean false ]};;
        configureService "dall-e-3" {[ "enabled" := JBoolean false ]};;
        configureService "midjourney" {[ "enabled" := JBoolean true ]})
       new_ServiceManager.

(** A sample run: a paper whose deck has an introduction, a methods
    slide, a results slide quoting a percentage, a slide with a formula
    and a figure slide. *)
Definition sample_settings : UserSettings :=
  {| settings_provider := "openai"; settings_apiKey := "sk-test";
     settings_model := "gpt-4o" |}.

Definition sample_metadata : PaperMetadata :=
  {| title := "Sparse Attention at Scale"; authors := ["A. Author"];
     affiliations := ["A University"]; abstract := "We study sparse attention.";
     keywords := ["attention"]; publicationDate := None; doi := None;
     journal := None; conference := None; figures := []; tables := [];
     citations := []; references := []; wordCount := 5200; pageCount := 9;
     language := "en" |}.

Definition sample_slide (n : Z) (t : string) (content : list string) (l : SlideLayout)
    : EnhancedSlide :=
  mkEnhancedSlide n t content None l None None None None None None None.

Definition equation_slide : EnhancedSlide :=
  sample_slide 4 "Objective" ["We minimise $L(w)$"] layout_content.

Definition sample_slides : list EnhancedSlide :=
  [sample_slide 1 "Introduction" ["Context"] layout_content;
   sample_slide 2 "Methods" ["Sparse kernels"] layout_content;
   sample_slide 3 "Results" ["Accuracy: 93%"] layout_content;
   equation_slide;
   sample_slide 5 "Architecture" ["Overview"] layout_figure].

Definition sample_extract (content : list string) : list string := content.
Definition sample_encode (d : list string) : string := join "," d.

Definition analysis_ok (text : string) (settings : UserSettings) : Completion PaperMetadata :=
  Normal sample_metadata.
Definition analysis_down (text : string) (settings : UserSettings) : Completion PaperMetadata :=
  Throw "analysis failed".
Definition slides_ok (metadata : PaperMetadata) (settings : UserSettings)
    : Completion (list EnhancedSlide) :=
  Normal sample_slides.
Definition slides_equation_only (metadata : PaperMetadata) (settings : UserSettings)
    : Completion (list EnhancedSlide) :=
  Normal [equation_slide].
Definition endpoint_down (i : nat) (request : VisualAssetRequest) (apiKey : string)
    : Completion string :=
  Throw "Nano Banana API error: 503".

Definition nano_service : VisualServiceConfig :=
  {| visual_provider := nano_banana; visual_apiKey := "nb-test" |}.

Definition config_with_visuals : OrchestrationConfig :=
  {| textService := sample_settings; visualService := Some nano_service;
     generateVisuals := true |}.

Definition config_text_only : OrchestrationConfig :=
  {| textService := sample_settings; visualService := Some nano_service;
     generateVisuals := false |}.

(* ===================================================================== *)
(** ** Sequences of calls on a manager *)
(* ===================================================================== *)

(** The calls a program can make on the manager once it is constructed. *)
Inductive Call :=
| call_configureService (serviceId : string) (config : gmap string JSValue)
| call_updateHealth (serviceId : string) (h : ServiceHealth)
| call_initializeServices (settings : UserSettings).

Definition perform (c : Call) : JS ServiceManager unit :=
  match c with
  | call_configureService serviceId config => configureService serviceId config
  | call_updateHealth serviceId h => updateHealth serviceId h
  | call_initializeServices settings => initializeServices settings
  end.

(** The manager after the calls, made in the order of the list. *)
Definition after (calls : list Call) (this : ServiceManager) : ServiceManager :=
  foldl (λ m c, exec (perform c) m) this calls.

(** The keys of the map are distinct and each is the id of the service
    stored under it. *)
Definition wellFormed (this : ServiceManager) : Prop :=
  NoDup (services this).*1
  ∧ Forall (λ kv, kv.1 = service_id kv.2) (services this).

(** Two map entries under the same key whose services differ in the
    configuration at most. *)
Definition sameIdentity (a b : string * AIService) : Prop :=
  a.1 = b.1 ∧ a.2 = with_config b.2 (service_config a.2).

(** A health record of the id exists and does not say [healthy]. *)
Definition unhealthy (this : ServiceManager) (serviceId : string) : Prop :=
  ∃ h, health this !! serviceId = Some h ∧ status h ≠ healthy.

(** The [textServiceId] that [initializeServices] computes. *)
Definition textServiceId (settings : UserSettings) : string :=
  let p := settings_provider settings in
  if bool_decide (p = "openai") then "openai-gpt4"
  else if bool_decide (p = "anthropic") then "anthropic-claude"
  else if bool_decide (p = "google") then "google-gemini"
  else if bool_decide (p = "local") then "local-ollama"
  else "openai-gpt4".

Definition switch (on : bool) : gmap string JSValue := {[ "enabled" := JBoolean on ]}.

(** The id of the service a call resolved to, if any. *)
Definition resolvedId (c : Completion (option AIService)) : option string :=
  match c with
  | Normal (Some service) => Some (service_id service)
  | _ => None
  end.

(** The default manager after a probe reported [openai-gpt4] down. *)
Definition manager_openai_down : ServiceManager :=
  exec (updateHealth "openai-gpt4" (report "openai-gpt4" down)) new_ServiceManager.

(** The slide index of a call of the Nano Banana generator. *)
Definition nanoCallIndex (ev : Event) : option nat :=
  match ev with
  | Called (fn_generateWithNanoBanana i) => Some i
  | _ => None
  end.

Definition isConsoleError (ev : Event) : bool :=
  match ev with
  | ConsoleError _ _ => true
  | _ => false
  end.

(** A result before any artifact is stored. *)
Definition emptyResult (slides' : list EnhancedSlide) : OrchestrationResult :=
  {| slides := slides'; visuals := ∅; charts := ∅; diagrams := ∅ |}.

Definition dalle_service : VisualServiceConfig :=
  {| visual_provider := dall_e; visual_apiKey := "sk-test" |}.

Definition config_dalle : OrchestrationConfig :=
  {| textService := sample_settings; visualService := Some dalle_service;
     generateVisuals := true |}.

Definition slides_down (metadata : PaperMetadata) (settings : UserSettings)
    : Completion (list EnhancedSlide) :=
  Throw "slide generation failed".

Definition endpoint_ok (i : nat) (request : VisualAssetRequest) (apiKey : string)
    : Completion string :=
  Normal ("https://cdn.nano-banana.com/" +:+ pretty i +:+ ".png").

(* ===================================================================== *)
(** ** [validateDomainContent] of [src/lib/domain-experts.ts] *)
(* ===================================================================== *)

Record ContentValidation := {
  valid : bool;
  issues : list string
}.

(** [if (c) issues.push(issue)] *)
Definition push_if (c : bool) (issue : string) (issues : list string) : list string :=
  if c then issues ++ [issue] else issues.

(** The [switch] compares the domain with three string literals and has
    no [default]. The words searched for are ASCII, so a search of the
    UTF-16 text and a search of its bytes agree. *)
Definition validateDomainContent (domain content : string) : ContentValidation :=
  let issues :=
    if bool_decide (domain = "computer-science") then
      push_if (negb (includes content "algorithm") && negb (includes content "method"))
        "Consider explicitly describing your algorithm/method" []
    else if bool_decide (domain = "medicine") then
      push_if (negb (includes content "patient") && negb (includes content "participant"))
        "Clarify patient/participant population"
        (push_if (negb (includes content "p-value") && negb (includes content "CI"))
           "Consider adding statistical significance information" [])
    else if bool_decide (domain = "physics") then
      push_if (negb (includes content "equation") && negb (includes content "Eq."))
        "Consider including key equations" []
    else [] in
  {| valid := bool_decide (List.length issues = 0%nat); issues := issues |}.

(* ===================================================================== *)
(** ** [@/lib/services-config] *)
(* ===================================================================== *)

(** [services.filter(s => s.config.enabled)] *)
Definition getAllActiveServices (svcs : list AIService) : list AIService :=
  List.filter enabled svcs.

(** [services.some(s => s.type === 'image-generation' && s.config.enabled)] *)
Definition shouldUseVisualService (svcs : list AIService) : bool :=
  some (λ s, bool_decide (service_type s = image_generation) && enabled s) svcs.

Section ServicesConfig.

(** The table [DEFAULT_SERVICES]. Its text and image entries carry a
    fractional [temperature]; the functions below read no configuration
    value of a default, so they are modelled over any table. *)
Variable DEFAULT_SERVICES : list AIService.

(** [JSON.parse] of the stored text, followed by the reading of the
    [id] of each element. The store holds what [saveServices] wrote, an
    array of services, or a damaged text, on which one of the two
    throws. *)
Variable JSON_parse : string → Completion (list AIService).

(** [getServices()], given whether [window] is defined and how
    [localStorage.getItem(STORAGE_KEY)] ends; the result comes with the
    messages written by [console.error]. *)
Definition getServices (window : bool) (getItem : Completion (option string))
    : list AIService * list string :=
  if negb window then (DEFAULT_SERVICES, [])
  else
    match getItem with
    | Normal stored =>
        if truthy_opt stored then
          match JSON_parse (default "" stored) with
          | Normal parsed =>
              let storedIds := service_id <$> parsed in
              let missingDefaults :=
                List.filter (λ s, negb (bool_decide (service_id s ∈ storedIds)))
                  DEFAULT_SERVICES in
              (parsed ++ missingDefaults, [])
          | Throw _ => (DEFAULT_SERVICES, ["Failed to parse services from localStorage"])
          end
        else (DEFAULT_SERVICES, [])
    | Throw _ => (DEFAULT_SERVICES, ["Failed to parse services from localStorage"])
    end.

End ServicesConfig.

(* ===================================================================== *)
(** ** [ServicesConfig] of [src/components/services-config.tsx] *)
(* ===================================================================== *)

(** [updateService(serviceId, updates)], for the [updates] its one caller
    passes: an object with the single key [config]. The value is the
    list handed to [onUpdate]. *)
Definition updateService (svcs : list AIService) (serviceId : string)
    (config : gmap string JSValue) : list AIService :=
  (λ s, if bool_decide (service_id s = serviceId) then with_config s config else s) <$> svcs.

(** [updateServiceConfig(serviceId, config)]: the list handed to
    [onUpdate], or [None] when [onUpdate] is not called. *)
Definition updateServiceConfig (svcs : list AIService) (serviceId : string)
    (config : gmap string JSValue) : option (list AIService) :=
  match List.find (λ s, bool_decide (service_id s = serviceId)) svcs with
  | Some service => Some (updateService svcs serviceId (config ∪ service_config service))
  | None => None
  end.

(** Three of the default services, those configured by [enabled] alone. *)
Definition local_service (i : string) (t : ServiceType) (n d : string)
    (caps : list string) : AIService :=
  {| service_id := i; service_type := t; service_name := n;
     service_provider := "local"; service_description := d;
     service_capabilities := caps;
     service_config := {[ "enabled" := JBoolean true ]};
     service_requiresApiKey := Some false;
     service_priority := None |}.

Definition local_defaults : list AIService := [
  local_service "mermaid-diagram" diagram_generation "Mermaid.js"
    "Code-based diagrams and flowcharts"
    ["flowcharts"; "sequence-diagrams"; "class-diagrams"; "gantt-charts"];
  local_service "plotly-chart" chart_generation "Plotly.js"
    "Interactive data visualizations"
    ["line-charts"; "bar-charts"; "scatter-plots"; "3d-visualizations"];
  local_service "katex-equations" equation_rendering "KaTeX"
    "Fast math equation rendering"
    ["latex-equations"; "math-symbols"; "formulas"]
].

(** A store that holds one service, switched off by the user. *)
Definition stored_mermaid_off : list AIService := [
  with_config
    (local_service "mermaid-diagram" diagram_generation "Mermaid.js"
       "Code-based diagrams and flowcharts"
       ["flowcharts"; "sequence-diagrams"; "class-diagrams"; "gantt-charts"])
    {[ "enabled" := JBoolean false ]}
].

Definition parse_sample (text : string) : Completion (list AIService) :=
  if bool_decide (text = "[mermaid off]") then Normal stored_mermaid_off
  else if bool_decide (text = "[merged]") then
    Normal (stored_mermaid_off
            ++ List.filter (λ s, negb (bool_decide (service_id s = "mermaid-diagram")))
                 local_defaults)
  else Throw "SyntaxError".

(* ===================================================================== *)
(** * Properties of the service manager *)
(* ===================================================================== *)

Section MapFacts.
Context {V : Type}.
Implicit Types (m : list (string * V)) (k : string) (v : V).

Lemma Map_get_set_eq m k v : Map_get k (Map_set k v m) = Some v.
Proof.
  unfold Map_get. induction m as [|[k' v'] m IH]; simpl.
  - by rewrite bool_decide_eq_true_2.
  - destruct (bool_decide (k' = k)) eqn:E; simpl.
    + by rewrite bool_decide_eq_true_2.
    + by rewrite E.
Qed.

Lemma Map_get_set_ne m k k' v : k' ≠ k → Map_get k' (Map_set k v m) = Map_get k' m.
Proof.
  intros Hne. unfold Map_get. induction m as [|[k0 v0] m IH]; simpl.
  - by rewrite bool_decide_eq_false_2.
  - destruct (bool_decide (k0 = k)) eqn:E; simpl.
    + apply bool_decide_eq_true_1 in E. subst k0.
      by rewrite !bool_decide_eq_false_2.
    + destruct (bool_decide (k0 = k')); [done | exact IH].
Qed.

(** Setting a key that is present keeps every key at its position. *)
Lemma Map_set_keys m k v : is_Some (Map_get k m) → (Map_set k v m).*1 = m.*1.
Proof.
  unfold Map_get. induction m as [|[k0 v0] m IH]; simpl.
  - intros [? ?]; discriminate.
  - destruct (bool_decide (k0 = k)) eqn:E; simpl.
    + apply bool_decide_eq_true_1 in E. by subst k0.
    + intros H. f_equal. by apply IH.
Qed.
End MapFacts.

Lemma find_None_not_elem {A B} `{EqDecision B} (f : A → B) (b : B) (l : list A) :
  b ∉ f <$> l → List.find (fun x => bool_decide (f x = b)) l = None.
Proof.
  induction l as [|x l IH]; simpl; [done|].
  intros Hnot. rewrite not_elem_of_cons in Hnot. destruct Hnot as [Hne Hl].
  rewrite bool_decide_eq_false_2; [by apply IH | congruence].
Qed.

Lemma qualifies_status this serviceId service :
  qualifies this serviceId service →
  ∀ h, health this !! serviceId = Some h → status h = healthy.
Proof.
  intros (_ & _ & [Hnone | (h' & Hh' & Hst)]) h Hh; congruence.
Qed.

(** What the preference loop returns: the first qualifying id of the list,
    and nothing when no id qualifies. *)
Lemma firstPreferred_spec this ids :
  first_qualifying this ids (firstPreferred this ids).
Proof.
  unfold first_qualifying.
  induction ids as [|serviceId rest IH]; simpl.
  - intros i Hi. by apply elem_of_nil in Hi.
  - assert (Hskip : (∀ s, ¬ qualifies this serviceId s) →
      match firstPreferred this rest with
      | Some service =>
          ∃ before sid after,
            serviceId :: rest = before ++ sid :: after
            ∧ qualifies this sid service
            ∧ ∀ i, i ∈ before → ∀ s, ¬ qualifies this i s
      | None => ∀ i, i ∈ serviceId :: rest → ∀ s, ¬ qualifies this i s
      end).
    { intros Hno. destruct (firstPreferred this rest) as [service|].
      - destruct IH as (before & sid & after & -> & Hq & Hb).
        exists (serviceId :: before), sid, after. split; [done|]. split; [done|].
        intros i Hi. apply elem_of_cons in Hi as [-> | Hi]; [exact Hno | by apply Hb].
      - intros i Hi. apply elem_of_cons in Hi as [-> | Hi]; [exact Hno | by apply IH]. }
    destruct (Map_get serviceId (services this)) as [service|] eqn:Hget.
    + destruct (enabled service) eqn:Hen.
      * destruct (health this !! serviceId) as [h|] eqn:Hh.
        -- destruct (bool_decide (status h = healthy)) eqn:Hst.
           ++ apply bool_decide_eq_true_1 in Hst.
              exists [], serviceId, rest. split; [done|]. split.
              ** repeat split; eauto.
              ** intros i Hi. by apply elem_of_nil in Hi.
           ++ apply bool_decide_eq_false_1 in Hst. apply Hskip.
              intros s Hq. apply Hst. by eapply qualifies_status.
        -- exists [], serviceId, rest. split; [done|]. split.
           ** repeat split; eauto.
           ** intros i Hi. by apply elem_of_nil in Hi.
      * apply Hskip. intros s (Hs & He & _). congruence.
    + apply Hskip. intros s (Hs & _). congruence.
Qed.

Ltac decide_closed := apply (bool_decide_unpack _); vm_compute; exact I.

(** C1 (amended): for a task of the routing table, [getServiceForTask]
    walks [preferredServices] in order and returns the first service that
    is registered, enabled and either has no health record or is recorded
    [healthy]; it returns [null] when there is none, and leaves the manager
    as it was. A service whose record says [degraded], [unknown] or [down]
    never qualifies. *)
Theorem getServiceForTask_first_enabled_healthy
    (t : string) (routing : TaskRouting) (this : ServiceManager) :
  findRouting t = Some routing →
  ∃ r, getServiceForTask t this = (Normal r, this)
       ∧ first_qualifying this (preferredServices routing) r
       ∧ ∀ i h s, health this !! i = Some h → status h ≠ healthy → ¬ qualifies this i s.
Proof.
  intros Hfind. exists (firstPreferred this (preferredServices routing)).
  split; [| split].
  - unfold getServiceForTask. by rewrite Hfind.
  - apply firstPreferred_spec.
  - intros i h s Hh Hst Hq. apply Hst. by eapply qualifies_status.
Qed.

(** The rule on [speaker-script], in the manager where [openai-gpt4] is degraded. *)
Lemma getServiceForTask_first_enabled_healthy_witness :
  findRouting "speaker-script"
    = Some {| task := "speaker-script"; serviceType := text_analysis;
              preferredServices := ["anthropic-claude"; "openai-gpt4"];
              fallbackStrategy := next_available |}
  ∧ ∃ r, getServiceForTask "speaker-script" manager_openai_degraded
           = (Normal r, manager_openai_degraded)
         ∧ first_qualifying manager_openai_degraded ["anthropic-claude"; "openai-gpt4"] r
         ∧ ∀ i h s, health manager_openai_degraded !! i = Some h →
                    status h ≠ healthy → ¬ qualifies manager_openai_degraded i s.
Proof.
  split; [reflexivity |].
  apply (getServiceForTask_first_enabled_healthy "speaker-script"
           {| task := "speaker-script"; serviceType := text_analysis;
              preferredServices := ["anthropic-claude"; "openai-gpt4"];
              fallbackStrategy := next_available |}
           manager_openai_degraded).
  reflexivity.
Defined.

(** C1, as stated, fails: with [openai-gpt4] enabled and recorded
    [degraded], the contract's rule selects it for [paper-analysis], the
    code passes over it and returns [anthropic-claude]. *)
Lemma getServiceForTask_skips_degraded :
  ∃ routing service,
    findRouting "paper-analysis" = Some routing
    ∧ service_id <$> contract_firstPreferred manager_openai_degraded (preferredServices routing)
      = Some "openai-gpt4"
    ∧ getServiceForTask "paper-analysis" manager_openai_degraded
      = (Normal (Some service), manager_openai_degraded)
    ∧ service_id service = "anthropic-claude"
    ∧ Some service
      ≠ contract_firstPreferred manager_openai_degraded (preferredServices routing).
Proof.
  eexists _, _. split; [reflexivity |]. split; [vm_compute; reflexivity |].
  split; [vm_compute; reflexivity |]. split; [reflexivity |].
  intros H. apply (f_equal (fmap service_id)) in H. vm_compute in H. discriminate.
Qed.

(** C2 (amended): when no id of [preferredServices] qualifies,
    [getServiceForTask] returns [null]: the route's fallback strategy is
    not consulted and the other registered services of the capability type
    are not scanned. *)
Theorem getServiceForTask_no_fallback
    (t : string) (routing : TaskRouting) (this : ServiceManager) :
  findRouting t = Some routing →
  (∀ i, i ∈ preferredServices routing → ∀ s, ¬ qualifies this i s) →
  getServiceForTask t this = (Normal None, this).
Proof.
  intros Hfind Hnone. unfold getServiceForTask. rewrite Hfind.
  pose proof (firstPreferred_spec this (preferredServices routing)) as Hspec.
  destruct (firstPreferred this (preferredServices routing)) as [service|]; [|done].
  destruct Hspec as (before & sid & after & Heq & Hq & _).
  exfalso. apply (Hnone sid) with service; [| exact Hq].
  rewrite Heq. apply elem_of_app. right. apply elem_of_cons. by left.
Qed.

(** Neither preferred image service of [concept-visualization] qualifies once both are switched off. *)
Lemma midjourney_only_not_qualifying :
  ∀ i, i ∈ ["nano-banana"; "dall-e-3"] → ∀ s, ¬ qualifies manager_midjourney_only i s.
Proof.
  intros i Hi s (Hget & Hen & _).
  apply elem_of_cons in Hi as [-> | Hi].
  - vm_compute in Hget. injection Hget as <-. vm_compute in Hen. discriminate.
  - apply elem_of_cons in Hi as [-> | Hi]; [| by apply elem_of_nil in Hi].
    vm_compute in Hget. injection Hget as <-. vm_compute in Hen. discriminate.
Defined.

(** No fallback for [concept-visualization] although Midjourney is on. *)
Lemma getServiceForTask_no_fallback_witness :
  findRouting "concept-visualization"
    = Some {| task := "concept-visualization"; serviceType := image_generation;
              preferredServices := ["nano-banana"; "dall-e-3"];
              fallbackStrategy := next_available |}
  ∧ (∀ i, i ∈ ["nano-banana"; "dall-e-3"] → ∀ s, ¬ qualifies manager_midjourney_only i s)
  ∧ getServiceForTask "concept-visualization" manager_midjourney_only
    = (Normal None, manager_midjourney_only).
Proof.
  split; [reflexivity |]. split; [exact midjourney_only_not_qualifying |].
  apply (getServiceForTask_no_fallback "concept-visualization"
           {| task := "concept-visualization"; serviceType := image_generation;
              preferredServices := ["nano-banana"; "dall-e-3"];
              fallbackStrategy := next_available |}
           manager_midjourney_only).
  - reflexivity.
  - exact midjourney_only_not_qualifying.
Defined.

(** C2, as stated, fails: the route of [concept-visualization] has the
    next-available policy, none of its preferred services is enabled,
    Midjourney is a registered image service that is enabled and has no
    health record, and [getServiceForTask] still returns [null]. *)
Lemma getServiceForTask_ignores_next_available :
  ∃ routing other,
    findRouting "concept-visualization" = Some routing
    ∧ fallbackStrategy routing = next_available
    ∧ Map_get "midjourney" (services manager_midjourney_only) = Some other
    ∧ service_type other = serviceType routing
    ∧ enabled other = true
    ∧ health manager_midjourney_only !! "midjourney" = None
    ∧ getServiceForTask "concept-visualization" manager_midjourney_only
      = (Normal None, manager_midjourney_only).
Proof.
  eexists _, _. split; [reflexivity |]. split; [reflexivity |].
  split; [vm_compute; reflexivity |]. split; [reflexivity |].
  split; [vm_compute; reflexivity |]. split; [vm_compute; reflexivity |].
  vm_compute. reflexivity.
Qed.

(** C8: for a task name that is not in the routing table,
    [getServiceForTask] completes normally with [null]: it does not throw,
    returns no service, and leaves the manager as it was. *)
Theorem getServiceForTask_unknown_task (t : string) (this : ServiceManager) :
  t ∉ task <$> TASK_ROUTING →
  getServiceForTask t this = (Normal None, this).
Proof.
  intros Hnot. unfold getServiceForTask, findRouting.
  by rewrite (find_None_not_elem task t TASK_ROUTING Hnot).
Qed.

(** [analyze] is no task of the routing table. *)
Lemma getServiceForTask_unknown_task_witness :
  ("analyze" ∉ task <$> TASK_ROUTING)
  ∧ getServiceForTask "analyze" new_ServiceManager = (Normal None, new_ServiceManager).
Proof.
  assert (H : "analyze" ∉ task <$> TASK_ROUTING) by decide_closed.
  split; [exact H |].
  exact (getServiceForTask_unknown_task "analyze" new_ServiceManager H).
Defined.

(** C8, as stated, fails: resolving [analyze], a name that is not in the
    routing table, is no failure: the call completes normally with
    [null] and throws nothing, and a caller cannot tell it from the
    resolution of [concept-visualization], a task of the table none of
    whose preferred services is usable. The resolver of
    [@/lib/services-config] likewise returns [undefined]. *)
Lemma getServiceForTask_unknown_task_is_no_error :
  ("analyze" ∉ task <$> TASK_ROUTING)
  ∧ getServiceForTask "analyze" new_ServiceManager = (Normal None, new_ServiceManager)
  ∧ (¬ ∃ e, eval (getServiceForTask "analyze") new_ServiceManager = Throw e)
  ∧ ("concept-visualization" ∈ task <$> TASK_ROUTING)
  ∧ eval (getServiceForTask "analyze") manager_midjourney_only
    = eval (getServiceForTask "concept-visualization") manager_midjourney_only
  ∧ domain_getServiceForTask "analyze" SERVICE_REGISTRY = None.
Proof.
  split; [decide_closed |]. split; [reflexivity |].
  split; [intros [e He]; vm_compute in He; discriminate |].
  split; [decide_closed |]. split; vm_compute; reflexivity.
Qed.

(** The same holds of [getServiceForTask] in [domain-experts.ts]: a task
    whose lower-cased name is none of the seven keys of [taskMap] gets
    [undefined], also when the lookup finds an inherited property. *)
Lemma domain_getServiceForTask_unknown_task (t : string) (svcs : list AIService) :
  toLowerCase t ∉ ["image"; "diagram"; "chart"; "equation"; "voice"; "layout"; "citation"] →
  domain_getServiceForTask t svcs = None.
Proof.
  intros Hnot. unfold domain_getServiceForTask.
  assert (Hcase : taskMap (toLowerCase t) = None
                  ∨ taskMap (toLowerCase t) = Some InheritedEntry).
  { unfold taskMap.
    repeat (case_bool_decide;
            [ first [ right; reflexivity
                    | exfalso; apply Hnot;
                      match goal with Hk : toLowerCase t = _ |- _ => rewrite Hk end;
                      decide_closed ] | ]).
    left. reflexivity. }
  destruct Hcase as [-> | ->]; [reflexivity |].
  unfold getActiveService. induction svcs as [|s svcs IH]; [reflexivity | exact IH].
Qed.

(** C9 (amended): [configureService] never throws. For an id that is not
    registered it does nothing at all; for a registered id it replaces
    that service's configuration by the old one overridden with the given
    keys, and leaves the other services, the registration order and the
    health records as they were. *)
Theorem configureService_spec
    (serviceId : string) (config : gmap string JSValue) (this : ServiceManager) :
  match Map_get serviceId (services this) with
  | None => configureService serviceId config this = (Normal tt, this)
  | Some service =>
      ∃ this' service',
        configureService serviceId config this = (Normal tt, this')
        ∧ Map_get serviceId (services this') = Some service'
        ∧ service' = with_config service (service_config service')
        ∧ (∀ k, service_config service' !! k
                = match config !! k with
                  | Some v => Some v
                  | None => service_config service !! k
                  end)
        ∧ (∀ other, other ≠ serviceId →
                    Map_get other (services this') = Map_get other (services this))
        ∧ (services this').*1 = (services this).*1
        ∧ health this' = health this
  end.
Proof.
  destruct (Map_get serviceId (services this)) as [service|] eqn:Hget.
  - eexists _, _. split; [| split; [| split; [| split; [| split; [| split]]]]].
    + unfold configureService. rewrite Hget. reflexivity.
    + simpl. apply Map_get_set_eq.
    + reflexivity.
    + intros k. simpl. rewrite lookup_union.
      destruct (config !! k), (service_config service !! k); reflexivity.
    + intros other Hne. simpl. by apply Map_get_set_ne.
    + simpl. apply Map_set_keys. rewrite Hget. eauto.
    + reflexivity.
  - unfold configureService. by rewrite Hget.
Qed.

(** C9, as stated, fails: configuring an id that is not registered does
    not fail, it completes normally and changes nothing. *)
Lemma configureService_unknown_id_is_silent :
  Map_get "no-such-service" (services new_ServiceManager) = None
  ∧ configureService "no-such-service" {[ "enabled" := JBoolean true ]} new_ServiceManager
    = (Normal tt, new_ServiceManager)
  ∧ ¬ ∃ e, eval (configureService "no-such-service" {[ "enabled" := JBoolean true ]})
             new_ServiceManager = Throw e.
Proof.
  split; [reflexivity |]. split; [reflexivity |].
  intros [e He]. vm_compute in He. discriminate.
Qed.

(** *** Sorting by priority *)

Section SortFacts.
Context {A : Type} (key : A → Z).

Lemma insert_by_Permutation x l : insert_by key x l ≡ₚ x :: l.
Proof.
  induction l as [|y ys IH]; simpl; [done|].
  case_bool_decide; [done|]. rewrite IH. apply perm_swap.
Qed.

Lemma sort_by_Permutation l : sort_by key l ≡ₚ l.
Proof.
  induction l as [|x l IH]; simpl; [done|].
  rewrite insert_by_Permutation. by rewrite IH.
Qed.

Lemma insert_by_sorted x l :
  StronglySorted (λ a b, key a ≤ key b)%Z l →
  StronglySorted (λ a b, key a ≤ key b)%Z (insert_by key x l).
Proof.
  induction 1 as [|y ys Hs IH Hall]; simpl.
  - repeat constructor.
  - case_bool_decide as Hle.
    + constructor; [by constructor|].
      constructor; [done|]. eapply Forall_impl; [exact Hall|].
      simpl. intros z Hz. lia.
    + constructor; [exact IH|].
      rewrite insert_by_Permutation. constructor; [lia | exact Hall].
Qed.

Lemma sort_by_sorted l : StronglySorted (λ a b, key a ≤ key b)%Z (sort_by key l).
Proof.
  induction l as [|x l IH]; simpl; [constructor|]. by apply insert_by_sorted.
Qed.

(** Stability: among the elements of one key the input order is kept. *)
Lemma insert_by_stable p x l :
  List.filter (λ a, bool_decide (key a = p)) (insert_by key x l)
  = List.filter (λ a, bool_decide (key a = p)) (x :: l).
Proof.
  induction l as [|y ys IH]; [done|].
  cbn [insert_by]. case_bool_decide as Hle; [done|].
  cbn [List.filter] in *. rewrite IH.
  repeat case_bool_decide; try done. lia.
Qed.

Lemma sort_by_stable p l :
  List.filter (λ a, bool_decide (key a = p)) (sort_by key l)
  = List.filter (λ a, bool_decide (key a = p)) l.
Proof.
  induction l as [|x l IH]; [done|].
  cbn [sort_by foldr]. rewrite insert_by_stable.
  cbn [List.filter]. fold (sort_by key l). by rewrite IH.
Qed.
End SortFacts.

(** C7 (amended): [getServicesByType] returns the registered services of
    the type that are enabled (each once per registration, whatever their
    health), ordered by ascending [priority || 99], services of equal
    priority in registration order; it leaves the manager as it was. *)
Theorem getServicesByType_spec (type : ServiceType) (this : ServiceManager) :
  ∃ l, getServicesByType type this = (Normal l, this)
       ∧ l ≡ₚ List.filter (ofTypeEnabled type) (Map_values (services this))
       ∧ StronglySorted (λ a b, priorityOr99 a ≤ priorityOr99 b)%Z l
       ∧ (∀ p, List.filter (hasPriority p) l
               = List.filter (hasPriority p)
                   (List.filter (ofTypeEnabled type) (Map_values (services this))))
       ∧ (∀ h', getServicesByType type {| services := services this; health := h' |}
                = (Normal l, {| services := services this; health := h' |})).
Proof.
  eexists. split; [reflexivity |]. split; [| split; [| split]].
  - apply sort_by_Permutation.
  - apply sort_by_sorted.
  - intros p. apply (sort_by_stable priorityOr99).
  - intros h'. reflexivity.
Qed.

(** C7, as stated, fails: [local-ollama] is a registered text-analysis
    service, it is disabled, and the list for that type leaves it out. *)
Lemma getServicesByType_omits_disabled :
  ∃ service l,
    Map_get "local-ollama" (services new_ServiceManager) = Some service
    ∧ service_type service = text_analysis
    ∧ getServicesByType text_analysis new_ServiceManager = (Normal l, new_ServiceManager)
    ∧ service_id <$> l = ["openai-gpt4"; "anthropic-claude"; "google-gemini"]
    ∧ service ∉ l.
Proof.
  eexists _, _. split; [vm_compute; reflexivity |]. split; [reflexivity |].
  split; [reflexivity |]. split; [vm_compute; reflexivity |].
  intros Hin. apply (list_elem_of_fmap_2 service_id) in Hin.
  vm_compute in Hin.
  repeat (apply elem_of_cons in Hin as [Hin | Hin]; [discriminate |]).
  by apply elem_of_nil in Hin.
Qed.

(* ===================================================================== *)
(** * Properties of the planner and of the pipeline *)
(* ===================================================================== *)

Section PipelineProperties.

Context {ChartData : Type}.
Variable extractChartData : list string -> ChartData.
Variable encodeChartConfig : ChartData -> string.
Variable analyzePaperEnhanced : string -> UserSettings -> Completion PaperMetadata.
Variable generateEnhancedSlides :
  PaperMetadata -> UserSettings -> Completion (list EnhancedSlide).
Variable nanoBananaEndpoint : nat -> VisualAssetRequest -> string -> Completion string.

Local Abbreviation planSlide' := (planSlide extractChartData).
Local Abbreviation planVisuals_from' := (planVisuals_from extractChartData).
Local Abbreviation planVisuals' := (planVisuals extractChartData).
Local Abbreviation generateVisual' := (generateVisual encodeChartConfig nanoBananaEndpoint).
Local Abbreviation visualUnit' := (visualUnit encodeChartConfig nanoBananaEndpoint).
Local Abbreviation fanOut' := (fanOut encodeChartConfig nanoBananaEndpoint).
Local Abbreviation fate' := (fate nanoBananaEndpoint).
Local Abbreviation countFate' := (countFate nanoBananaEndpoint).
Local Abbreviation orchestratePresentation' :=
  (orchestratePresentation extractChartData encodeChartConfig analyzePaperEnhanced
     generateEnhancedSlides nanoBananaEndpoint).

(** *** The planner *)

Lemma planSlide_index metadata index slide :
  slideIndex (planSlide' metadata index slide) = index.
Proof. unfold planSlide. repeat case_match; reflexivity. Qed.

Lemma planSlide_title metadata index slide :
  slideTitle (planSlide' metadata index slide) = slide_title slide.
Proof. unfold planSlide. repeat case_match; reflexivity. Qed.

Lemma planSlide_classify metadata index slide :
  visualType (planSlide' metadata index slide) = classify index slide.
Proof.
  unfold planSlide, classify, figureHint, processPattern, numericPattern,
    mathNotation, everyNth.
  repeat case_match; reflexivity.
Qed.

Lemma planVisuals_from_keyed metadata slides : ∀ index,
  keyed <$> planVisuals_from' index slides metadata
  = List.filter wanted (imap (λ i slide, (index + i, classify (index + i) slide)%nat) slides).
Proof.
  induction slides as [|slide rest IH]; intros index; [reflexivity |].
  cbn [planVisuals_from imap List.filter]. unfold wanted at 1. cbn [snd].
  rewrite Nat.add_0_r, <- (planSlide_classify metadata index slide).
  assert (Hrest : imap ((λ i s, (index + i, classify (index + i) s)%nat) ∘ S) rest
                  = imap (λ i s, (S index + i, classify (S index + i) s)%nat) rest).
  { apply imap_ext. intros i s _. simpl. by rewrite Nat.add_succ_r. }
  rewrite Hrest, <- IH.
  destruct (bool_decide (visualType (planSlide' metadata index slide) ≠ none)); [| reflexivity].
  rewrite fmap_cons. unfold keyed at 1. by rewrite planSlide_index.
Qed.

Lemma planVisuals_from_elem metadata slides : ∀ index plan,
  plan ∈ planVisuals_from' index slides metadata
  ↔ ∃ i slide, slides !! i = Some slide
               ∧ plan = planSlide' metadata (index + i) slide
               ∧ visualType plan ≠ none.
Proof.
  induction slides as [|slide rest IH]; intros index plan.
  - cbn [planVisuals_from]. split.
    + intros H. by apply elem_of_nil in H.
    + intros (i & s & Hl & _). by rewrite lookup_nil in Hl.
  - cbn [planVisuals_from].
    assert (Hhere : plan = planSlide' metadata index slide ∧ visualType plan ≠ none
                    ∨ plan ∈ planVisuals_from' (S index) rest metadata
                    ↔ ∃ i s, (slide :: rest) !! i = Some s
                             ∧ plan = planSlide' metadata (index + i) s
                             ∧ visualType plan ≠ none).
    { rewrite IH. split.
      - intros [[-> Hv] | (i & s & Hl & -> & Hv)].
        + exists 0%nat, slide. by rewrite Nat.add_0_r.
        + exists (S i), s. by rewrite Nat.add_succ_r.
      - intros (i & s & Hl & -> & Hv). destruct i as [|i].
        + left. injection Hl as ->. by rewrite Nat.add_0_r in *.
        + right. exists i, s. by rewrite Nat.add_succ_r in *. }
    rewrite <- Hhere. case_bool_decide as Hv.
    + rewrite elem_of_cons. split.
      * intros [-> | H]; [by left | by right].
      * intros [[-> _] | H]; [by left | by right].
    + split; [by right |]. intros [[-> Hv'] | H]; [done | exact H].
Qed.

(** C6: [planVisuals] is a function of its arguments alone, and the
    (index, kind) pairs of the plans it returns are, in order, those of the
    input sections classified by the ordered rules (figure hint, then
    process pattern, then numeric pattern, then mathematical notation, then
    every fifth section, else none) with the sections classified [none]
    left out; the kinds and indices do not depend on the metadata. *)
Theorem planVisuals_classifies (slides : list EnhancedSlide) (metadata : PaperMetadata) :
  keyed <$> planVisuals' slides metadata
  = List.filter wanted (imap (λ index slide, (index, classify index slide)) slides)
  ∧ (∀ plan, plan ∈ planVisuals' slides metadata →
       visualType plan ≠ none
       ∧ ∃ slide, slides !! slideIndex plan = Some slide
                  ∧ visualType plan = classify (slideIndex plan) slide
                  ∧ slideTitle plan = slide_title slide)
  ∧ (∀ index slide, slides !! index = Some slide → classify index slide ≠ none →
       ∃ plan, plan ∈ planVisuals' slides metadata ∧ slideIndex plan = index)
  ∧ (∀ metadata', keyed <$> planVisuals' slides metadata'
                  = keyed <$> planVisuals' slides metadata).
Proof.
  assert (Hkeyed : ∀ md, keyed <$> planVisuals' slides md
    = List.filter wanted (imap (λ index slide, (index, classify index slide)) slides)).
  { intros md. unfold planVisuals. by rewrite planVisuals_from_keyed. }
  split; [apply Hkeyed |]. split; [| split].
  - intros plan Hin. unfold planVisuals in Hin.
    apply planVisuals_from_elem in Hin as (i & slide & Hl & -> & Hv).
    split; [exact Hv |]. exists slide.
    rewrite planSlide_index, planSlide_title, planSlide_classify. by simpl.
  - intros index slide Hl Hc. exists (planSlide' metadata index slide).
    split; [| apply planSlide_index].
    unfold planVisuals. apply planVisuals_from_elem. exists index, slide.
    split; [exact Hl |]. split; [reflexivity |]. by rewrite planSlide_classify.
  - intros md'. by rewrite !Hkeyed.
Qed.

(** *** Computations on the console *)

Lemma appends_mret {A} (a : A) : appends (mret a).
Proof. intros tr. cbn. by rewrite app_nil_r. Qed.

Lemma appends_throw {A} (e : string) : appends (@throw _ A e).
Proof. intros tr. cbn. by rewrite app_nil_r. Qed.

Lemma appends_external {A} (c : Completion A) : appends (external c).
Proof. intros tr. cbn. by rewrite app_nil_r. Qed.

Lemma appends_emit (ev : Event) : appends (emit ev).
Proof. intros tr. reflexivity. Qed.

Lemma appends_bind {A B} (c : JS (list Event) A) (k : A → JS (list Event) B) :
  appends c → (∀ a, appends (k a)) → appends (c ≫= k).
Proof.
  intros Hc Hk tr. unfold mbind, JS_bind.
  rewrite (Hc tr). destruct (c []) as [[a | e] t1]; cbn.
  - rewrite (Hk a (tr ++ t1)), (Hk a t1). cbn. by rewrite app_assoc.
  - reflexivity.
Qed.

Lemma appends_tryCatch {A} (body : JS (list Event) A) (handler : string → JS (list Event) A) :
  appends body → (∀ e, appends (handler e)) → appends (tryCatch body handler).
Proof.
  intros Hb Hh tr. unfold tryCatch.
  rewrite (Hb tr). destruct (body []) as [[a | e] t1]; cbn.
  - reflexivity.
  - rewrite (Hh e (tr ++ t1)), (Hh e t1). cbn. by rewrite app_assoc.
Qed.

Lemma appends_foldJS {A B} (f : B → A → JS (list Event) B) (l : list A) :
  (∀ acc x, appends (f acc x)) → ∀ acc, appends (foldJS f acc l).
Proof.
  intros Hf. induction l as [|x l IH]; intros acc; cbn [foldJS].
  - apply appends_mret.
  - apply appends_bind; [apply Hf | exact IH].
Qed.

Create HintDb console discriminated.
#[local] Hint Resolve appends_mret appends_throw appends_external appends_emit : console.
#[local] Hint Extern 2 (appends (_ ≫= _)) =>
  apply appends_bind; [| intros ?] : console.
#[local] Hint Extern 2 (appends (tryCatch _ _)) =>
  apply appends_tryCatch; [| intros ?] : console.
#[local] Hint Extern 1 (appends (console_log _)) => apply appends_emit : console.
#[local] Hint Extern 1 (appends (console_error _ _)) => apply appends_emit : console.

Lemma appends_generateVisual metadata visualService result plan :
  appends (generateVisual' metadata visualService result plan).
Proof.
  unfold generateVisual, generateWithNanoBanana, generateChart, generateDiagram.
  repeat case_match; auto 10 with console.
Qed.

Lemma appends_visualUnit metadata visualService result plan :
  appends (visualUnit' metadata visualService result plan).
Proof.
  unfold visualUnit. pose proof appends_generateVisual. auto 10 with console.
Qed.

Lemma appends_fanOut metadata visualService plans result :
  appends (fanOut' metadata visualService result plans).
Proof. apply appends_foldJS. intros. apply appends_visualUnit. Qed.

Lemma appends_orchestratePresentation paperText config :
  appends (orchestratePresentation' paperText config).
Proof.
  unfold orchestratePresentation, analyzePaperWithService, generateSlidesWithService.
  pose proof appends_fanOut.
  repeat (first [ apply appends_bind; [| intros ?] | case_match ]);
    auto 10 with console.
Qed.

(** *** One fan-out unit *)

Ltac run_console :=
  unfold visualUnit, generateVisual, generateWithNanoBanana, generateChart,
    generateDiagram, tryCatch, console_error, console_log, emit, modify,
    external, throw, mbind, mret, JS_bind, JS_ret; cbn.

(** A unit always settles normally, ends by settling, writes no
    [console.log], and treats its plan as [fate] says. *)
Lemma visualUnit_run metadata visualService result plan :
  ∃ result' evs,
    visualUnit' metadata visualService result plan []
    = (Normal result', evs ++ [Settled (slideIndex plan)])
    ∧ slides result' = slides result
    ∧ (∀ ev, ev ∈ evs → (∃ fn, ev = Called fn ∧ fn ≠ fn_planVisuals)
                        ∨ ∃ msg e, ev = ConsoleError msg e)
    ∧ match fate' metadata visualService plan with
      | Recorded =>
          (∀ msg e, ConsoleError msg e ∉ evs)
          ∧ ∃ v, (visualType plan = illustration
                  ∧ result' = set_visuals result (slideIndex plan) v)
                 ∨ (visualType plan = chart
                    ∧ result' = set_charts result (slideIndex plan) v)
                 ∨ (visualType plan = diagram
                    ∧ result' = set_diagrams result (slideIndex plan) v)
      | Failed =>
          result' = result
          ∧ (∃ e, ConsoleError (failureMessage (slideIndex plan)) e ∈ evs)
          ∧ ∀ msg e, ConsoleError msg e ∈ evs →
                     msg = failureMessage (slideIndex plan)
                     ∨ msg = "Nano Banana generation failed:"
      | Skipped => result' = result ∧ evs = []
      end.
Proof.
  unfold fate. run_console.
  destruct (bool_decide (visualType plan = illustration) && truthy_opt (prompt plan)) eqn:Hill.
  - apply andb_true_iff in Hill as [Hty _]. apply bool_decide_eq_true_1 in Hty.
    destruct (bool_decide (visual_provider visualService = nano_banana)); cbn.
    + destruct (nanoBananaEndpoint _ _ _) as [url | e]; cbn.
      * exists (set_visuals result (slideIndex plan) url),
               [Called (fn_generateWithNanoBanana (slideIndex plan))].
        split; [reflexivity |]. split; [reflexivity |]. split; [| split].
        -- intros ev Hev. apply list_elem_of_singleton in Hev as ->. left. eauto.
        -- intros msg e Hin. by apply list_elem_of_singleton in Hin.
        -- exists url. by left.
      * exists result,
               [Called (fn_generateWithNanoBanana (slideIndex plan));
                ConsoleError "Nano Banana generation failed:" e;
                ConsoleError (failureMessage (slideIndex plan)) e].
        split; [reflexivity |]. split; [reflexivity |]. split; [| split; [| split]].
        -- intros ev Hev.
           repeat (apply elem_of_cons in Hev as [-> | Hev]; [eauto |]).
           by apply elem_of_nil in Hev.
        -- reflexivity.
        -- exists e. do 2 apply list_elem_of_further. apply list_elem_of_here.
        -- intros msg e' Hin.
           repeat (apply elem_of_cons in Hin as [Heq | Hin];
                   [ first [ discriminate | injection Heq as -> ->; auto ] |]).
           by apply elem_of_nil in Hin.
    + exists result, []. repeat split; try reflexivity.
      intros ev Hev. by apply elem_of_nil in Hev.
  - destruct (bool_decide (visualType plan = chart) && bool_decide (is_Some (data plan))) eqn:Hch.
    + apply andb_true_iff in Hch as [Hty Hd].
      apply bool_decide_eq_true_1 in Hty. apply bool_decide_eq_true_1 in Hd.
      destruct (data plan) as [d|]; [| by destruct Hd]. cbn.
      eexists _, [Called (fn_generateChart (slideIndex plan))].
      split; [reflexivity |]. split; [reflexivity |]. split; [| split].
      * intros ev Hev. apply list_elem_of_singleton in Hev as ->. left. eauto.
      * intros msg e Hin. by apply list_elem_of_singleton in Hin.
      * eexists. right. left. split; [exact Hty | reflexivity].
    + destruct (bool_decide (visualType plan = diagram)) eqn:Hdi; cbn.
      * apply bool_decide_eq_true_1 in Hdi.
        eexists _, [Called (fn_generateDiagram (slideIndex plan))].
        split; [reflexivity |]. split; [reflexivity |]. split; [| split].
        -- intros ev Hev. apply list_elem_of_singleton in Hev as ->. left. eauto.
        -- intros msg e Hin. by apply list_elem_of_singleton in Hin.
        -- eexists. right. right. split; [exact Hdi | reflexivity].
      * exists result, []. repeat split; try reflexivity.
        intros ev Hev. by apply elem_of_nil in Hev.
Qed.

Lemma append_char_inj (s1 s2 : string) (c : ascii) :
  s1 +:+ String c "" = s2 +:+ String c "" → s1 = s2.
Proof.
  revert s2. induction s1 as [|a s1 IH]; intros [|b s2] H; cbn in H.
  - reflexivity.
  - injection H as _ H. destruct s2; discriminate.
  - injection H as _ H. destruct s1; discriminate.
  - injection H as -> H. f_equal. by apply IH.
Qed.

Lemma failureMessage_inj i j : failureMessage i = failureMessage j → i = j.
Proof.
  unfold failureMessage. intros H.
  apply (inj (String.app _)) in H. apply append_char_inj in H.
  by apply (inj pretty) in H.
Qed.

Lemma failureMessage_not_inner i : failureMessage i ≠ "Nano Banana generation failed:".
Proof. unfold failureMessage. cbn. discriminate. Qed.

Lemma fate_Recorded_kind metadata visualService (plan : @VisualGenerationPlan ChartData) :
  fate' metadata visualService plan = Recorded →
  visualType plan = illustration ∨ visualType plan = chart ∨ visualType plan = diagram.
Proof.
  unfold fate. repeat case_match; try discriminate; intros _;
    repeat match goal with
           | H : _ && _ = true |- _ => apply andb_true_iff in H as [? ?]
           | H : bool_decide _ = true |- _ => apply bool_decide_eq_true_1 in H
           end; auto.
Qed.

(** What a unit adds to the map of each kind, and when it logs a failure. *)
Lemma visualUnit_effect metadata visualService result plan :
  ∃ result' evs,
    visualUnit' metadata visualService result plan []
    = (Normal result', evs ++ [Settled (slideIndex plan)])
    ∧ slides result' = slides result
    ∧ (∀ ev, ev ∈ evs → (∃ fn, ev = Called fn ∧ fn ≠ fn_planVisuals)
                        ∨ ∃ msg e, ev = ConsoleError msg e)
    ∧ (∀ kind, dom (mapOf kind result')
               = dom (mapOf kind result)
                 ∪ (if decide (fate' metadata visualService plan = Recorded
                               ∧ visualType plan = kind)
                    then {[ slideIndex plan ]} else ∅))
    ∧ (∀ i, failureLogged i evs
            ↔ slideIndex plan = i ∧ fate' metadata visualService plan = Failed).
Proof.
  destruct (visualUnit_run metadata visualService result plan)
    as (result' & evs & Hrun & Hsl & Hevs & Hfate).
  exists result', evs. split; [exact Hrun |]. split; [exact Hsl |]. split; [exact Hevs |].
  destruct (fate' metadata visualService plan) eqn:Hf.
  - destruct Hfate as (Hquiet & v & Hstore). split.
    + intros kind. case_decide as Hk.
      * destruct Hk as [_ <-].
        destruct Hstore as [[Hty ->] | [[Hty ->] | [Hty ->]]]; rewrite Hty; cbn;
          by rewrite dom_insert_L, (comm_L (∪)).
      * assert (visualType plan ≠ kind) as Hne by tauto.
        destruct Hstore as [[Hty ->] | [[Hty ->] | [Hty ->]]]; rewrite Hty in Hne;
          destruct kind; try done; cbn; by rewrite union_empty_r_L.
    + intros i. split; [| by intros [_ ?]].
      intros [e He]. by apply Hquiet in He.
  - destruct Hfate as (-> & Hlogged & Honly). split.
    + intros kind. case_decide as Hk; [by destruct Hk | by rewrite union_empty_r_L].
    + intros i. split.
      * intros [e He]. apply Honly in He as [He | He].
        -- by apply failureMessage_inj in He.
        -- by apply failureMessage_not_inner in He.
      * intros [<- _]. exact Hlogged.
  - destruct Hfate as (-> & ->). split.
    + intros kind. case_decide as Hk; [by destruct Hk | by rewrite union_empty_r_L].
    + intros i. split; [| by intros [_ ?]].
      intros [e He]. by apply elem_of_nil in He.
Qed.

(** *** The fan-out *)

Lemma recordedAs_cons metadata visualService kind
    (plan : @VisualGenerationPlan ChartData) rest :
  recordedAs nanoBananaEndpoint metadata visualService kind (plan :: rest)
  = if decide (fate' metadata visualService plan = Recorded ∧ visualType plan = kind)
    then slideIndex plan :: recordedAs nanoBananaEndpoint metadata visualService kind rest
    else recordedAs nanoBananaEndpoint metadata visualService kind rest.
Proof. unfold recordedAs. rewrite filter_cons. by case_decide. Qed.

(** The whole stage: it completes normally whatever the units met, every
    unit has settled by then, and the maps and the console hold what the
    fates of the plans say. *)
Lemma fanOut_run metadata visualService plans : ∀ result,
  ∃ result' stage,
    fanOut' metadata visualService result plans [] = (Normal result', stage)
    ∧ slides result' = slides result
    ∧ (∀ ev, ev ∈ stage → stageEvent ev)
    ∧ (∀ plan, plan ∈ plans → Settled (slideIndex plan) ∈ stage)
    ∧ (∀ kind, dom (mapOf kind result')
               = dom (mapOf kind result)
                 ∪ list_to_set (recordedAs nanoBananaEndpoint metadata visualService kind plans))
    ∧ (∀ i, failureLogged i stage
            ↔ ∃ plan, plan ∈ plans ∧ slideIndex plan = i
                      ∧ fate' metadata visualService plan = Failed).
Proof.
  induction plans as [|plan rest IH]; intros result.
  - exists result, []. split; [reflexivity |]. split; [reflexivity |].
    split; [| split; [| split; [| split]]].
    + intros ev Hev. by apply elem_of_nil in Hev.
    + intros plan Hin. by apply elem_of_nil in Hin.
    + intros kind. cbn. by rewrite union_empty_r_L.
    + intros [e He]. by apply elem_of_nil in He.
    + intros (plan & Hin & _). by apply elem_of_nil in Hin.
  - destruct (visualUnit_effect metadata visualService result plan)
      as (result1 & evs & Hrun & Hsl1 & Hevs & Hdom1 & Hlog1).
    destruct (IH result1) as (result' & stage & Hrest & Hsl & Hstage & Hsettled & Hdom & Hlog).
    exists result', (evs ++ [Settled (slideIndex plan)] ++ stage).
    split; [| split; [| split; [| split; [| split]]]].
    + unfold fanOut. cbn [foldJS]. unfold mbind, JS_bind. rewrite Hrun.
      fold (fanOut' metadata visualService result1 rest).
      rewrite (appends_fanOut metadata visualService rest result1 _), Hrest. cbn.
      by rewrite <- app_assoc.
    + congruence.
    + intros ev Hev. rewrite !elem_of_app in Hev. destruct Hev as [Hev | [Hev | Hev]].
      * destruct (Hevs ev Hev) as [H | H]; [by left | by right; left].
      * apply list_elem_of_singleton in Hev as ->. right. right. eauto.
      * by apply Hstage.
    + intros p Hp. rewrite !elem_of_app. apply elem_of_cons in Hp as [-> | Hp].
      * right. left. apply list_elem_of_here.
      * right. right. by apply Hsettled.
    + intros kind. rewrite Hdom, Hdom1, recordedAs_cons.
      destruct (decide (fate' metadata visualService plan = Recorded
                        ∧ visualType plan = kind)).
      * by rewrite list_to_set_cons, (assoc_L (∪)).
      * by rewrite union_empty_r_L.
    + intros i. unfold failureLogged in *. split.
      * intros [e He]. rewrite !elem_of_app in He. destruct He as [He | [He | He]].
        -- exists plan. split; [apply list_elem_of_here |]. apply Hlog1. eauto.
        -- by apply list_elem_of_singleton in He.
        -- destruct (proj1 (Hlog i)) as (p & Hp & Hi & Hf); [eauto |].
           exists p. split; [by apply list_elem_of_further | done].
      * intros (p & Hp & Hi & Hf). apply elem_of_cons in Hp as [-> | Hp].
        -- destruct (proj2 (Hlog1 i)) as [e He]; [done |].
           exists e. rewrite elem_of_app. by left.
        -- destruct (proj2 (Hlog i)) as [e He]; [eauto |].
           exists e. rewrite !elem_of_app. by right; right.
Qed.

(** *** The pipeline *)

Ltac run_pipeline :=
  unfold orchestratePresentation, analyzePaperWithService, generateSlidesWithService,
    console_log, emit, modify, external, throw, mbind, mret, JS_bind, JS_ret; cbn.

Lemma orchestratePresentation_analysis_fails paperText config e :
  analyzePaperEnhanced paperText (textService config) = Throw e →
  orchestratePresentation' paperText config []
  = (Throw e, [ConsoleLog "Step 1: Analyzing paper with text service...";
               Called fn_analyzePaperWithService]).
Proof. intros Ha. run_pipeline. by rewrite Ha. Qed.

Lemma orchestratePresentation_slides_fail paperText config metadata e :
  analyzePaperEnhanced paperText (textService config) = Normal metadata →
  generateEnhancedSlides metadata (textService config) = Throw e →
  orchestratePresentation' paperText config [] = (Throw e, criticalPathEvents).
Proof. intros Ha Hs. run_pipeline. rewrite Ha. cbn. by rewrite Hs. Qed.

Lemma criticalPathEvents_quiet (l : list Event) :
  l `sublist_of` criticalPathEvents →
  (Called fn_planVisuals ∉ l) ∧ ∀ ev, ev ∈ l → ¬ generationEvent ev.
Proof.
  intros Hsub. split.
  - intros Hin. eapply elem_of_sublist in Hin; [| exact Hsub].
    repeat (apply elem_of_cons in Hin as [Hin | Hin]; [discriminate |]).
    by apply elem_of_nil in Hin.
  - intros ev Hin [i Hi]. eapply elem_of_sublist in Hin; [| exact Hsub].
    repeat (apply elem_of_cons in Hin as [-> | Hin];
            [destruct Hi as [Hi | [Hi | [Hi | Hi]]]; discriminate |]).
    by apply elem_of_nil in Hin.
Qed.

Lemma orchestratePresentation_no_visuals paperText config metadata slides' :
  analyzePaperEnhanced paperText (textService config) = Normal metadata →
  generateEnhancedSlides metadata (textService config) = Normal slides' →
  generateVisuals config = false ∨ visualService config = None →
  orchestratePresentation' paperText config []
  = (Normal {| slides := slides'; visuals := ∅; charts := ∅; diagrams := ∅ |},
     criticalPathEvents).
Proof.
  intros Ha Hs Hmode. run_pipeline. rewrite Ha. cbn. rewrite Hs. cbn.
  destruct Hmode as [-> | ->]; [reflexivity |].
  by rewrite orb_true_r.
Qed.

Lemma orchestratePresentation_visuals paperText config metadata slides' visualService' :
  analyzePaperEnhanced paperText (textService config) = Normal metadata →
  generateEnhancedSlides metadata (textService config) = Normal slides' →
  generateVisuals config = true →
  visualService config = Some visualService' →
  ∀ result stage,
    fanOut' metadata visualService'
      {| slides := slides'; visuals := ∅; charts := ∅; diagrams := ∅ |}
      (planVisuals' slides' metadata) [] = (Normal result, stage) →
    orchestratePresentation' paperText config []
    = (Normal result,
       criticalPathEvents ++ planningEvents ++ stage ++ summaryEvents result).
Proof.
  intros Ha Hs Hg Hv result stage Hfan. run_pipeline.
  rewrite Ha. cbn. rewrite Hs. cbn. rewrite Hg, Hv. cbn.
  rewrite (appends_fanOut metadata visualService' _ _ _), Hfan. cbn.
  unfold criticalPathEvents, planningEvents, summaryEvents. cbn.
  by rewrite <- !app_assoc.
Qed.

(** The plans carry increasing, hence distinct, slide indices. *)
Lemma planVisuals_from_NoDup metadata slides : ∀ index,
  NoDup (slideIndex <$> planVisuals_from' index slides metadata).
Proof.
  induction slides as [|slide rest IH]; intros index; cbn [planVisuals_from].
  - constructor.
  - case_bool_decide; [| apply IH].
    rewrite fmap_cons. constructor; [| apply IH].
    rewrite planSlide_index. intros Hin.
    apply list_elem_of_fmap_1 in Hin as (plan & Hi & Hin).
    apply planVisuals_from_elem in Hin as (i & s & _ & -> & _).
    rewrite planSlide_index in Hi. lia.
Qed.

Lemma planVisuals_NoDup slides metadata :
  NoDup (slideIndex <$> planVisuals' slides metadata).
Proof. apply planVisuals_from_NoDup. Qed.

Lemma recordedAs_NoDup metadata visualService kind (plans : list (@VisualGenerationPlan ChartData)) :
  NoDup (slideIndex <$> plans) →
  NoDup (recordedAs nanoBananaEndpoint metadata visualService kind plans).
Proof.
  intros Hnd. eapply sublist_NoDup; [exact Hnd |].
  unfold recordedAs. apply fmap_sublist, sublist_filter.
Qed.

Lemma recordedAs_elem metadata visualService kind (plans : list (@VisualGenerationPlan ChartData)) i :
  i ∈ recordedAs nanoBananaEndpoint metadata visualService kind plans
  ↔ ∃ plan, plan ∈ plans ∧ slideIndex plan = i
            ∧ fate' metadata visualService plan = Recorded ∧ visualType plan = kind.
Proof.
  unfold recordedAs. rewrite list_elem_of_fmap. split.
  - intros (plan & -> & Hin). apply list_elem_of_filter in Hin as [[Hf Hk] Hin]. eauto.
  - intros (plan & Hin & <- & Hf & Hk). exists plan. split; [done |].
    apply list_elem_of_filter. eauto.
Qed.

Lemma same_index_same_plan (plans : list (@VisualGenerationPlan ChartData)) p q :
  NoDup (slideIndex <$> plans) → p ∈ plans → q ∈ plans →
  slideIndex p = slideIndex q → p = q.
Proof.
  induction plans as [|x plans IH]; intros Hnd Hp Hq Heq.
  - by apply elem_of_nil in Hp.
  - rewrite fmap_cons in Hnd. apply NoDup_cons in Hnd as [Hx Hnd].
    apply elem_of_cons in Hp as [-> | Hp]; apply elem_of_cons in Hq as [-> | Hq].
    + reflexivity.
    + exfalso. apply Hx. rewrite Heq. by apply list_elem_of_fmap_2.
    + exfalso. apply Hx. rewrite <- Heq. by apply list_elem_of_fmap_2.
    + by apply IH.
Qed.

Lemma recordedAs_count metadata visualService (plans : list (@VisualGenerationPlan ChartData)) :
  (List.length (recordedAs nanoBananaEndpoint metadata visualService illustration plans)
   + List.length (recordedAs nanoBananaEndpoint metadata visualService chart plans)
   + List.length (recordedAs nanoBananaEndpoint metadata visualService diagram plans))%nat
  = countFate' metadata visualService Recorded plans.
Proof.
  unfold countFate. induction plans as [|plan rest IH]; [reflexivity |].
  rewrite !recordedAs_cons, filter_cons.
  destruct (decide (fate' metadata visualService plan = Recorded)) as [Hf | Hf].
  - destruct (fate_Recorded_kind _ _ _ Hf) as [Hk | [Hk | Hk]]; rewrite Hk;
      repeat case_decide; try (exfalso; intuition congruence); cbn; lia.
  - repeat case_decide; try (exfalso; intuition congruence). exact IH.
Qed.

Lemma countFate_total metadata visualService (plans : list (@VisualGenerationPlan ChartData)) :
  (countFate' metadata visualService Recorded plans
   + countFate' metadata visualService Failed plans
   + countFate' metadata visualService Skipped plans)%nat
  = List.length plans.
Proof.
  unfold countFate. induction plans as [|plan rest IH]; [reflexivity |].
  rewrite !filter_cons.
  destruct (fate' metadata visualService plan);
    repeat case_decide; try done; cbn; lia.
Qed.

Lemma failureLogged_run i stage result :
  failureLogged i (criticalPathEvents ++ planningEvents ++ stage ++ summaryEvents result)
  ↔ failureLogged i stage.
Proof.
  unfold failureLogged. split.
  - intros [e He]. exists e. rewrite !elem_of_app in He.
    destruct He as [He | [He | [He | He]]]; [| | exact He |];
      repeat (apply elem_of_cons in He as [He | He]; [discriminate |]);
      by apply elem_of_nil in He.
  - intros [e He]. exists e. rewrite !elem_of_app. auto.
Qed.

(** C5: when the analysis call fails, the pipeline fails with that error
    at once: the console holds the first step and the call of the
    analysis only, so neither the slide generation, nor the planner, nor
    any generator is entered, and no fan-out unit exists. *)
Theorem analysis_failure_is_fatal
    (paperText : string) (config : OrchestrationConfig) (e : string) (tr : list Event) :
  analyzePaperEnhanced paperText (textService config) = Throw e →
  ∃ added,
    orchestratePresentation' paperText config tr = (Throw e, tr ++ added)
    ∧ added = [ConsoleLog "Step 1: Analyzing paper with text service...";
               Called fn_analyzePaperWithService]
    ∧ (Called fn_planVisuals ∉ added)
    ∧ (Called fn_generateSlidesWithService ∉ added)
    ∧ ∀ ev, ev ∈ added → ¬ generationEvent ev.
Proof.
  intros Ha. eexists. split; [| split; [reflexivity |]].
  - rewrite (appends_orchestratePresentation paperText config tr).
    by rewrite (orchestratePresentation_analysis_fails paperText config e Ha).
  - split; [| split].
    + apply criticalPathEvents_quiet. do 2 apply sublist_skip. apply sublist_nil_l.
    + intros Hin. repeat (apply elem_of_cons in Hin as [Hin | Hin]; [discriminate |]).
      by apply elem_of_nil in Hin.
    + apply criticalPathEvents_quiet. do 2 apply sublist_skip. apply sublist_nil_l.
Qed.

(** C10: with [generateVisuals] off or no [visualService], a run never
    enters the planner or a generator and no fan-out unit exists, however
    the run ends; and when the two text-service calls succeed it returns
    right after the critical path, with the generated slides and three
    empty maps. *)
Theorem no_visuals_returns_after_critical_path
    (paperText : string) (config : OrchestrationConfig) (tr : list Event) :
  generateVisuals config = false ∨ visualService config = None →
  (∃ outcome added,
      orchestratePresentation' paperText config tr = (outcome, tr ++ added)
      ∧ (Called fn_planVisuals ∉ added)
      ∧ ∀ ev, ev ∈ added → ¬ generationEvent ev)
  ∧ ∀ metadata slides',
      analyzePaperEnhanced paperText (textService config) = Normal metadata →
      generateEnhancedSlides metadata (textService config) = Normal slides' →
      orchestratePresentation' paperText config tr
      = (Normal {| slides := slides'; visuals := ∅; charts := ∅; diagrams := ∅ |},
         tr ++ criticalPathEvents).
Proof.
  intros Hmode. rewrite (appends_orchestratePresentation paperText config tr). split.
  - destruct (analyzePaperEnhanced paperText (textService config)) as [metadata | e] eqn:Ha.
    + destruct (generateEnhancedSlides metadata (textService config)) as [slides' | e] eqn:Hs.
      * rewrite (orchestratePresentation_no_visuals paperText config metadata slides' Ha Hs Hmode).
        eexists _, _. split; [reflexivity |]. by apply criticalPathEvents_quiet.
      * rewrite (orchestratePresentation_slides_fail paperText config metadata e Ha Hs).
        eexists _, _. split; [reflexivity |]. by apply criticalPathEvents_quiet.
    + rewrite (orchestratePresentation_analysis_fails paperText config e Ha).
      eexists _, _. split; [reflexivity |].
      apply criticalPathEvents_quiet. do 2 apply sublist_skip. apply sublist_nil_l.
  - intros metadata slides' Ha Hs.
    by rewrite (orchestratePresentation_no_visuals paperText config metadata slides' Ha Hs Hmode).
Qed.

(** C3 (amended): in a run of the generation stage every planned index
    is held by at most one of the maps [visuals], [charts], [diagrams], and
    these hold planned indices only. A plan whose artifact is generated is
    held by the map of its kind and has no failure on the console; a plan
    whose generation fails is held by no map, its failure is only written
    to the console (the result has no map of failures); a plan for which
    nothing is attempted (an equation, or an illustration under another
    provider than Nano Banana) is held by no map and has no failure on the
    console. The three maps together hold as many entries as there are
    generated plans, that is all the plans but the failed and the skipped
    ones. *)
Theorem generation_stage_records
    (paperText : string) (config : OrchestrationConfig) (metadata : PaperMetadata)
    (slides' : list EnhancedSlide) (visualService' : VisualServiceConfig)
    (tr : list Event) :
  analyzePaperEnhanced paperText (textService config) = Normal metadata →
  generateEnhancedSlides metadata (textService config) = Normal slides' →
  generateVisuals config = true →
  visualService config = Some visualService' →
  ∃ result added,
    orchestratePresentation' paperText config tr = (Normal result, tr ++ added)
    ∧ dom (visuals result) ## dom (charts result)
    ∧ dom (visuals result) ## dom (diagrams result)
    ∧ dom (charts result) ## dom (diagrams result)
    ∧ (∀ i, i ∈ artifactKeys result → i ∈ slideIndex <$> planVisuals' slides' metadata)
    ∧ (∀ plan, plan ∈ planVisuals' slides' metadata →
         match fate' metadata visualService' plan with
         | Recorded =>
             slideIndex plan ∈ dom (mapOf (visualType plan) result)
             ∧ ¬ failureLogged (slideIndex plan) added
         | Failed =>
             (slideIndex plan ∉ artifactKeys result)
             ∧ failureLogged (slideIndex plan) added
         | Skipped =>
             (slideIndex plan ∉ artifactKeys result)
             ∧ ¬ failureLogged (slideIndex plan) added
         end)
    ∧ (size (visuals result) + size (charts result) + size (diagrams result))%nat
      = countFate' metadata visualService' Recorded (planVisuals' slides' metadata)
    ∧ (countFate' metadata visualService' Recorded (planVisuals' slides' metadata)
       + countFate' metadata visualService' Failed (planVisuals' slides' metadata)
       + countFate' metadata visualService' Skipped (planVisuals' slides' metadata))%nat
      = List.length (planVisuals' slides' metadata).
Proof.
  intros Ha Hs Hg Hv.
  set (plans := planVisuals' slides' metadata).
  pose proof (planVisuals_NoDup slides' metadata) as Hnd. fold plans in Hnd.
  destruct (fanOut_run metadata visualService' plans
              {| slides := slides'; visuals := ∅; charts := ∅; diagrams := ∅ |})
    as (result & stage & Hfan & _ & _ & _ & Hdom & Hlog).
  assert (Hkeys : ∀ kind i, i ∈ dom (mapOf kind result)
            ↔ ∃ plan, plan ∈ plans ∧ slideIndex plan = i
                      ∧ fate' metadata visualService' plan = Recorded
                      ∧ visualType plan = kind).
  { intros kind i. rewrite Hdom, <- recordedAs_elem, elem_of_union, elem_of_list_to_set.
    split; [| by right]. intros [Hin | Hin]; [| exact Hin].
    destruct kind; cbn in Hin; by rewrite dom_empty_L in Hin. }
  assert (Hdisj : ∀ k1 k2, k1 ≠ k2 → dom (mapOf k1 result) ## dom (mapOf k2 result)).
  { intros k1 k2 Hne. apply elem_of_disjoint. intros i H1 H2.
    apply Hkeys in H1 as (p & Hp & Hpi & _ & Hpk).
    apply Hkeys in H2 as (q & Hq & Hqi & _ & Hqk).
    assert (p = q) by (eapply same_index_same_plan; eauto; congruence).
    congruence. }
  assert (Hart : ∀ i, i ∈ artifactKeys result
            ↔ ∃ plan, plan ∈ plans ∧ slideIndex plan = i
                      ∧ fate' metadata visualService' plan = Recorded).
  { intros i. unfold artifactKeys. rewrite !elem_of_union.
    change (dom (visuals result)) with (dom (mapOf illustration result)).
    change (dom (charts result)) with (dom (mapOf chart result)).
    change (dom (diagrams result)) with (dom (mapOf diagram result)).
    rewrite !Hkeys. split.
    - intros [[H | H] | H]; destruct H as (p & ? & ? & ? & ?); eauto.
    - intros (p & Hp & Hi & Hf).
      destruct (fate_Recorded_kind _ _ _ Hf) as [Hk | [Hk | Hk]]; eauto 10. }
  assert (Hsize : ∀ kind, size (mapOf kind result)
            = List.length (recordedAs nanoBananaEndpoint metadata visualService' kind plans)).
  { intros kind. rewrite <- size_dom, Hdom.
    assert (dom (mapOf kind {| slides := slides'; visuals := ∅; charts := ∅; diagrams := ∅ |})
            = (∅ : gset nat)) as -> by (destruct kind; cbn; apply dom_empty_L).
    rewrite union_empty_l_L. apply size_list_to_set. by apply recordedAs_NoDup. }
  exists result, (criticalPathEvents ++ planningEvents ++ stage ++ summaryEvents result).
  split; [| split; [| split; [| split; [| split; [| split; [| split]]]]]].
  - rewrite (appends_orchestratePresentation paperText config tr).
    by rewrite (orchestratePresentation_visuals paperText config metadata slides'
                  visualService' Ha Hs Hg Hv result stage Hfan).
  - by apply (Hdisj illustration chart).
  - by apply (Hdisj illustration diagram).
  - by apply (Hdisj chart diagram).
  - intros i Hi. apply Hart in Hi as (p & Hp & <- & _). by apply list_elem_of_fmap_2.
  - intros plan Hin. destruct (fate' metadata visualService' plan) eqn:Hf.
    + split.
      * apply Hkeys. eauto.
      * rewrite failureLogged_run, Hlog. intros (q & Hq & Hqi & Hqf).
        assert (q = plan) by (eapply same_index_same_plan; eauto). congruence.
    + split.
      * rewrite Hart. intros (q & Hq & Hqi & Hqf).
        assert (q = plan) by (eapply same_index_same_plan; eauto). congruence.
      * rewrite failureLogged_run, Hlog. eauto.
    + split.
      * rewrite Hart. intros (q & Hq & Hqi & Hqf).
        assert (q = plan) by (eapply same_index_same_plan; eauto). congruence.
      * rewrite failureLogged_run, Hlog. intros (q & Hq & Hqi & Hqf).
        assert (q = plan) by (eapply same_index_same_plan; eauto). congruence.
  - change (visuals result) with (mapOf illustration result).
    change (charts result) with (mapOf chart result).
    change (diagrams result) with (mapOf diagram result).
    rewrite !Hsize. apply recordedAs_count.
  - apply countFate_total.
Qed.

(** *** The order in which the units complete *)

Lemma visualUnit_unitResult metadata visualService result plan :
  (visualUnit' metadata visualService result plan []).1
  = Normal (unitResult encodeChartConfig nanoBananaEndpoint metadata visualService result plan).
Proof.
  unfold unitResult.
  destruct (visualUnit_run metadata visualService result plan) as (r & evs & -> & _).
  reflexivity.
Qed.

(** What a unit does to the result does not depend on the result. *)
Lemma unitResult_shape metadata visualService plan :
  let unit := λ r, unitResult encodeChartConfig nanoBananaEndpoint metadata visualService r plan in
  (∀ r, unit r = r)
  ∨ (∃ v, ∀ r, unit r = set_visuals r (slideIndex plan) v)
  ∨ (∃ v, ∀ r, unit r = set_charts r (slideIndex plan) v)
  ∨ (∃ v, ∀ r, unit r = set_diagrams r (slideIndex plan) v).
Proof.
  unfold unitResult. run_console.
  destruct (bool_decide (visualType plan = illustration) && truthy_opt (prompt plan)).
  - destruct (bool_decide (visual_provider visualService = nano_banana)); cbn;
      [| by left].
    destruct (nanoBananaEndpoint _ _ _) as [url | e]; cbn; [| by left].
    right. left. by exists url.
  - destruct (bool_decide (visualType plan = chart) && bool_decide (is_Some (data plan))).
    + destruct (data plan) as [d|]; cbn; [| by left].
      right. right. left. by eexists.
    + destruct (bool_decide (visualType plan = diagram)); cbn; [| by left].
      right. right. right. by eexists.
Qed.

Lemma unitResult_commute metadata visualService p q result :
  slideIndex p ≠ slideIndex q →
  unitResult encodeChartConfig nanoBananaEndpoint metadata visualService
    (unitResult encodeChartConfig nanoBananaEndpoint metadata visualService result p) q
  = unitResult encodeChartConfig nanoBananaEndpoint metadata visualService
      (unitResult encodeChartConfig nanoBananaEndpoint metadata visualService result q) p.
Proof.
  intros Hne.
  destruct (unitResult_shape metadata visualService p) as [Hp | [[v Hp] | [[v Hp] | [v Hp]]]];
  destruct (unitResult_shape metadata visualService q) as [Hq | [[w Hq] | [[w Hq] | [w Hq]]]];
    cbn in Hp, Hq; rewrite ?Hp, ?Hq; try reflexivity;
    unfold set_visuals, set_charts, set_diagrams; cbn; f_equal;
    by apply insert_insert_ne.
Qed.

Lemma fanOut_foldl metadata visualService plans : ∀ result,
  (fanOut' metadata visualService result plans []).1
  = Normal (foldl (unitResult encodeChartConfig nanoBananaEndpoint metadata visualService)
              result plans).
Proof.
  induction plans as [|plan rest IH]; intros result; [reflexivity |].
  unfold fanOut. cbn [foldJS foldl]. unfold mbind, JS_bind.
  pose proof (visualUnit_unitResult metadata visualService result plan) as Hu.
  destruct (visualUnit' metadata visualService result plan []) as [c t1].
  cbn in Hu. subst c.
  fold (fanOut' metadata visualService
          (unitResult encodeChartConfig nanoBananaEndpoint metadata visualService result plan)
          rest).
  rewrite (appends_fanOut metadata visualService rest _ t1). cbn. apply IH.
Qed.

(** The completion order of the units does not matter: for plans with
    distinct indices, any two orders leave the same maps. *)
Lemma fanOut_order_irrelevant metadata visualService order1 order2 :
  order1 ≡ₚ order2 →
  NoDup (slideIndex <$> order1) →
  ∀ result,
    (fanOut' metadata visualService result order1 []).1
    = (fanOut' metadata visualService result order2 []).1.
Proof.
  intros Hperm Hnd result. rewrite !fanOut_foldl. f_equal. revert result.
  induction Hperm as [| x l1 l2 Hperm IH | x y l | l1 l2 l3 H12 IH12 H23 IH23];
    intros result.
  - reflexivity.
  - cbn [foldl]. apply IH. rewrite fmap_cons in Hnd. by apply NoDup_cons in Hnd as [_ ?].
  - cbn [foldl]. f_equal. apply unitResult_commute.
    rewrite !fmap_cons in Hnd. apply NoDup_cons in Hnd as [Hy _].
    intros Heq. apply Hy. rewrite Heq. apply list_elem_of_here.
  - rewrite IH12 by exact Hnd. apply IH23. by rewrite <- H12.
Qed.

End PipelineProperties.

(* ===================================================================== *)
(** * The properties on the sample run *)
(* ===================================================================== *)

(** The sample run with the analysis down. *)
Lemma analysis_failure_is_fatal_witness :
  analysis_down "paper" (textService config_with_visuals) = Throw "analysis failed"
  ∧ ∃ added,
      orchestratePresentation sample_extract sample_encode analysis_down slides_ok
        endpoint_down "paper" config_with_visuals [] = (Throw "analysis failed", [] ++ added)
      ∧ added = [ConsoleLog "Step 1: Analyzing paper with text service...";
                 Called fn_analyzePaperWithService]
      ∧ (Called fn_planVisuals ∉ added)
      ∧ (Called fn_generateSlidesWithService ∉ added)
      ∧ ∀ ev, ev ∈ added → ¬ generationEvent ev.
Proof.
  split; [reflexivity |].
  apply (analysis_failure_is_fatal sample_extract sample_encode analysis_down slides_ok
           endpoint_down "paper" config_with_visuals "analysis failed" []).
  reflexivity.
Defined.

(** The sample run with [generateVisuals] off. *)
Lemma no_visuals_returns_after_critical_path_witness :
  (generateVisuals config_text_only = false ∨ visualService config_text_only = None)
  ∧ (∃ outcome added,
        orchestratePresentation sample_extract sample_encode analysis_ok slides_ok
          endpoint_down "paper" config_text_only [] = (outcome, [] ++ added)
        ∧ (Called fn_planVisuals ∉ added)
        ∧ ∀ ev, ev ∈ added → ¬ generationEvent ev)
  ∧ orchestratePresentation sample_extract sample_encode analysis_ok slides_ok
      endpoint_down "paper" config_text_only []
    = (Normal {| slides := sample_slides; visuals := ∅; charts := ∅; diagrams := ∅ |},
       [] ++ criticalPathEvents).
Proof.
  split; [left; reflexivity |].
  destruct (no_visuals_returns_after_critical_path sample_extract sample_encode
              analysis_ok slides_ok endpoint_down "paper" config_text_only []
              (or_introl eq_refl)) as [Hquiet Hrun].
  split; [exact Hquiet |].
  exact (Hrun sample_metadata sample_slides eq_refl eq_refl).
Defined.

(** The sample run with the Nano Banana endpoint down: the maps hold the chart and the diagram. *)
Lemma generation_stage_records_witness :
  analysis_ok "paper" (textService config_with_visuals) = Normal sample_metadata
  ∧ slides_ok sample_metadata (textService config_with_visuals) = Normal sample_slides
  ∧ generateVisuals config_with_visuals = true
  ∧ visualService config_with_visuals = Some nano_service
  ∧ ∃ result added,
      orchestratePresentation sample_extract sample_encode analysis_ok slides_ok
        endpoint_down "paper" config_with_visuals [] = (Normal result, [] ++ added)
      ∧ dom (visuals result) ## dom (charts result)
      ∧ (size (visuals result) + size (charts result) + size (diagrams result))%nat
        = countFate endpoint_down sample_metadata nano_service Recorded
            (planVisuals sample_extract sample_slides sample_metadata).
Proof.
  do 4 (split; [reflexivity |]).
  destruct (generation_stage_records sample_extract sample_encode analysis_ok
              slides_ok endpoint_down "paper" config_with_visuals sample_metadata
              sample_slides nano_service [] eq_refl eq_refl eq_refl eq_refl)
    as (result & added & Hrun & Hvc & _ & _ & _ & _ & Hsize & _).
  exists result, added. split; [exact Hrun |]. split; [exact Hvc | exact Hsize].
Defined.

(** C3, as stated, fails: a deck of one slide with a formula gives one
    planned item, of kind equation; nothing fails, and after the run the
    item's index is in none of the maps and no failure is on the console,
    so the maps hold 0 entries for 1 planned item and 0 failures. *)
Lemma equation_plan_is_recorded_nowhere :
  ∃ plan result tr,
    planVisuals sample_extract [equation_slide] sample_metadata = [plan]
    ∧ slideIndex plan = 0%nat
    ∧ visualType plan = equation
    ∧ orchestratePresentation sample_extract sample_encode analysis_ok
        slides_equation_only endpoint_down "paper" config_with_visuals []
      = (Normal result, tr)
    ∧ countFate endpoint_down sample_metadata nano_service Failed [plan] = 0%nat
    ∧ (slideIndex plan ∉ artifactKeys result)
    ∧ ¬ failureLogged (slideIndex plan) tr
    ∧ visuals result = ∅ ∧ charts result = ∅ ∧ diagrams result = ∅.
Proof.
  eexists _, {| slides := [equation_slide]; visuals := ∅; charts := ∅; diagrams := ∅ |}, _.
  split; [vm_compute; reflexivity |]. split; [reflexivity |]. split; [reflexivity |].
  split; [vm_compute; reflexivity |]. split; [vm_compute; reflexivity |].
  split; [| split; [| done]].
  - unfold artifactKeys. cbn. rewrite !dom_empty_L, !union_empty_r_L.
    apply not_elem_of_empty.
  - intros [e He].
    repeat (apply elem_of_cons in He as [He | He]; [discriminate |]).
    by apply elem_of_nil in He.
Qed.

(** The plans of the sample deck: the introduction gets none. *)
Example planVisuals_sample :
  keyed <$> planVisuals sample_extract sample_slides sample_metadata
  = [(1%nat, diagram); (2%nat, chart); (3%nat, equation); (4%nat, illustration)].
Proof. vm_compute. reflexivity. Qed.

(** Of six slides without any signal only the one at index 5 gets a
    background illustration; the one at index 0 does not. *)
Example planVisuals_every_fifth :
  let plain := sample_slide 0 "Notes" ["Remarks"] layout_content in
  (λ plan, (slideIndex plan, visualType plan, prompt plan))
    <$> planVisuals sample_extract (replicate 6 plain) sample_metadata
  = [(5%nat, illustration,
      Some "Abstract background illustration for: Notes. attention theme.")].
Proof. vm_compute. reflexivity. Qed.

(** The default manager resolves [paper-analysis] to its first preferred
    service, and lists the enabled image services by priority. *)
Example default_manager_resolves :
  service_id <$> default None
    (match eval (getServiceForTask "paper-analysis") new_ServiceManager with
     | Normal r => Some r
     | Throw _ => None
     end) = Some "openai-gpt4"
  ∧ match eval (getServicesByType image_generation) new_ServiceManager with
    | Normal l => service_id <$> l
    | Throw _ => []
    end = ["nano-banana"; "dall-e-3"].
Proof. split; vm_compute; reflexivity. Qed.

(* ===================================================================== *)
(** * Further properties of the service manager *)
(* ===================================================================== *)

Lemma with_config_same (service : AIService) :
  with_config service (service_config service) = service.
Proof. by destruct service. Qed.

Lemma with_config_twice (service : AIService) (c1 c2 : gmap string JSValue) :
  with_config (with_config service c1) c2 = with_config service c2.
Proof. reflexivity. Qed.

Section MapMoreFacts.
Context {V : Type}.
Implicit Types (m : list (string * V)) (k : string) (v : V).

Lemma Map_set_set m k v v' : Map_set k v' (Map_set k v m) = Map_set k v' m.
Proof.
  induction m as [|[k0 v0] m IH]; simpl.
  - by rewrite bool_decide_eq_true_2.
  - destruct (bool_decide (k0 = k)) eqn:E; simpl.
    + by rewrite bool_decide_eq_true_2.
    + by rewrite E, IH.
Qed.

Lemma Map_set_same m k v : Map_get k m = Some v → Map_set k v m = m.
Proof.
  unfold Map_get. induction m as [|[k0 v0] m IH]; simpl; [discriminate |].
  destruct (bool_decide (k0 = k)) eqn:E; simpl.
  - apply bool_decide_eq_true_1 in E. intros [= ->]. by subst.
  - intros H. by rewrite IH.
Qed.

Lemma Map_set_commute m k1 k2 v1 v2 :
  k1 ≠ k2 → is_Some (Map_get k1 m) → is_Some (Map_get k2 m) →
  Map_set k1 v1 (Map_set k2 v2 m) = Map_set k2 v2 (Map_set k1 v1 m).
Proof.
  intros Hne. unfold Map_get. induction m as [|[k0 v0] m IH]; simpl.
  - intros [? ?]; discriminate.
  - destruct (bool_decide (k0 = k1)) eqn:E1; destruct (bool_decide (k0 = k2)) eqn:E2; simpl.
    + apply bool_decide_eq_true_1 in E1, E2. congruence.
    + intros _ _. rewrite E1. apply bool_decide_eq_true_1 in E1. subst k0.
      by rewrite bool_decide_eq_false_2.
    + intros _ _. rewrite E2. apply bool_decide_eq_true_1 in E2. subst k0.
      by rewrite bool_decide_eq_false_2 by done.
    + intros H1 H2. rewrite E1, E2. f_equal. by apply IH.
Qed.

Lemma Map_set_Forall2 (R : string * V → string * V → Prop) m k v v' :
  (∀ x, R x x) → Map_get k m = Some v → R (k, v') (k, v) →
  Forall2 R (Map_set k v' m) m.
Proof.
  intros Hrefl. unfold Map_get. induction m as [|[k0 v0] m IH]; simpl; [discriminate |].
  destruct (bool_decide (k0 = k)) eqn:E; simpl.
  - apply bool_decide_eq_true_1 in E. subst k0. intros [= ->] HR.
    constructor; [exact HR |]. by apply Forall_Forall2_diag, Forall_forall.
  - intros Hg HR. constructor; [apply Hrefl | by apply IH].
Qed.

Lemma Map_get_elem m k v : Map_get k m = Some v → (k, v) ∈ m.
Proof.
  unfold Map_get. induction m as [|[k0 v0] m IH]; simpl; [discriminate |].
  destruct (bool_decide (k0 = k)) eqn:E; simpl.
  - apply bool_decide_eq_true_1 in E. intros [= ->]. subst. apply list_elem_of_here.
  - intros H. apply list_elem_of_further. by apply IH.
Qed.

Lemma Map_get_values m k v : Map_get k m = Some v → v ∈ Map_values m.
Proof.
  intros H. apply Map_get_elem in H.
  unfold Map_values. by apply (list_elem_of_fmap_2 snd) in H.
Qed.
End MapMoreFacts.

(** How the methods run. *)
Lemma configureService_Normal serviceId config this :
  configureService serviceId config this
  = (Normal tt, exec (configureService serviceId config) this).
Proof. unfold exec, configureService. by destruct (Map_get _ _). Qed.

Lemma exec_configure_then {A} serviceId config (k : JS ServiceManager A) this :
  exec (configureService serviceId config;; k) this
  = exec k (exec (configureService serviceId config) this).
Proof.
  unfold exec at 1. unfold mbind, JS_bind.
  by rewrite configureService_Normal.
Qed.

Lemma exec_configure_registered serviceId config this service :
  Map_get serviceId (services this) = Some service →
  exec (configureService serviceId config) this
  = {| services := Map_set serviceId (with_config service (config ∪ service_config service))
                     (services this);
       health := health this |}.
Proof. intros H. unfold exec, configureService. by rewrite H. Qed.

Lemma exec_configure_unregistered serviceId config this :
  Map_get serviceId (services this) = None →
  exec (configureService serviceId config) this = this.
Proof. intros H. unfold exec, configureService. by rewrite H. Qed.

Lemma sameIdentity_refl x : sameIdentity x x.
Proof. split; [done |]. by rewrite with_config_same. Qed.

Lemma sameIdentity_trans x y z : sameIdentity x y → sameIdentity y z → sameIdentity x z.
Proof.
  intros [H1 H2] [H3 H4]. split; [congruence |].
  rewrite H2. rewrite H4 at 1. reflexivity.
Qed.

Lemma configureService_identity serviceId config this :
  Forall2 sameIdentity (services (exec (configureService serviceId config) this))
    (services this)
  ∧ health (exec (configureService serviceId config) this) = health this.
Proof.
  destruct (Map_get serviceId (services this)) as [service|] eqn:Hget.
  - rewrite (exec_configure_registered _ _ _ _ Hget). cbn. split; [| done].
    eapply Map_set_Forall2; [apply sameIdentity_refl | exact Hget |].
    split; reflexivity.
  - rewrite (exec_configure_unregistered _ _ _ Hget). split; [| done].
    apply Forall_Forall2_diag, Forall_forall. intros. apply sameIdentity_refl.
Qed.

Lemma Forall2_sameIdentity_trans l1 l2 l3 :
  Forall2 sameIdentity l1 l2 → Forall2 sameIdentity l2 l3 → Forall2 sameIdentity l1 l3.
Proof.
  intros H12. revert l3. induction H12 as [|x y l1 l2 Hxy H12 IH]; intros l3 H23.
  - by inversion H23.
  - inversion H23 as [|? z ? l3' Hyz H23']; subst.
    constructor; [by eapply sameIdentity_trans | by apply IH].
Qed.

Lemma initializeServices_steps settings this :
  exec (initializeServices settings) this
  = exec (configureService "katex" (switch true))
      (exec (configureService "quickchart" (switch true))
         (exec (configureService "mermaid" (switch true))
            (exec (configureService "nano-banana" (switch true))
               (exec (configureService (textServiceId settings)
                        (<["enabled" := JBoolean true]>
                           (<["apiKey" := JString (settings_apiKey settings)]>
                              {[ "model" := JString (settings_model settings) ]})))
                     this)))).
Proof.
  unfold initializeServices. fold (textServiceId settings). unfold switch.
  by rewrite !exec_configure_then.
Qed.

Lemma perform_identity c this :
  Forall2 sameIdentity (services (exec (perform c) this)) (services this).
Proof.
  destruct c as [serviceId config | serviceId h | settings]; cbn [perform].
  - apply (proj1 (configureService_identity _ _ _)).
  - cbn. apply Forall_Forall2_diag, Forall_forall. intros. apply sameIdentity_refl.
  - rewrite initializeServices_steps.
    do 4 (eapply Forall2_sameIdentity_trans;
          [apply (proj1 (configureService_identity _ _ _)) |]).
    apply (proj1 (configureService_identity _ _ _)).
Qed.

Lemma after_identity (calls : list Call) : ∀ this,
  Forall2 sameIdentity (services (after calls this)) (services this).
Proof.
  induction calls as [|c calls IH]; intros this; cbn [after foldl].
  - apply Forall_Forall2_diag, Forall_forall. intros. apply sameIdentity_refl.
  - eapply Forall2_sameIdentity_trans; [apply IH | apply perform_identity].
Qed.

(** X1: no sequence of calls changes which services are registered, their
    order, or anything of a service but its configuration. *)
Theorem calls_keep_identity (calls : list Call) (this : ServiceManager) :
  Forall2 sameIdentity (services (after calls this)) (services this).
Proof. apply after_identity. Qed.

Lemma Map_set_keys_absent {V} (m : list (string * V)) k v :
  Map_get k m = None → (Map_set k v m).*1 = m.*1 ++ [k].
Proof.
  unfold Map_get. induction m as [|[k0 v0] m IH]; simpl; [done |].
  destruct (bool_decide (k0 = k)) eqn:E; simpl; [discriminate |].
  intros H. f_equal. by apply IH.
Qed.

Lemma Map_get_None_keys {V} (m : list (string * V)) k :
  Map_get k m = None → k ∉ m.*1.
Proof.
  unfold Map_get. induction m as [|[k0 v0] m IH]; simpl.
  - intros _ H. by apply elem_of_nil in H.
  - destruct (bool_decide (k0 = k)) eqn:E; simpl; [discriminate |].
    apply bool_decide_eq_false_1 in E. intros H Hin.
    apply elem_of_cons in Hin as [-> | Hin]; [done | by apply IH].
Qed.

Lemma Map_set_entries {V} (m : list (string * V)) k v x :
  x ∈ Map_set k v m → x = (k, v) ∨ x ∈ m.
Proof.
  induction m as [|[k0 v0] m IH]; simpl.
  - intros H. apply list_elem_of_singleton in H. by left.
  - destruct (bool_decide (k0 = k)).
    + intros H. apply elem_of_cons in H as [-> | H]; [by left |].
      right. by apply list_elem_of_further.
    + intros H. apply elem_of_cons in H as [-> | H]; [right; apply list_elem_of_here |].
      destruct (IH H) as [-> | Hin]; [by left | right; by apply list_elem_of_further].
Qed.

Lemma Map_set_wellFormed m (s : AIService) :
  NoDup m.*1 → Forall (λ kv, kv.1 = service_id kv.2) m →
  NoDup (Map_set (service_id s) s m).*1
  ∧ Forall (λ kv, kv.1 = service_id kv.2) (Map_set (service_id s) s m).
Proof.
  intros Hnd Hall. split.
  - destruct (Map_get (service_id s) m) as [v|] eqn:Hget.
    + rewrite Map_set_keys; [done | by rewrite Hget].
    + rewrite (Map_set_keys_absent _ _ _ Hget).
      apply NoDup_app. split; [done |]. split; [| apply NoDup_singleton].
      intros x Hx Hs. apply list_elem_of_singleton in Hs as ->.
      by apply Map_get_None_keys in Hget.
  - apply Forall_forall. intros x Hx. apply Map_set_entries in Hx as [-> | Hx]; [done |].
    by apply (proj1 (Forall_forall _ _) Hall).
Qed.

Lemma new_ServiceManager_from_wellFormed registry :
  wellFormed (new_ServiceManager_from registry).
Proof.
  unfold wellFormed, new_ServiceManager_from. cbn [services].
  assert (H : ∀ m : list (string * AIService),
    NoDup m.*1 → Forall (λ kv, kv.1 = service_id kv.2) m →
    NoDup (fold_left (λ m service, Map_set (service_id service) service m) registry m).*1
    ∧ Forall (λ kv, kv.1 = service_id kv.2)
        (fold_left (λ m service, Map_set (service_id service) service m) registry m)).
  { induction registry as [|s registry IH]; intros m Hnd Hall; [done |].
    cbn [fold_left]. destruct (Map_set_wellFormed m s Hnd Hall). by apply IH. }
  apply H; constructor.
Qed.

Lemma sameIdentity_keys l1 l2 : Forall2 sameIdentity l1 l2 → l1.*1 = l2.*1.
Proof.
  induction 1 as [|x y l1 l2 [Hk _] _ IH]; [done |]. rewrite !fmap_cons. by f_equal.
Qed.

Lemma sameIdentity_wellFormed this this' :
  Forall2 sameIdentity (services this') (services this) →
  wellFormed this → wellFormed this'.
Proof.
  intros H [Hnd Hall]. split.
  - by rewrite (sameIdentity_keys _ _ H).
  - revert Hall. clear Hnd. induction H as [|x y l1 l2 [Hk Hs] _ IH]; [done |].
    intros Hall. apply Forall_cons in Hall as [Hy Hall]. constructor; [| by apply IH].
    rewrite Hk, Hy, Hs. reflexivity.
Qed.

Lemma after_wellFormed (registry : list AIService) (calls : list Call) :
  wellFormed (after calls (new_ServiceManager_from registry)).
Proof.
  eapply sameIdentity_wellFormed; [apply after_identity |].
  apply new_ServiceManager_from_wellFormed.
Qed.

(** X2: whatever registry the manager is constructed from and whatever
    calls follow, the keys of its map stay distinct and each key is the id
    of the service stored under it. *)
Theorem constructed_manager_is_wellFormed (registry : list AIService) (calls : list Call) :
  wellFormed (after calls (new_ServiceManager_from registry)).
Proof. apply after_wellFormed. Qed.

Lemma sameIdentity_get l1 l2 k v :
  Forall2 sameIdentity l1 l2 → Map_get k l1 = Some v →
  ∃ v0, Map_get k l2 = Some v0 ∧ v = with_config v0 (service_config v).
Proof.
  unfold Map_get. induction 1 as [|[k1 v1] [k2 v2] l1 l2 [Hk Hs] _ IH]; simpl; [discriminate |].
  cbn in Hk, Hs. subst k2. destruct (bool_decide (k1 = k)); simpl.
  - intros [= <-]. eauto.
  - exact IH.
Qed.

Lemma wellFormed_get this k v :
  wellFormed this → Map_get k (services this) = Some v → service_id v = k.
Proof.
  intros [_ Hall] Hget. apply Map_get_elem in Hget.
  by apply (proj1 (Forall_forall _ _) Hall) in Hget.
Qed.

Lemma find_Some_elem {A} (f : A → bool) (l : list A) x :
  List.find f l = Some x → x ∈ l ∧ f x = true.
Proof.
  intros H. apply find_some in H as [Hin Hf]. split; [by apply list_elem_of_In | done].
Qed.

(** In the two tables every preferred id of a route names a registered
    service of the route's type. *)
Lemma tables_agree :
  Forall (λ r, Forall (λ sid, service_type <$> Map_get sid (services new_ServiceManager)
                              = Some (serviceType r)) (preferredServices r))
    TASK_ROUTING.
Proof. repeat constructor. Qed.

Lemma getServicesByType_elem type this service :
  service ∈ Map_values (services this) → service_type service = type →
  enabled service = true →
  ∃ l, eval (getServicesByType type) this = Normal l ∧ service ∈ l.
Proof.
  intros Hin Hty Hen. eexists. split; [reflexivity |].
  rewrite sort_by_Permutation. apply list_elem_of_In, filter_In.
  split; [by apply list_elem_of_In |].
  apply andb_true_iff. split; [by apply bool_decide_eq_true_2 | done].
Qed.

(** X3: on the default manager, after any calls, a task of the routing
    table resolves only to a service of the route's capability type whose
    id is in the route's preferred list, that is enabled and has no
    unhealthy record; and [getServicesByType] lists it for that type. *)
Theorem resolved_service_fits_route
    (calls : list Call) (t : string) (routing : TaskRouting) (service : AIService) :
  findRouting t = Some routing →
  eval (getServiceForTask t) (after calls new_ServiceManager) = Normal (Some service) →
  service_type service = serviceType routing
  ∧ service_id service ∈ preferredServices routing
  ∧ enabled service = true
  ∧ ¬ unhealthy (after calls new_ServiceManager) (service_id service)
  ∧ ∃ l, eval (getServicesByType (serviceType routing)) (after calls new_ServiceManager)
         = Normal l ∧ service ∈ l.
Proof.
  intros Hfind Hres. set (this := after calls new_ServiceManager) in *.
  unfold eval, getServiceForTask in Hres. rewrite Hfind in Hres. cbn in Hres.
  injection Hres as Hres.
  pose proof (firstPreferred_spec this (preferredServices routing)) as Hspec.
  rewrite Hres in Hspec. destruct Hspec as (before & sid & after' & Hsplit & Hq & _).
  destruct Hq as (Hget & Hen & Hhealth).
  assert (Hsid : sid ∈ preferredServices routing).
  { rewrite Hsplit. apply elem_of_app. right. apply list_elem_of_here. }
  assert (Hwf : wellFormed this) by apply after_wellFormed.
  pose proof (wellFormed_get this sid service Hwf Hget) as Hid.
  destruct (sameIdentity_get _ _ sid service (after_identity calls new_ServiceManager) Hget)
    as (s0 & Hget0 & Hs0).
  apply find_Some_elem in Hfind as [Hr _].
  pose proof (proj1 (Forall_forall _ _) tables_agree routing Hr) as Hroute.
  pose proof (proj1 (Forall_forall _ _) Hroute sid Hsid) as Hty.
  cbv beta in Hty. rewrite Hget0 in Hty. cbn in Hty. injection Hty as Hty.
  assert (Htype : service_type service = serviceType routing) by (by rewrite Hs0).
  split; [exact Htype |]. split; [by rewrite Hid |]. split; [exact Hen |]. split.
  - rewrite Hid. intros (h & Hh & Hst).
    destruct Hhealth as [Hnone | (h' & Hh' & Hst')]; congruence.
  - apply getServicesByType_elem; [by eapply Map_get_values | done | done].
Qed.

(** On the default manager [speaker-script] resolves to Claude, a
    text-analysis service. *)
Lemma resolved_service_fits_route_witness :
  findRouting "speaker-script"
    = Some {| task := "speaker-script"; serviceType := text_analysis;
              preferredServices := ["anthropic-claude"; "openai-gpt4"];
              fallbackStrategy := next_available |}
  ∧ (∃ service,
       eval (getServiceForTask "speaker-script")
         (after [call_updateHealth "openai-gpt4" (report "openai-gpt4" down)] new_ServiceManager)
       = Normal (Some service)
       ∧ service_type service = text_analysis
       ∧ service_id service ∈ ["anthropic-claude"; "openai-gpt4"]).
Proof.
  split; [reflexivity |]. eexists. split; [vm_compute; reflexivity |].
  destruct (resolved_service_fits_route
              [call_updateHealth "openai-gpt4" (report "openai-gpt4" down)]
              "speaker-script"
              {| task := "speaker-script"; serviceType := text_analysis;
                 preferredServices := ["anthropic-claude"; "openai-gpt4"];
                 fallbackStrategy := next_available |}
              _ eq_refl eq_refl) as (Hty & Hid & _).
  split; [exact Hty | exact Hid].
Defined.

Lemma exec_configure_twice (serviceId : string) (a b : gmap string JSValue)
    (this : ServiceManager) :
  exec (configureService serviceId b) (exec (configureService serviceId a) this)
  = exec (configureService serviceId (b ∪ a)) this.
Proof.
  destruct (Map_get serviceId (services this)) as [service|] eqn:Hget.
  - rewrite (exec_configure_registered _ a _ _ Hget).
    rewrite (exec_configure_registered _ (b ∪ a) _ _ Hget).
    erewrite exec_configure_registered; [| cbn [services]; apply Map_get_set_eq].
    cbn. by rewrite Map_set_set, (assoc (∪)).
  - by rewrite !(exec_configure_unregistered _ _ _ Hget).
Qed.

(** X4: configuring a service twice is configuring it once with the
    second configuration laid over the first; in particular repeating a
    call changes nothing more. *)
Theorem configureService_composes
    (serviceId : string) (c1 c2 : gmap string JSValue) (this : ServiceManager) :
  exec (configureService serviceId c2) (exec (configureService serviceId c1) this)
  = exec (configureService serviceId (c2 ∪ c1)) this
  ∧ exec (configureService serviceId c1) (exec (configureService serviceId c1) this)
    = exec (configureService serviceId c1) this.
Proof.
  split; [apply exec_configure_twice |].
  by rewrite exec_configure_twice, (idemp (∪)).
Qed.

(** X5: calls that configure different services can be made in either
    order. *)
Theorem configureService_commutes
    (id1 id2 : string) (c1 c2 : gmap string JSValue) (this : ServiceManager) :
  id1 ≠ id2 →
  exec (configureService id1 c1) (exec (configureService id2 c2) this)
  = exec (configureService id2 c2) (exec (configureService id1 c1) this).
Proof.
  intros Hne.
  destruct (Map_get id1 (services this)) as [s1|] eqn:H1;
    destruct (Map_get id2 (services this)) as [s2|] eqn:H2.
  - rewrite (exec_configure_registered id2 c2 this s2 H2).
    rewrite (exec_configure_registered id1 c1 this s1 H1).
    erewrite (exec_configure_registered id1 c1);
      [| cbn [services]; rewrite Map_get_set_ne by done; exact H1].
    erewrite (exec_configure_registered id2 c2);
      [| cbn [services]; rewrite Map_get_set_ne by done; exact H2].
    cbn. f_equal. apply Map_set_commute; [done | by rewrite H1 | by rewrite H2].
  - rewrite (exec_configure_unregistered id2 c2 this H2).
    rewrite (exec_configure_registered id1 c1 this s1 H1).
    rewrite exec_configure_unregistered; [done |].
    cbn [services]. by rewrite Map_get_set_ne.
  - rewrite (exec_configure_unregistered id1 c1 this H1).
    rewrite (exec_configure_registered id2 c2 this s2 H2).
    rewrite exec_configure_unregistered; [done |].
    cbn [services]. by rewrite Map_get_set_ne.
  - by rewrite (exec_configure_unregistered id2 c2 this H2),
      (exec_configure_unregistered id1 c1 this H1),
      (exec_configure_unregistered id2 c2 this H2).
Qed.

(** Switching Midjourney on and DALL-E off, in either order. *)
Lemma configureService_commutes_witness :
  "midjourney" ≠ "dall-e-3"
  ∧ exec (configureService "midjourney" (switch true))
      (exec (configureService "dall-e-3" (switch false)) new_ServiceManager)
    = exec (configureService "dall-e-3" (switch false))
        (exec (configureService "midjourney" (switch true)) new_ServiceManager).
Proof.
  split; [discriminate |].
  apply (configureService_commutes "midjourney" "dall-e-3"). discriminate.
Defined.

(** X6: switching an enabled service off and on again restores the
    manager exactly. *)
Theorem switch_off_on_restores (serviceId : string) (service : AIService) (this : ServiceManager) :
  Map_get serviceId (services this) = Some service →
  service_config service !! "enabled" = Some (JBoolean true) →
  exec (configureService serviceId (switch true))
    (exec (configureService serviceId (switch false)) this) = this.
Proof.
  intros Hget Hen.
  rewrite (exec_configure_twice serviceId (switch false) (switch true) this).
  rewrite (exec_configure_registered _ _ _ _ Hget).
  assert (Hcfg : switch true ∪ switch false ∪ service_config service = service_config service).
  { apply map_eq. intros k. unfold switch. rewrite !lookup_union.
    destruct (decide (k = "enabled")) as [-> | Hk].
    - rewrite !lookup_singleton_eq, Hen. reflexivity.
    - rewrite !lookup_singleton_ne by done. by destruct (service_config service !! k). }
  rewrite Hcfg, with_config_same, (Map_set_same _ _ _ Hget). by destruct this.
Qed.

Lemma switch_off_on_restores_witness :
  Map_get "mermaid" (services new_ServiceManager)
    = Some (mkService "mermaid" diagram_generation "Mermaid.js" "Mermaid"
              "Flowcharts, sequence diagrams, graphs"
              ["flowcharts"; "sequence-diagrams"; "class-diagrams"; "er-diagrams"; "gantt"]
              true 1)
  ∧ exec (configureService "mermaid" (switch true))
      (exec (configureService "mermaid" (switch false)) new_ServiceManager)
    = new_ServiceManager.
Proof.
  split; [reflexivity |].
  apply (switch_off_on_restores "mermaid" _ new_ServiceManager eq_refl). reflexivity.
Defined.

Lemma getServiceForTask_enabled t this service :
  eval (getServiceForTask t) this = Normal (Some service) → enabled service = true.
Proof.
  unfold eval, getServiceForTask. destruct (findRouting t) as [routing|]; [| discriminate].
  cbn. intros [= Hres].
  pose proof (firstPreferred_spec this (preferredServices routing)) as Hspec.
  rewrite Hres in Hspec. by destruct Hspec as (? & ? & ? & _ & (_ & Hen & _) & _).
Qed.

(** X7: once a registered service is switched off, no task resolves to it
    and no type lists it; switching off an id that is not registered
    changes nothing. *)
Theorem switched_off_service_is_unused (serviceId : string) (this : ServiceManager) :
  let this' := exec (configureService serviceId (switch false)) this in
  match Map_get serviceId (services this) with
  | None => this' = this
  | Some _ =>
      ∃ off, Map_get serviceId (services this') = Some off
             ∧ enabled off = false
             ∧ (∀ t, eval (getServiceForTask t) this' ≠ Normal (Some off))
             ∧ (∀ type l, eval (getServicesByType type) this' = Normal l → off ∉ l)
  end.
Proof.
  cbn zeta. destruct (Map_get serviceId (services this)) as [service|] eqn:Hget.
  - rewrite (exec_configure_registered _ _ _ _ Hget).
    eexists. split; [cbn [services]; apply Map_get_set_eq |].
    assert (Hoff : enabled (with_config service (switch false ∪ service_config service)) = false).
    { unfold enabled, prop, switch. cbn. rewrite lookup_union, lookup_singleton_eq.
      by destruct (service_config service !! "enabled"). }
    split; [exact Hoff |]. split.
    + intros t Hres. apply getServiceForTask_enabled in Hres. congruence.
    + intros type l [= <-] Hin. rewrite sort_by_Permutation in Hin.
      apply list_elem_of_In, filter_In in Hin as [_ Hf].
      apply andb_true_iff in Hf as [_ Hen]. congruence.
  - by apply exec_configure_unregistered.
Qed.

Lemma firstPreferred_status_only this1 this2 ids :
  services this1 = services this2 →
  (∀ serviceId, unhealthy this1 serviceId ↔ unhealthy this2 serviceId) →
  firstPreferred this1 ids = firstPreferred this2 ids.
Proof.
  intros Hs Hu. induction ids as [|sid rest IH]; [done |].
  cbn [firstPreferred]. rewrite Hs.
  destruct (Map_get sid (services this2)) as [service|]; [| exact IH].
  destruct (enabled service); [| exact IH].
  set (ok := λ this : ServiceManager,
         match health this !! sid with
         | None => true
         | Some h => bool_decide (status h = healthy)
         end).
  assert (Hbranch : ∀ this,
    match health this !! sid with
    | None => Some service
    | Some h => if bool_decide (status h = healthy) then Some service
                else firstPreferred this rest
    end = if ok this then Some service else firstPreferred this rest).
  { intros this. unfold ok. by destruct (health this !! sid). }
  assert (Hdec : ∀ this, ok this = false ↔ unhealthy this sid).
  { intros this. unfold ok, unhealthy. destruct (health this !! sid) as [h|].
    - rewrite bool_decide_eq_false. split; [eauto |]. by intros (h' & [= <-] & ?).
    - split; [discriminate |]. by intros (h' & ? & _). }
  rewrite !Hbranch.
  assert (ok this1 = ok this2) as ->.
  { pose proof (Hdec this1) as H1. pose proof (Hdec this2) as H2. specialize (Hu sid).
    destruct (ok this1), (ok this2); try done; exfalso.
    - assert (unhealthy this1 sid) by tauto. assert (true = false) by tauto. done.
    - assert (unhealthy this2 sid) by tauto. assert (true = false) by tauto. done. }
  by rewrite IH.
Qed.

(** X8: routing reads nothing of the health records but whether a record
    says [healthy]: two managers with the same services and the same
    unhealthy ids resolve every task alike. *)
Theorem routing_reads_status_only (this1 this2 : ServiceManager) (t : string) :
  services this1 = services this2 →
  (∀ serviceId, unhealthy this1 serviceId ↔ unhealthy this2 serviceId) →
  eval (getServiceForTask t) this1 = eval (getServiceForTask t) this2.
Proof.
  intros Hs Hu. unfold eval, getServiceForTask.
  destruct (findRouting t) as [routing|]; [| done].
  cbn. by rewrite (firstPreferred_status_only this1 this2 _ Hs Hu).
Qed.

(** A degraded and a down [openai-gpt4] route alike. *)
Lemma routing_reads_status_only_witness :
  services manager_openai_degraded = services manager_openai_down
  ∧ (∀ serviceId, unhealthy manager_openai_degraded serviceId
                  ↔ unhealthy manager_openai_down serviceId)
  ∧ eval (getServiceForTask "paper-analysis") manager_openai_degraded
    = eval (getServiceForTask "paper-analysis") manager_openai_down.
Proof.
  assert (Hu : ∀ serviceId, unhealthy manager_openai_degraded serviceId
                            ↔ unhealthy manager_openai_down serviceId).
  { intros serviceId. unfold unhealthy, manager_openai_degraded, manager_openai_down.
    cbn [exec updateHealth health snd new_ServiceManager new_ServiceManager_from].
    destruct (decide (serviceId = "openai-gpt4")) as [-> | Hne].
    - rewrite !lookup_insert_eq. split; intros _; eexists; (split; [reflexivity | discriminate]).
    - rewrite !lookup_insert_ne, !lookup_empty by done.
      split; intros (h & Hh & _); discriminate. }
  split; [reflexivity |]. split; [exact Hu |].
  apply (routing_reads_status_only manager_openai_degraded manager_openai_down
           "paper-analysis" eq_refl Hu).
Defined.

(** X9: once a probe reports a service as anything but healthy, no task
    resolves to that service, whatever the report's other fields. *)
Theorem reported_unhealthy_is_never_returned
    (serviceId : string) (h : ServiceHealth) (this : ServiceManager)
    (t : string) (service : AIService) :
  wellFormed this →
  status h ≠ healthy →
  eval (getServiceForTask t) (exec (updateHealth serviceId h) this) = Normal (Some service) →
  service_id service ≠ serviceId.
Proof.
  intros Hwf Hst Hres Heq.
  assert (Hwf' : wellFormed (exec (updateHealth serviceId h) this)) by exact Hwf.
  assert (Hrec : health (exec (updateHealth serviceId h) this) !! serviceId = Some h)
    by apply lookup_insert_eq.
  remember (exec (updateHealth serviceId h) this) as this' eqn:Hthis'. clear Hthis'.
  unfold eval, getServiceForTask in Hres.
  destruct (findRouting t) as [routing|]; [| discriminate]. cbn in Hres.
  injection Hres as Hres.
  pose proof (firstPreferred_spec this' (preferredServices routing)) as Hspec.
  rewrite Hres in Hspec. destruct Hspec as (before & sid & after' & _ & Hq & _).
  destruct Hq as (Hget & _ & Hhealth).
  pose proof (wellFormed_get this' sid service Hwf' Hget) as Hid.
  assert (sid = serviceId) as -> by congruence.
  destruct Hhealth as [Hnone | (h' & Hh' & Hst')]; congruence.
Qed.

Lemma reported_unhealthy_is_never_returned_witness :
  wellFormed new_ServiceManager
  ∧ status (report "openai-gpt4" degraded) ≠ healthy
  ∧ ∃ service,
      eval (getServiceForTask "slide-content-generation")
        (exec (updateHealth "openai-gpt4" (report "openai-gpt4" degraded)) new_ServiceManager)
      = Normal (Some service)
      ∧ service_id service ≠ "openai-gpt4".
Proof.
  assert (Hwf : wellFormed new_ServiceManager).
  { split; [decide_closed | repeat constructor]. }
  split; [exact Hwf |]. split; [discriminate |].
  eexists. split; [vm_compute; reflexivity |].
  eapply (reported_unhealthy_is_never_returned "openai-gpt4" (report "openai-gpt4" degraded)
            new_ServiceManager "slide-content-generation" _ Hwf).
  - discriminate.
  - vm_compute. reflexivity.
Defined.

Lemma configure_on_keeps_enabled serviceId config this key s :
  config !! "enabled" = Some (JBoolean true) →
  Map_get key (services this) = Some s → enabled s = true →
  ∃ s', Map_get key (services (exec (configureService serviceId config) this)) = Some s'
        ∧ enabled s' = true.
Proof.
  intros Hc Hget Hen.
  destruct (Map_get serviceId (services this)) as [service|] eqn:Hid.
  - rewrite (exec_configure_registered _ _ _ _ Hid). cbn [services].
    destruct (decide (key = serviceId)) as [-> | Hne].
    + rewrite Map_get_set_eq. eexists. split; [reflexivity |].
      unfold enabled, prop. cbn [service_config with_config].
      rewrite lookup_union, Hc. by destruct (service_config service !! "enabled").
    + rewrite Map_get_set_ne by done. eauto.
  - rewrite (exec_configure_unregistered _ _ _ Hid). eauto.
Qed.

Lemma configure_other_keeps serviceId config this key :
  key ≠ serviceId →
  Map_get key (services (exec (configureService serviceId config) this))
  = Map_get key (services this).
Proof.
  intros Hne. destruct (Map_get serviceId (services this)) as [service|] eqn:Hid.
  - rewrite (exec_configure_registered _ _ _ _ Hid). cbn [services].
    by rewrite Map_get_set_ne.
  - by rewrite (exec_configure_unregistered _ _ _ Hid).
Qed.

Lemma textServiceId_cases settings :
  textServiceId settings ∈ ["openai-gpt4"; "anthropic-claude"; "google-gemini"; "local-ollama"].
Proof. unfold textServiceId. repeat case_bool_decide; decide_closed. Qed.

Lemma textServiceId_not_visual settings :
  textServiceId settings ≠ "nano-banana" ∧ textServiceId settings ≠ "mermaid"
  ∧ textServiceId settings ≠ "quickchart" ∧ textServiceId settings ≠ "katex".
Proof. unfold textServiceId. repeat case_bool_decide; repeat split; discriminate. Qed.

(** X10: [initializeServices] leaves the selected text service, when it is
    registered, enabled and carrying the API key and the model of the
    settings; it switches no service off and leaves the health records
    alone. *)
Theorem initializeServices_enables
    (settings : UserSettings) (this : ServiceManager) (service : AIService) :
  Map_get (textServiceId settings) (services this) = Some service →
  let this' := exec (initializeServices settings) this in
  (∃ service',
      Map_get (textServiceId settings) (services this') = Some service'
      ∧ enabled service' = true
      ∧ prop (service_config service') "apiKey" = JString (settings_apiKey settings)
      ∧ prop (service_config service') "model" = JString (settings_model settings))
  ∧ (∀ key s, Map_get key (services this) = Some s → enabled s = true →
              ∃ s', Map_get key (services this') = Some s' ∧ enabled s' = true)
  ∧ health this' = health this.
Proof.
  intros Hget. cbn zeta. rewrite initializeServices_steps.
  destruct (textServiceId_not_visual settings) as (Hn & Hm & Hq & Hk).
  split; [| split].
  - rewrite !configure_other_keeps by done.
    rewrite (exec_configure_registered _ _ _ _ Hget). cbn [services].
    rewrite Map_get_set_eq. eexists. split; [reflexivity |].
    unfold enabled, prop. cbn.
    split; [| split].
    + by erewrite lookup_union_Some_l by apply lookup_insert_eq.
    + by erewrite lookup_union_Some_l
        by (rewrite lookup_insert_ne by discriminate; apply lookup_insert_eq).
    + by erewrite lookup_union_Some_l
        by (rewrite !lookup_insert_ne by discriminate; apply lookup_singleton_eq).
  - intros key s Hs Hen.
    destruct (configure_on_keeps_enabled (textServiceId settings)
                (<["enabled" := JBoolean true]>
                   (<["apiKey" := JString (settings_apiKey settings)]>
                      {[ "model" := JString (settings_model settings) ]}))
                this key s (lookup_insert_eq _ _ _) Hs Hen) as (s1 & H1 & E1).
    destruct (configure_on_keeps_enabled "nano-banana" (switch true) _ key s1
                (lookup_singleton_eq _ _) H1 E1) as (s2 & H2 & E2).
    destruct (configure_on_keeps_enabled "mermaid" (switch true) _ key s2
                (lookup_singleton_eq _ _) H2 E2) as (s3 & H3 & E3).
    destruct (configure_on_keeps_enabled "quickchart" (switch true) _ key s3
                (lookup_singleton_eq _ _) H3 E3) as (s4 & H4 & E4).
    exact (configure_on_keeps_enabled "katex" (switch true) _ key s4
             (lookup_singleton_eq _ _) H4 E4).
  - by rewrite !(proj2 (configureService_identity _ _ _)).
Qed.

Lemma initializeServices_enables_witness :
  let settings := {| settings_provider := "local"; settings_apiKey := "";
                     settings_model := "llama3" |} in
  (∃ service, Map_get (textServiceId settings) (services new_ServiceManager) = Some service
              ∧ enabled service = false)
  ∧ ∃ service',
      Map_get "local-ollama" (services (exec (initializeServices settings) new_ServiceManager))
      = Some service'
      ∧ enabled service' = true
      ∧ prop (service_config service') "model" = JString "llama3".
Proof.
  cbn zeta. split; [eexists; split; [vm_compute; reflexivity | vm_compute; reflexivity] |].
  destruct (initializeServices_enables
              {| settings_provider := "local"; settings_apiKey := "";
                 settings_model := "llama3" |} new_ServiceManager _ eq_refl)
    as ((service' & Hget & Hen & _ & Hmodel) & _).
  exists service'. split; [exact Hget |]. split; [exact Hen | exact Hmodel].
Defined.

(** X11: on a fresh default manager the provider the settings select never
    changes which service a task resolves to: every task resolves to the
    same id after [initializeServices] as before it. *)
Theorem initializeServices_keeps_routing (settings : UserSettings) (t : string) :
  resolvedId (eval (getServiceForTask t)
                (exec (initializeServices settings) new_ServiceManager))
  = resolvedId (eval (getServiceForTask t) new_ServiceManager).
Proof.
  rewrite initializeServices_steps. unfold textServiceId.
  unfold eval, getServiceForTask, findRouting, TASK_ROUTING. cbn [List.find task].
  repeat case_bool_decide; vm_compute; reflexivity.
Qed.

(* ===================================================================== *)
(** * Further properties of the planner and of the pipeline *)
(* ===================================================================== *)

Section PipelineMore.

Context {ChartData : Type}.
Variable extractChartData : list string -> ChartData.
Variable encodeChartConfig : ChartData -> string.
Variable analyzePaperEnhanced : string -> UserSettings -> Completion PaperMetadata.
Variable generateEnhancedSlides :
  PaperMetadata -> UserSettings -> Completion (list EnhancedSlide).
Variable nanoBananaEndpoint : nat -> VisualAssetRequest -> string -> Completion string.

Local Abbreviation planSlide' := (planSlide extractChartData).
Local Abbreviation planVisuals_from' := (planVisuals_from extractChartData).
Local Abbreviation planVisuals' := (planVisuals extractChartData).
Local Abbreviation visualUnit' := (visualUnit encodeChartConfig nanoBananaEndpoint).
Local Abbreviation unitResult' := (unitResult encodeChartConfig nanoBananaEndpoint).
Local Abbreviation fanOut' := (fanOut encodeChartConfig nanoBananaEndpoint).
Local Abbreviation orchestratePresentation' :=
  (orchestratePresentation extractChartData encodeChartConfig analyzePaperEnhanced
     generateEnhancedSlides nanoBananaEndpoint).

(** *** The plans *)

Lemma planVisuals_from_bounds metadata slides : ∀ index,
  StronglySorted lt (slideIndex <$> planVisuals_from' index slides metadata)
  ∧ Forall (λ i, index ≤ i < index + List.length slides)%nat
      (slideIndex <$> planVisuals_from' index slides metadata)
  ∧ (List.length (planVisuals_from' index slides metadata) ≤ List.length slides)%nat.
Proof.
  induction slides as [|slide rest IH]; intros index; cbn [planVisuals_from].
  - repeat split; constructor.
  - destruct (IH (S index)) as (Hs & Hb & Hl).
    assert (Hb' : Forall (λ i, index ≤ i < index + List.length (slide :: rest))%nat
                    (slideIndex <$> planVisuals_from' (S index) rest metadata)).
    { eapply Forall_impl; [exact Hb |]. cbn. intros i Hi. lia. }
    case_bool_decide.
    + rewrite fmap_cons, planSlide_index. split; [| split].
      * constructor; [exact Hs |]. eapply Forall_impl; [exact Hb |]. cbn. intros i Hi. lia.
      * constructor; [cbn; lia | exact Hb'].
      * cbn. lia.
    + split; [exact Hs |]. split; [exact Hb' |]. cbn. lia.
Qed.

(** X12: the plans come in the order of the slides: their indices
    increase strictly and are positions of the deck, so there are at most
    as many plans as slides and none for an empty deck. *)
Theorem planVisuals_indices (slides : list EnhancedSlide) (metadata : PaperMetadata) :
  StronglySorted lt (slideIndex <$> planVisuals' slides metadata)
  ∧ (∀ plan, plan ∈ planVisuals' slides metadata →
             (slideIndex plan < List.length slides)%nat)
  ∧ (List.length (planVisuals' slides metadata) ≤ List.length slides)%nat
  ∧ planVisuals' [] metadata = [].
Proof.
  destruct (planVisuals_from_bounds metadata slides 0) as (Hs & Hb & Hl).
  split; [exact Hs |]. split; [| split; [exact Hl | reflexivity]].
  intros plan Hin. apply (list_elem_of_fmap_2 slideIndex) in Hin.
  apply (proj1 (Forall_forall _ _) Hb) in Hin. lia.
Qed.

Lemma truthy_or_str a b : truthy_str b = true → truthy_str (or_str a b) = true.
Proof.
  intros Hb. unfold or_str. destruct a as [s|]; [| done].
  by destruct (truthy_str s) eqn:E.
Qed.

Lemma truthy_str_literal c s t : truthy_str (String c s +:+ t) = true.
Proof. reflexivity. Qed.

(** X13: what a plan carries depends on its kind alone: an illustration
    or a diagram plan carries a prompt that is not empty and no data, a
    chart plan the data extracted from the slide's lines and no prompt, an
    equation plan neither. *)
Theorem planVisuals_payload (slides : list EnhancedSlide) (metadata : PaperMetadata)
    (plan : VisualGenerationPlan) :
  plan ∈ planVisuals' slides metadata →
  match visualType plan with
  | illustration | diagram => truthy_opt (prompt plan) = true ∧ data plan = None
  | chart =>
      prompt plan = None
      ∧ ∃ slide, slides !! slideIndex plan = Some slide
                 ∧ data plan = Some (extractChartData (slide_content slide))
  | equation => prompt plan = None ∧ data plan = None
  | none => False
  end.
Proof.
  intros Hin. unfold planVisuals in Hin.
  apply planVisuals_from_elem in Hin as (i & slide & Hl & -> & Hv).
  revert Hv. unfold planSlide. cbn [Nat.add].
  repeat case_match; cbn; intros Hv; try done.
  - split; [| done]. apply truthy_or_str. reflexivity.
  - eauto.
Qed.

(** *** What the units store *)

Ltac run_unit :=
  unfold unitResult, visualUnit, generateVisual, generateWithNanoBanana, generateChart,
    generateDiagram, tryCatch, console_error, console_log, emit, modify,
    external, throw, mbind, mret, JS_bind, JS_ret; cbn.

(** The result of a unit, as a function of the plan. *)
Lemma unitResult_spec metadata visualService result plan :
  unitResult' metadata visualService result plan
  = if bool_decide (visualType plan = illustration) && truthy_opt (prompt plan) then
      if bool_decide (visual_provider visualService = nano_banana) then
        match nanoBananaEndpoint (slideIndex plan) (illustrationRequest metadata plan)
                (visual_apiKey visualService) with
        | Normal url => set_visuals result (slideIndex plan) url
        | Throw _ => result
        end
      else result
    else if bool_decide (visualType plan = chart) && bool_decide (is_Some (data plan)) then
      match data plan with
      | Some d => set_charts result (slideIndex plan)
                    ("https://quickchart.io/chart?c=" +:+ encodeChartConfig d)
      | None => result
      end
    else if bool_decide (visualType plan = diagram) then
      match eval (generateDiagram (slideIndex plan) (or_str (prompt plan) (slideTitle plan))) [] with
      | Normal code => set_diagrams result (slideIndex plan) code
      | Throw _ => result
      end
    else result.
Proof.
  run_unit.
  destruct (bool_decide (visualType plan = illustration) && truthy_opt (prompt plan)).
  - destruct (bool_decide (visual_provider visualService = nano_banana)); cbn; [| done].
    by destruct (nanoBananaEndpoint _ _ _).
  - destruct (bool_decide (visualType plan = chart) && bool_decide (is_Some (data plan))).
    + by destruct (data plan).
    + by destruct (bool_decide (visualType plan = diagram)).
Qed.

Ltac map_cases plan i :=
  destruct (decide (slideIndex plan = i)) as [<- | ?];
  rewrite ?lookup_insert_eq, ?lookup_insert_ne, ?lookup_empty by done.

Ltac unit_cases plan :=
  destruct (bool_decide (visualType plan = illustration) && truthy_opt (prompt plan)) eqn:Hill;
  [ destruct (bool_decide (visual_provider _ = nano_banana)) eqn:Hnano;
    [ destruct (nanoBananaEndpoint _ _ _) as [url | e] eqn:Hend | ]
  | destruct (bool_decide (visualType plan = chart) && bool_decide (is_Some (data plan))) eqn:Hch;
    [ destruct (data plan) as [d|] eqn:Hdata
    | destruct (bool_decide (visualType plan = diagram)) eqn:Hdi;
      [ destruct (eval (generateDiagram _ _) []) as [code | e] eqn:Hcode | ] ] ].

(** A unit writes under its own index only, and into the map of its
    plan's kind only. *)
Lemma unitResult_lookup metadata visualService result plan kind i :
  mapOf kind (unitResult' metadata visualService result plan) !! i
  = match mapOf kind (unitResult' metadata visualService (emptyResult []) plan) !! i with
    | Some v => Some v
    | None => mapOf kind result !! i
    end.
Proof.
  rewrite !unitResult_spec. unit_cases plan;
    destruct kind; cbn; map_cases plan i; done.
Qed.

Lemma unitResult_own_index metadata visualService plan kind i v :
  mapOf kind (unitResult' metadata visualService (emptyResult []) plan) !! i = Some v →
  i = slideIndex plan ∧ visualType plan = kind.
Proof.
  rewrite unitResult_spec. unit_cases plan;
    repeat match goal with
           | H : _ && _ = true |- _ => apply andb_true_iff in H as [? ?]
           | H : bool_decide _ = true |- _ => apply bool_decide_eq_true_1 in H
           end;
    destruct kind; cbn; map_cases plan i; intros; try done; split; congruence.
Qed.

Lemma foldl_unitResult_lookup metadata visualService kind i plans : ∀ result,
  NoDup (slideIndex <$> plans) →
  mapOf kind (foldl (unitResult' metadata visualService) result plans) !! i
  = match list_find (λ plan, slideIndex plan = i) plans with
    | Some (_, plan) =>
        match mapOf kind (unitResult' metadata visualService (emptyResult []) plan) !! i with
        | Some v => Some v
        | None => mapOf kind result !! i
        end
    | None => mapOf kind result !! i
    end.
Proof.
  induction plans as [|plan rest IH]; intros result Hnd; [done |].
  rewrite fmap_cons in Hnd. apply NoDup_cons in Hnd as [Hfresh Hnd].
  cbn [foldl]. rewrite (IH _ Hnd). cbn [list_find]. case_decide as Hi.
  - cbn. assert (list_find (λ p, slideIndex p = i) rest = None) as ->.
    { apply list_find_None, Forall_forall. intros p Hp Hpi. apply Hfresh.
      rewrite Hi, <- Hpi. by apply list_elem_of_fmap_2. }
    apply unitResult_lookup.
  - assert (Hskip : mapOf kind (unitResult' metadata visualService result plan) !! i
                    = mapOf kind result !! i).
    { rewrite unitResult_lookup.
      destruct (mapOf kind (unitResult' metadata visualService (emptyResult []) plan) !! i)
        as [v|] eqn:Hv; [| done].
      apply unitResult_own_index in Hv as [-> _]. done. }
    destruct (list_find (λ p, slideIndex p = i) rest) as [[n p]|]; cbn; by rewrite Hskip.
Qed.

Lemma planVisuals_find metadata slides i :
  match list_find (λ plan, slideIndex plan = i) (planVisuals' slides metadata) with
  | Some (_, plan) =>
      ∃ slide, slides !! i = Some slide ∧ classify i slide ≠ none
               ∧ plan = planSlide' metadata i slide
  | None => ∀ slide, slides !! i = Some slide → classify i slide = none
  end.
Proof.
  destruct (list_find (λ plan, slideIndex plan = i) (planVisuals' slides metadata))
    as [[n plan]|] eqn:Hfind.
  - apply list_find_Some in Hfind as (Hn & Hi & _).
    apply list_elem_of_lookup_2 in Hn. unfold planVisuals in Hn.
    apply planVisuals_from_elem in Hn as (j & slide & Hl & -> & Hv).
    rewrite planSlide_index in Hi. cbn in Hi. subst j.
    rewrite planSlide_classify in Hv. eauto.
  - intros slide Hl. destruct (decide (classify i slide = none)) as [| Hc]; [done |].
    exfalso. apply list_find_None in Hfind.
    assert (Hin : planSlide' metadata i slide ∈ planVisuals' slides metadata).
    { unfold planVisuals. apply planVisuals_from_elem. exists i, slide.
      split; [done |]. split; [done |]. by rewrite planSlide_classify. }
    apply (proj1 (Forall_forall _ _) Hfind) in Hin. apply Hin. apply planSlide_index.
Qed.

(** Under each index the result of the stage holds what the unit of the
    slide at that index stores, and nothing where the slide gets no plan. *)
Lemma stage_lookup metadata visualService slides' kind i result stage :
  fanOut' metadata visualService (emptyResult slides') (planVisuals' slides' metadata) []
  = (Normal result, stage) →
  mapOf kind result !! i
  = match slides' !! i with
    | Some slide =>
        if bool_decide (classify i slide ≠ none)
        then mapOf kind (unitResult' metadata visualService (emptyResult [])
                           (planSlide' metadata i slide)) !! i
        else None
    | None => None
    end.
Proof.
  intros Hfan.
  pose proof (fanOut_foldl encodeChartConfig nanoBananaEndpoint metadata visualService
                (planVisuals' slides' metadata) (emptyResult slides')) as Hfold.
  rewrite Hfan in Hfold. cbn in Hfold. injection Hfold as ->.
  rewrite foldl_unitResult_lookup by apply planVisuals_NoDup.
  pose proof (planVisuals_find metadata slides' i) as Hfind.
  assert (Hempty : mapOf kind (emptyResult slides') !! i = None).
  { destruct kind; apply lookup_empty. }
  rewrite Hempty.
  destruct (list_find _ _) as [[n p]|].
  - destruct Hfind as (slide & -> & Hc & ->). rewrite bool_decide_eq_true_2 by done.
    cbn.
    by destruct (mapOf kind (unitResult' metadata visualService (emptyResult [])
                               (planSlide' metadata i slide)) !! i).
  - destruct (slides' !! i) as [slide|]; [| done].
    by rewrite bool_decide_eq_false_2 by (intros Hc; apply Hc; eauto).
Qed.

Ltac decide_kinds :=
  repeat match goal with
         | |- context [bool_decide (?a = ?b)] =>
             first [ rewrite (bool_decide_eq_true_2 (a = b)) by reflexivity
                   | rewrite (bool_decide_eq_false_2 (a = b)) by discriminate ]
         | |- context [bool_decide (?a ≠ ?b)] =>
             first [ rewrite (bool_decide_eq_true_2 (a ≠ b)) by discriminate
                   | rewrite (bool_decide_eq_false_2 (a ≠ b)) by (intros H; by apply H) ]
         end.

(** What [planSlide] puts into the plan of a slide of each kind. *)
Lemma planSlide_fields metadata i slide :
  match classify i slide with
  | illustration => truthy_opt (prompt (planSlide' metadata i slide)) = true
  | diagram =>
      prompt (planSlide' metadata i slide)
      = Some ("Diagram showing " +:+ slide_title slide +:+ ": "
                +:+ join ", " (slide_content slide))
  | chart =>
      prompt (planSlide' metadata i slide) = None
      ∧ data (planSlide' metadata i slide) = Some (extractChartData (slide_content slide))
  | equation | none => True
  end.
Proof.
  unfold classify, planSlide, figureHint, processPattern, numericPattern, mathNotation,
    everyNth.
  repeat case_match; cbn; try done. apply truthy_or_str. reflexivity.
Qed.

(** A run in visual mode, with the stage it contains. *)
Lemma visual_run paperText config metadata slides' visualService' tr :
  analyzePaperEnhanced paperText (textService config) = Normal metadata →
  generateEnhancedSlides metadata (textService config) = Normal slides' →
  generateVisuals config = true →
  visualService config = Some visualService' →
  ∃ result stage,
    fanOut' metadata visualService' (emptyResult slides') (planVisuals' slides' metadata) []
    = (Normal result, stage)
    ∧ orchestratePresentation' paperText config tr
      = (Normal result,
         tr ++ criticalPathEvents ++ planningEvents ++ stage ++ summaryEvents result)
    ∧ slides result = slides'.
Proof.
  intros Ha Hs Hg Hv.
  destruct (fanOut_run encodeChartConfig analyzePaperEnhanced generateEnhancedSlides
              nanoBananaEndpoint metadata visualService'
              (planVisuals' slides' metadata) (emptyResult slides'))
    as (result & stage & Hfan & Hsl & _).
  exists result, stage. split; [exact Hfan |]. split; [| exact Hsl].
  rewrite (appends_orchestratePresentation extractChartData encodeChartConfig
             analyzePaperEnhanced generateEnhancedSlides nanoBananaEndpoint
             paperText config tr).
  by rewrite (orchestratePresentation_visuals extractChartData encodeChartConfig
                analyzePaperEnhanced generateEnhancedSlides nanoBananaEndpoint
                paperText config metadata slides' visualService' Ha Hs Hg Hv result stage Hfan).
Qed.

(** X14: in visual mode, the serialisation of chart data being total,
    the charts and the diagrams of the result follow from the slides
    alone, whatever the provider and the endpoint do: under
    the index of each slide classified as a chart the map [charts] holds
    the QuickChart address of the data extracted from its lines, under the
    index of each slide classified as a diagram the map [diagrams] holds
    the flowchart of its title and lines, and the two maps hold nothing
    else. *)
Theorem charts_and_diagrams_follow_the_slides
    (paperText : string) (config : OrchestrationConfig) (metadata : PaperMetadata)
    (slides' : list EnhancedSlide) (visualService' : VisualServiceConfig)
    (tr : list Event) :
  analyzePaperEnhanced paperText (textService config) = Normal metadata →
  generateEnhancedSlides metadata (textService config) = Normal slides' →
  generateVisuals config = true →
  visualService config = Some visualService' →
  ∃ result added,
    orchestratePresentation' paperText config tr = (Normal result, tr ++ added)
    ∧ (∀ i, charts result !! i
            = match slides' !! i with
              | Some slide =>
                  if bool_decide (classify i slide = chart)
                  then Some ("https://quickchart.io/chart?c="
                               +:+ encodeChartConfig (extractChartData (slide_content slide)))
                  else None
              | None => None
              end)
    ∧ (∀ i, diagrams result !! i
            = match slides' !! i with
              | Some slide =>
                  if bool_decide (classify i slide = diagram)
                  then match eval (generateDiagram i
                                     ("Diagram showing " +:+ slide_title slide +:+ ": "
                                        +:+ join ", " (slide_content slide))) [] with
                       | Normal code => Some code
                       | Throw _ => None
                       end
                  else None
              | None => None
              end).
Proof.
  intros Ha Hs Hg Hv.
  destruct (visual_run paperText config metadata slides' visualService' tr Ha Hs Hg Hv)
    as (result & stage & Hfan & Hrun & _).
  exists result, (criticalPathEvents ++ planningEvents ++ stage ++ summaryEvents result).
  split; [exact Hrun |]. split.
  - intros i. change (charts result) with (mapOf chart result).
    rewrite (stage_lookup metadata visualService' slides' chart i result stage Hfan).
    destruct (slides' !! i) as [slide|]; [| done].
    pose proof (planSlide_fields metadata i slide) as Hf.
    pose proof (planSlide_classify extractChartData metadata i slide) as Hc.
    pose proof (planSlide_index extractChartData metadata i slide) as Hi.
    rewrite unitResult_spec, Hc, Hi.
    destruct (classify i slide); decide_kinds; cbn [andb];
      try (repeat case_match; done).
    destruct Hf as [Hp Hd]. rewrite Hd, bool_decide_eq_true_2 by eauto.
    apply lookup_insert_eq.
  - intros i. change (diagrams result) with (mapOf diagram result).
    rewrite (stage_lookup metadata visualService' slides' diagram i result stage Hfan).
    destruct (slides' !! i) as [slide|]; [| done].
    pose proof (planSlide_fields metadata i slide) as Hf.
    pose proof (planSlide_classify extractChartData metadata i slide) as Hc.
    pose proof (planSlide_index extractChartData metadata i slide) as Hi.
    rewrite unitResult_spec, Hc, Hi.
    destruct (classify i slide); decide_kinds; cbn [andb];
      try (repeat case_match; done).
    rewrite Hf. unfold or_str. rewrite truthy_str_literal.
    destruct (eval (generateDiagram _ _) []); [apply lookup_insert_eq | done].
Qed.

(** X15: in visual mode the map [visuals] holds, under the index of each
    slide classified as an illustration, the address the Nano Banana
    endpoint answered for that slide's request, and nothing else: nothing
    for a slide whose request failed, and nothing at all under the DALL-E
    provider. *)
Theorem visuals_follow_the_endpoint
    (paperText : string) (config : OrchestrationConfig) (metadata : PaperMetadata)
    (slides' : list EnhancedSlide) (visualService' : VisualServiceConfig)
    (tr : list Event) :
  analyzePaperEnhanced paperText (textService config) = Normal metadata →
  generateEnhancedSlides metadata (textService config) = Normal slides' →
  generateVisuals config = true →
  visualService config = Some visualService' →
  ∃ result added,
    orchestratePresentation' paperText config tr = (Normal result, tr ++ added)
    ∧ (∀ i, visuals result !! i
            = match slides' !! i with
              | Some slide =>
                  if bool_decide (classify i slide = illustration)
                     && bool_decide (visual_provider visualService' = nano_banana)
                  then match nanoBananaEndpoint i
                               (illustrationRequest metadata (planSlide' metadata i slide))
                               (visual_apiKey visualService') with
                       | Normal url => Some url
                       | Throw _ => None
                       end
                  else None
              | None => None
              end)
    ∧ (visual_provider visualService' = dall_e → visuals result = ∅).
Proof.
  intros Ha Hs Hg Hv.
  destruct (visual_run paperText config metadata slides' visualService' tr Ha Hs Hg Hv)
    as (result & stage & Hfan & Hrun & _).
  exists result, (criticalPathEvents ++ planningEvents ++ stage ++ summaryEvents result).
  split; [exact Hrun |].
  assert (Hlookup : ∀ i, visuals result !! i
            = match slides' !! i with
              | Some slide =>
                  if bool_decide (classify i slide = illustration)
                     && bool_decide (visual_provider visualService' = nano_banana)
                  then match nanoBananaEndpoint i
                               (illustrationRequest metadata (planSlide' metadata i slide))
                               (visual_apiKey visualService') with
                       | Normal url => Some url
                       | Throw _ => None
                       end
                  else None
              | None => None
              end).
  { intros i. change (visuals result) with (mapOf illustration result).
    rewrite (stage_lookup metadata visualService' slides' illustration i result stage Hfan).
    destruct (slides' !! i) as [slide|]; [| done].
    pose proof (planSlide_fields metadata i slide) as Hf.
    pose proof (planSlide_classify extractChartData metadata i slide) as Hc.
    pose proof (planSlide_index extractChartData metadata i slide) as Hi.
    rewrite unitResult_spec, Hc, Hi.
    destruct (classify i slide); decide_kinds; cbn [andb];
      try (repeat case_match; done).
    rewrite Hf.
    destruct (bool_decide (visual_provider visualService' = nano_banana)); [| done].
    destruct (nanoBananaEndpoint _ _ _); [apply lookup_insert_eq | done]. }
  split; [exact Hlookup |].
  intros Hd. apply map_eq. intros i. rewrite Hlookup, lookup_empty.
  destruct (slides' !! i); [| done].
  rewrite (bool_decide_eq_false_2 (visual_provider visualService' = nano_banana))
    by (rewrite Hd; discriminate).
  by rewrite andb_false_r.
Qed.

(** X16: every key of the maps of a result is the position of one of its
    slides. *)
Theorem artifact_keys_are_slide_positions
    (paperText : string) (config : OrchestrationConfig) (metadata : PaperMetadata)
    (slides' : list EnhancedSlide) (visualService' : VisualServiceConfig)
    (tr : list Event) :
  analyzePaperEnhanced paperText (textService config) = Normal metadata →
  generateEnhancedSlides metadata (textService config) = Normal slides' →
  generateVisuals config = true →
  visualService config = Some visualService' →
  ∃ result added,
    orchestratePresentation' paperText config tr = (Normal result, tr ++ added)
    ∧ ∀ i, i ∈ artifactKeys result → (i < List.length (slides result))%nat.
Proof.
  intros Ha Hs Hg Hv.
  destruct (visual_run paperText config metadata slides' visualService' tr Ha Hs Hg Hv)
    as (result & stage & Hfan & Hrun & Hsl).
  exists result, (criticalPathEvents ++ planningEvents ++ stage ++ summaryEvents result).
  split; [exact Hrun |]. rewrite Hsl.
  assert (Hkey : ∀ kind i, i ∈ dom (mapOf kind result) → (i < List.length slides')%nat).
  { intros kind i Hi. apply elem_of_dom in Hi as [v Hi].
    rewrite (stage_lookup metadata visualService' slides' kind i result stage Hfan) in Hi.
    destruct (slides' !! i) as [slide|] eqn:Hl; [| discriminate].
    by apply lookup_lt_Some in Hl. }
  intros i Hi. unfold artifactKeys in Hi. rewrite !elem_of_union in Hi.
  destruct Hi as [[Hi | Hi] | Hi].
  - by apply (Hkey illustration).
  - by apply (Hkey chart).
  - by apply (Hkey diagram).
Qed.

(** X17: when the analysis succeeds and the slide generation fails, the
    pipeline fails with the error of the slide generation right after the
    critical path: the planner and the generators are not entered. *)
Theorem slide_generation_failure_is_fatal
    (paperText : string) (config : OrchestrationConfig) (metadata : PaperMetadata)
    (e : string) (tr : list Event) :
  analyzePaperEnhanced paperText (textService config) = Normal metadata →
  generateEnhancedSlides metadata (textService config) = Throw e →
  orchestratePresentation' paperText config tr = (Throw e, tr ++ criticalPathEvents)
  ∧ (Called fn_planVisuals ∉ criticalPathEvents)
  ∧ ∀ ev, ev ∈ criticalPathEvents → ¬ generationEvent ev.
Proof.
  intros Ha Hs. split.
  - rewrite (appends_orchestratePresentation extractChartData encodeChartConfig
               analyzePaperEnhanced generateEnhancedSlides nanoBananaEndpoint
               paperText config tr).
    by rewrite (orchestratePresentation_slides_fail extractChartData encodeChartConfig
                  analyzePaperEnhanced generateEnhancedSlides nanoBananaEndpoint
                  paperText config metadata e Ha Hs).
  - by apply criticalPathEvents_quiet.
Qed.

(** X18: the artifacts do not depend on the order in which the units
    complete: run in any order, the units of the plans leave the same
    result. *)
Theorem completion_order_is_irrelevant
    (metadata : PaperMetadata) (visualService' : VisualServiceConfig)
    (slides' : list EnhancedSlide) (order : list VisualGenerationPlan)
    (result : OrchestrationResult) :
  order ≡ₚ planVisuals' slides' metadata →
  eval (fanOut' metadata visualService' result order) []
  = eval (fanOut' metadata visualService' result (planVisuals' slides' metadata)) [].
Proof.
  intros Hperm. unfold eval.
  apply (fanOut_order_irrelevant encodeChartConfig nanoBananaEndpoint); [exact Hperm |].
  rewrite Hperm. apply planVisuals_NoDup.
Qed.

(** *** What the units write to the console *)

Ltac run_events :=
  unfold visualUnit, generateVisual, generateWithNanoBanana, generateChart,
    generateDiagram, tryCatch, console_error, console_log, emit, modify,
    external, throw, mbind, mret, JS_bind, JS_ret; cbn.

(** The console of a unit, as a function of the plan. *)
Lemma visualUnit_events metadata visualService result plan :
  (visualUnit' metadata visualService result plan []).2
  = (if bool_decide (visualType plan = illustration) && truthy_opt (prompt plan) then
       if bool_decide (visual_provider visualService = nano_banana) then
         Called (fn_generateWithNanoBanana (slideIndex plan))
         :: match nanoBananaEndpoint (slideIndex plan) (illustrationRequest metadata plan)
                    (visual_apiKey visualService) with
            | Normal _ => []
            | Throw e => [ConsoleError "Nano Banana generation failed:" e;
                          ConsoleError (failureMessage (slideIndex plan)) e]
            end
       else []
     else if bool_decide (visualType plan = chart) && bool_decide (is_Some (data plan)) then
       match data plan with
       | Some _ => [Called (fn_generateChart (slideIndex plan))]
       | None => []
       end
     else if bool_decide (visualType plan = diagram) then
       [Called (fn_generateDiagram (slideIndex plan))]
     else [])
    ++ [Settled (slideIndex plan)].
Proof.
  run_events.
  destruct (bool_decide (visualType plan = illustration) && truthy_opt (prompt plan)).
  - destruct (bool_decide (visual_provider visualService = nano_banana)); cbn; [| done].
    by destruct (nanoBananaEndpoint _ _ _).
  - destruct (bool_decide (visualType plan = chart) && bool_decide (is_Some (data plan))).
    + by destruct (data plan).
    + by destruct (bool_decide (visualType plan = diagram)).
Qed.

(** The console of the stage is the consoles of its units, one after the
    other. *)
Lemma fanOut_events metadata visualService plans : ∀ result,
  (fanOut' metadata visualService result plans []).2
  = List.concat ((λ plan, (visualUnit' metadata visualService (emptyResult []) plan []).2)
              <$> plans).
Proof.
  induction plans as [|plan rest IH]; intros result; [reflexivity |].
  rewrite fmap_cons, concat_cons, <- (IH (unitResult' metadata visualService result plan)).
  unfold fanOut at 1. cbn [foldJS]. unfold mbind, JS_bind.
  pose proof (visualUnit_unitResult encodeChartConfig nanoBananaEndpoint
                metadata visualService result plan) as Hu.
  assert (He : (visualUnit' metadata visualService result plan []).2
               = (visualUnit' metadata visualService (emptyResult []) plan []).2)
    by (by rewrite !visualUnit_events).
  destruct (visualUnit' metadata visualService result plan []) as [c t1].
  cbn in Hu, He. subst c. rewrite <- He.
  fold (fanOut' metadata visualService (unitResult' metadata visualService result plan) rest).
  by rewrite (appends_fanOut encodeChartConfig nanoBananaEndpoint metadata visualService
                rest _ t1).
Qed.

Lemma planned_illustration_prompt metadata slides plan :
  plan ∈ planVisuals' slides metadata →
  visualType plan = illustration → truthy_opt (prompt plan) = true.
Proof.
  intros Hin Hty. unfold planVisuals in Hin.
  apply planVisuals_from_elem in Hin as (i & slide & _ & -> & _).
  rewrite planSlide_classify in Hty.
  pose proof (planSlide_fields metadata (0 + i) slide) as Hf. by rewrite Hty in Hf.
Qed.

Lemma stage_nano_calls metadata visualService (plans : list VisualGenerationPlan) :
  Forall (λ plan, visualType plan = illustration → truthy_opt (prompt plan) = true) plans →
  omap nanoCallIndex
    (List.concat ((λ plan, (visualUnit' metadata visualService (emptyResult []) plan []).2)
               <$> plans))
  = if bool_decide (visual_provider visualService = nano_banana)
    then slideIndex <$> filter (λ plan, visualType plan = illustration) plans
    else [].
Proof.
  induction 1 as [|plan rest Hp _ IH]; [by case_bool_decide |].
  rewrite fmap_cons, concat_cons, omap_app, IH, visualUnit_events, omap_app, filter_cons.
  destruct (decide (visualType plan = illustration)) as [Hty | Hty].
  - rewrite (bool_decide_eq_true_2 _ Hty), (Hp Hty). cbn [andb].
    destruct (bool_decide (visual_provider visualService = nano_banana)); [| done].
    by destruct (nanoBananaEndpoint _ _ _).
  - rewrite (bool_decide_eq_false_2 _ Hty). cbn [andb].
    destruct (bool_decide (visual_provider visualService = nano_banana));
      repeat case_match; done.
Qed.

Lemma stage_console_errors metadata visualService (plans : list VisualGenerationPlan) :
  List.length (List.filter isConsoleError
    (List.concat ((λ plan, (visualUnit' metadata visualService (emptyResult []) plan []).2)
               <$> plans)))
  = (2 * countFate nanoBananaEndpoint metadata visualService Failed plans)%nat.
Proof.
  unfold countFate. induction plans as [|plan rest IH]; [reflexivity |].
  rewrite fmap_cons, concat_cons, List.filter_app, length_app, IH, visualUnit_events.
  rewrite filter_cons. unfold fate.
  destruct (bool_decide (visualType plan = illustration) && truthy_opt (prompt plan)).
  - destruct (bool_decide (visual_provider visualService = nano_banana)).
    + destruct (nanoBananaEndpoint _ _ _); case_decide; try done; cbn; lia.
    + case_decide; try done; cbn; lia.
  - destruct (bool_decide (visualType plan = chart) && bool_decide (is_Some (data plan))).
    + destruct (data plan); case_decide; try done; cbn; lia.
    + destruct (bool_decide (visualType plan = diagram)); case_decide; try done; cbn; lia.
Qed.

(** X19: in visual mode the Nano Banana generator is entered exactly once
    for each illustration plan, in the order of the slides, and for no
    other plan; under the DALL-E provider it is never entered. *)
Theorem nano_banana_is_called_once_per_illustration
    (paperText : string) (config : OrchestrationConfig) (metadata : PaperMetadata)
    (slides' : list EnhancedSlide) (visualService' : VisualServiceConfig)
    (tr : list Event) :
  analyzePaperEnhanced paperText (textService config) = Normal metadata →
  generateEnhancedSlides metadata (textService config) = Normal slides' →
  generateVisuals config = true →
  visualService config = Some visualService' →
  ∃ result added,
    orchestratePresentation' paperText config tr = (Normal result, tr ++ added)
    ∧ omap nanoCallIndex added
      = if bool_decide (visual_provider visualService' = nano_banana)
        then slideIndex <$> filter (λ plan, visualType plan = illustration)
                              (planVisuals' slides' metadata)
        else [].
Proof.
  intros Ha Hs Hg Hv.
  destruct (visual_run paperText config metadata slides' visualService' tr Ha Hs Hg Hv)
    as (result & stage & Hfan & Hrun & _).
  exists result, (criticalPathEvents ++ planningEvents ++ stage ++ summaryEvents result).
  split; [exact Hrun |].
  pose proof (fanOut_events metadata visualService' (planVisuals' slides' metadata)
                (emptyResult slides')) as Hev.
  rewrite Hfan in Hev. cbn [snd] in Hev.
  rewrite !omap_app, Hev, stage_nano_calls.
  - cbn. by rewrite app_nil_r.
  - apply Forall_forall. intros plan Hin.
    by apply (planned_illustration_prompt metadata slides').
Qed.

(** X20: in visual mode, the serialisation of chart data being total,
    the console holds exactly two errors for each illustration whose
    Nano Banana call failed, and no other error. *)
Theorem console_errors_count_failures
    (paperText : string) (config : OrchestrationConfig) (metadata : PaperMetadata)
    (slides' : list EnhancedSlide) (visualService' : VisualServiceConfig)
    (tr : list Event) :
  analyzePaperEnhanced paperText (textService config) = Normal metadata →
  generateEnhancedSlides metadata (textService config) = Normal slides' →
  generateVisuals config = true →
  visualService config = Some visualService' →
  ∃ result added,
    orchestratePresentation' paperText config tr = (Normal result, tr ++ added)
    ∧ List.length (List.filter isConsoleError added)
      = (2 * countFate nanoBananaEndpoint metadata visualService' Failed
               (planVisuals' slides' metadata))%nat.
Proof.
  intros Ha Hs Hg Hv.
  destruct (visual_run paperText config metadata slides' visualService' tr Ha Hs Hg Hv)
    as (result & stage & Hfan & Hrun & _).
  exists result, (criticalPathEvents ++ planningEvents ++ stage ++ summaryEvents result).
  split; [exact Hrun |].
  pose proof (fanOut_events metadata visualService' (planVisuals' slides' metadata)
                (emptyResult slides')) as Hev.
  rewrite Hfan in Hev. cbn [snd] in Hev.
  rewrite !List.filter_app, !length_app, Hev, stage_console_errors. cbn. lia.
Qed.

(** What the run holds under the index of a plan is what the plan's own
    unit stores there when it runs alone. *)
Lemma planned_entry metadata visualService slides' kind plan result stage :
  fanOut' metadata visualService (emptyResult slides') (planVisuals' slides' metadata) []
  = (Normal result, stage) →
  plan ∈ planVisuals' slides' metadata →
  mapOf kind result !! slideIndex plan
  = mapOf kind (unitResult' metadata visualService (emptyResult []) plan) !! slideIndex plan.
Proof.
  intros Hfan Hin. unfold planVisuals in Hin.
  apply planVisuals_from_elem in Hin as (i & slide & Hslide & -> & Hty).
  rewrite planSlide_classify in Hty. cbn [Nat.add] in *.
  rewrite planSlide_index.
  rewrite (stage_lookup metadata visualService slides' kind i result stage Hfan), Hslide.
  by rewrite (bool_decide_eq_true_2 _ Hty).
Qed.

(** A plan of the planner passes the guards of its unit: an illustration
    has a prompt, a chart has data. *)
Lemma planned_guards metadata slides' plan :
  plan ∈ planVisuals' slides' metadata →
  (visualType plan = illustration → truthy_opt (prompt plan) = true)
  ∧ (visualType plan = chart → is_Some (data plan)).
Proof.
  intros Hin. unfold planVisuals in Hin.
  apply planVisuals_from_elem in Hin as (i & slide & _ & -> & _).
  pose proof (planSlide_fields metadata (0 + i) slide) as Hf.
  rewrite planSlide_classify.
  split; intros Hty; rewrite Hty in Hf; [done |]. destruct Hf as [_ ->]. by eexists.
Qed.

(** C4: in the generation stage a unit never ends in a throw, whatever
    the generator it calls does; the stage is left only after every plan's
    unit has settled, and the pipeline then completes normally with the
    slides of the critical path, however many units failed. No unit is
    cancelled by the failure of another: under the index of each plan the
    three maps hold what that plan's own generator produced (the address
    the endpoint answered for its own request, the chart of its own data,
    the diagram of its own description), and the failure of a plan is on
    the console exactly when its own generation failed. *)
Theorem generation_failures_are_contained
    (paperText : string) (config : OrchestrationConfig) (metadata : PaperMetadata)
    (slides' : list EnhancedSlide) (visualService' : VisualServiceConfig)
    (tr : list Event) :
  analyzePaperEnhanced paperText (textService config) = Normal metadata →
  generateEnhancedSlides metadata (textService config) = Normal slides' →
  generateVisuals config = true →
  visualService config = Some visualService' →
  (∀ result plan tr0, ∃ result' tr1,
      visualUnit' metadata visualService' result plan tr0 = (Normal result', tr1))
  ∧ ∃ result stage,
      orchestratePresentation' paperText config tr
      = (Normal result,
         tr ++ criticalPathEvents ++ planningEvents ++ stage ++ summaryEvents result)
      ∧ slides result = slides'
      ∧ (∀ plan, plan ∈ planVisuals' slides' metadata → Settled (slideIndex plan) ∈ stage)
      ∧ (∀ msg, ConsoleLog msg ∉ stage)
      ∧ (∀ plan, plan ∈ planVisuals' slides' metadata →
           visuals result !! slideIndex plan
           = (if bool_decide (visualType plan = illustration)
                 && bool_decide (visual_provider visualService' = nano_banana)
              then match nanoBananaEndpoint (slideIndex plan)
                           (illustrationRequest metadata plan)
                           (visual_apiKey visualService') with
                   | Normal url => Some url
                   | Throw _ => None
                   end
              else None)
           ∧ charts result !! slideIndex plan
             = (if bool_decide (visualType plan = chart)
                then (λ d, "https://quickchart.io/chart?c=" +:+ encodeChartConfig d)
                       <$> data plan
                else None)
           ∧ diagrams result !! slideIndex plan
             = (if bool_decide (visualType plan = diagram)
                then match eval (generateDiagram (slideIndex plan)
                                   (or_str (prompt plan) (slideTitle plan))) [] with
                     | Normal code => Some code
                     | Throw _ => None
                     end
                else None))
      ∧ (∀ i, failureLogged i stage
              ↔ ∃ plan, plan ∈ planVisuals' slides' metadata ∧ slideIndex plan = i
                        ∧ visualType plan = illustration
                        ∧ visual_provider visualService' = nano_banana
                        ∧ ∃ e, nanoBananaEndpoint (slideIndex plan)
                                 (illustrationRequest metadata plan)
                                 (visual_apiKey visualService') = Throw e).
Proof.
  intros Ha Hs Hg Hv. split.
  - intros result plan tr0.
    destruct (visualUnit_run encodeChartConfig nanoBananaEndpoint metadata visualService'
                result plan) as (result' & evs & Hrun & _).
    rewrite (appends_visualUnit encodeChartConfig nanoBananaEndpoint metadata visualService'
               result plan tr0), Hrun. cbn. eauto.
  - destruct (fanOut_run encodeChartConfig analyzePaperEnhanced generateEnhancedSlides
                nanoBananaEndpoint metadata visualService' (planVisuals' slides' metadata)
                (emptyResult slides'))
      as (result & stage & Hfan & Hsl & Hstage & Hsettled & _ & Hfail).
    exists result, stage.
    split; [| split; [exact Hsl | split; [exact Hsettled | split; [| split]]]].
    + rewrite (appends_orchestratePresentation extractChartData encodeChartConfig
                 analyzePaperEnhanced generateEnhancedSlides nanoBananaEndpoint
                 paperText config tr).
      by rewrite (orchestratePresentation_visuals extractChartData encodeChartConfig
                    analyzePaperEnhanced generateEnhancedSlides nanoBananaEndpoint
                    paperText config metadata slides'
                    visualService' Ha Hs Hg Hv result stage Hfan).
    + intros msg Hin. apply Hstage in Hin.
      destruct Hin as [(fn & H & _) | [(m & e & H) | (i & H)]]; discriminate.
    + intros plan Hin.
      destruct (planned_guards metadata slides' plan Hin) as [Hprompt Hdata].
      change (visuals result) with (mapOf illustration result).
      change (charts result) with (mapOf chart result).
      change (diagrams result) with (mapOf diagram result).
      rewrite !(planned_entry metadata visualService' slides' _ plan result stage Hfan Hin).
      rewrite unitResult_spec.
      destruct (visualType plan) eqn:Hty; decide_kinds; cbn [andb];
        rewrite ?(Hprompt eq_refl).
      * destruct (bool_decide (visual_provider visualService' = nano_banana)); [| done].
        destruct (nanoBananaEndpoint _ _ _); cbn [mapOf emptyResult set_visuals visuals
          charts diagrams]; by rewrite ?lookup_insert_eq, ?lookup_empty.
      * destruct (eval (generateDiagram _ _) []);
          cbn [mapOf emptyResult set_diagrams visuals charts diagrams];
          by rewrite ?lookup_insert_eq, ?lookup_empty.
      * destruct (Hdata eq_refl) as [d Hd]. rewrite Hd.
        rewrite bool_decide_eq_true_2 by eauto.
        cbn [mapOf emptyResult set_charts visuals charts diagrams fmap option_fmap option_map].
        by rewrite ?lookup_insert_eq, ?lookup_empty.
      * done.
      * done.
    + intros i. rewrite Hfail. split.
      * intros (plan & Hin & Hi & Hfate). exists plan. split; [exact Hin |].
        split; [exact Hi |]. unfold fate in Hfate.
        destruct (bool_decide (visualType plan = illustration)) eqn:Hty;
          cbn [andb] in Hfate.
        -- apply bool_decide_eq_true_1 in Hty.
           destruct (truthy_opt (prompt plan)).
           ++ destruct (bool_decide (visual_provider visualService' = nano_banana)) eqn:Hnano;
                [| discriminate].
              apply bool_decide_eq_true_1 in Hnano.
              destruct (nanoBananaEndpoint _ _ _) as [url | e]; [discriminate |]. eauto.
           ++ repeat case_match; discriminate.
        -- repeat case_match; discriminate.
      * intros (plan & Hin & Hi & Hty & Hnano & e & He). exists plan.
        split; [exact Hin |]. split; [exact Hi |].
        destruct (planned_guards metadata slides' plan Hin) as [Hprompt _].
        unfold fate.
        rewrite (bool_decide_eq_true_2 _ Hty), (Hprompt Hty), (bool_decide_eq_true_2 _ Hnano).
        cbn [andb]. by rewrite He.
Qed.

End PipelineMore.

(** The sample run with the Nano Banana endpoint down: the illustration
    of the figure slide fails and is logged, the run completes, and the
    chart of the results slide is there all the same. *)
Lemma generation_failures_are_contained_witness :
  analysis_ok "paper" (textService config_with_visuals) = Normal sample_metadata
  ∧ slides_ok sample_metadata (textService config_with_visuals) = Normal sample_slides
  ∧ generateVisuals config_with_visuals = true
  ∧ visualService config_with_visuals = Some nano_service
  ∧ ∃ result stage,
      orchestratePresentation sample_extract sample_encode analysis_ok slides_ok
        endpoint_down "paper" config_with_visuals []
      = (Normal result,
         [] ++ criticalPathEvents ++ planningEvents ++ stage ++ summaryEvents result)
      ∧ slides result = sample_slides
      ∧ (∀ plan, plan ∈ planVisuals sample_extract sample_slides sample_metadata →
                 Settled (slideIndex plan) ∈ stage)
      ∧ (∀ msg, ConsoleLog msg ∉ stage)
      ∧ visuals result !! 4%nat = None
      ∧ charts result !! 2%nat = Some "https://quickchart.io/chart?c=Accuracy: 93%"
      ∧ is_Some (diagrams result !! 1%nat)
      ∧ failureLogged 4 stage.
Proof.
  do 4 (split; [reflexivity |]).
  destruct (generation_failures_are_contained sample_extract sample_encode analysis_ok
              slides_ok endpoint_down "paper" config_with_visuals sample_metadata
              sample_slides nano_service [] eq_refl eq_refl eq_refl eq_refl)
    as (_ & result & stage & Hrun & Hsl & Hsettled & Hquiet & Hown & Hfail).
  exists result, stage.
  split; [exact Hrun |]. split; [exact Hsl |]. split; [exact Hsettled |].
  split; [exact Hquiet |].
  set (plans := planVisuals sample_extract sample_slides sample_metadata) in *.
  assert (Hin : ∀ k plan, plans !! k = Some plan → plan ∈ plans)
    by (intros k plan; apply list_elem_of_lookup_2).
  split; [| split; [| split]].
  - exact (proj1 (Hown _ (Hin 3%nat _ eq_refl))).
  - exact (proj1 (proj2 (Hown _ (Hin 1%nat _ eq_refl)))).
  - eexists. exact (proj2 (proj2 (Hown _ (Hin 0%nat _ eq_refl)))).
  - apply (proj2 (Hfail 4%nat)). eexists. split; [exact (Hin 3%nat _ eq_refl) |].
    split; [reflexivity |]. split; [reflexivity |]. split; [reflexivity |].
    eexists. reflexivity.
Defined.

(** The chart plan of the sample deck. *)
Lemma planVisuals_payload_witness :
  let slide := sample_slide 3 "Results" ["Accuracy: 93%"] layout_content in
  let plan := planSlide sample_extract sample_metadata 2 slide in
  plan ∈ planVisuals sample_extract sample_slides sample_metadata
  ∧ prompt plan = None
  ∧ ∃ slide', sample_slides !! slideIndex plan = Some slide'
              ∧ data plan = Some (sample_extract (slide_content slide')).
Proof.
  intros slide plan.
  assert (Hin : plan ∈ planVisuals sample_extract sample_slides sample_metadata)
    by (apply (list_elem_of_lookup_2 _ 1%nat); reflexivity).
  split; [exact Hin |].
  exact (planVisuals_payload sample_extract sample_slides sample_metadata plan Hin).
Defined.

(** The sample run with the endpoint down: the chart and the diagram are
    there all the same. *)
Lemma charts_and_diagrams_follow_the_slides_witness :
  analysis_ok "paper" (textService config_with_visuals) = Normal sample_metadata
  ∧ slides_ok sample_metadata (textService config_with_visuals) = Normal sample_slides
  ∧ generateVisuals config_with_visuals = true
  ∧ visualService config_with_visuals = Some nano_service
  ∧ ∃ result added,
      orchestratePresentation sample_extract sample_encode analysis_ok slides_ok
        endpoint_down "paper" config_with_visuals [] = (Normal result, [] ++ added)
      ∧ charts result !! 2%nat = Some "https://quickchart.io/chart?c=Accuracy: 93%"
      ∧ charts result !! 1%nat = None
      ∧ is_Some (diagrams result !! 1%nat)
      ∧ diagrams result !! 2%nat = None.
Proof.
  do 4 (split; [reflexivity |]).
  destruct (charts_and_diagrams_follow_the_slides sample_extract sample_encode analysis_ok
              slides_ok endpoint_down "paper" config_with_visuals sample_metadata
              sample_slides nano_service [] eq_refl eq_refl eq_refl eq_refl)
    as (result & added & Hrun & Hc & Hd).
  exists result, added. split; [exact Hrun |].
  rewrite !Hc, !Hd. repeat split; try reflexivity. eexists. reflexivity.
Defined.

(** The sample run with the endpoint up: the figure slide gets its
    illustration. *)
Lemma visuals_follow_the_endpoint_witness :
  analysis_ok "paper" (textService config_with_visuals) = Normal sample_metadata
  ∧ slides_ok sample_metadata (textService config_with_visuals) = Normal sample_slides
  ∧ generateVisuals config_with_visuals = true
  ∧ visualService config_with_visuals = Some nano_service
  ∧ ∃ result added,
      orchestratePresentation sample_extract sample_encode analysis_ok slides_ok
        endpoint_ok "paper" config_with_visuals [] = (Normal result, [] ++ added)
      ∧ visuals result !! 4%nat = Some ("https://cdn.nano-banana.com/" +:+ pretty 4%nat +:+ ".png")
      ∧ visuals result !! 2%nat = None.
Proof.
  do 4 (split; [reflexivity |]).
  destruct (visuals_follow_the_endpoint sample_extract sample_encode analysis_ok
              slides_ok endpoint_ok "paper" config_with_visuals sample_metadata
              sample_slides nano_service [] eq_refl eq_refl eq_refl eq_refl)
    as (result & added & Hrun & Hv & _).
  exists result, added. split; [exact Hrun |].
  rewrite !Hv. split; reflexivity.
Defined.

Lemma artifact_keys_are_slide_positions_witness :
  analysis_ok "paper" (textService config_with_visuals) = Normal sample_metadata
  ∧ slides_ok sample_metadata (textService config_with_visuals) = Normal sample_slides
  ∧ generateVisuals config_with_visuals = true
  ∧ visualService config_with_visuals = Some nano_service
  ∧ ∃ result added,
      orchestratePresentation sample_extract sample_encode analysis_ok slides_ok
        endpoint_ok "paper" config_with_visuals [] = (Normal result, [] ++ added)
      ∧ ∀ i, i ∈ artifactKeys result → (i < List.length (slides result))%nat.
Proof.
  do 4 (split; [reflexivity |]).
  apply (artifact_keys_are_slide_positions sample_extract sample_encode analysis_ok
           slides_ok endpoint_ok "paper" config_with_visuals sample_metadata
           sample_slides nano_service []); reflexivity.
Defined.

(** The sample run with the slide generation down. *)
Lemma slide_generation_failure_is_fatal_witness :
  analysis_ok "paper" (textService config_with_visuals) = Normal sample_metadata
  ∧ slides_down sample_metadata (textService config_with_visuals)
    = Throw "slide generation failed"
  ∧ orchestratePresentation sample_extract sample_encode analysis_ok slides_down
      endpoint_ok "paper" config_with_visuals []
    = (Throw "slide generation failed", [] ++ criticalPathEvents).
Proof.
  do 2 (split; [reflexivity |]).
  apply (slide_generation_failure_is_fatal sample_extract sample_encode analysis_ok
           slides_down endpoint_ok "paper" config_with_visuals sample_metadata
           "slide generation failed" []); reflexivity.
Defined.

(** The units of the sample deck, run last plan first. *)
Lemma completion_order_is_irrelevant_witness :
  let plans := planVisuals sample_extract sample_slides sample_metadata in
  reverse plans ≡ₚ plans
  ∧ eval (fanOut sample_encode endpoint_ok sample_metadata nano_service
            (emptyResult sample_slides) (reverse plans)) []
    = eval (fanOut sample_encode endpoint_ok sample_metadata nano_service
              (emptyResult sample_slides) plans) [].
Proof.
  intros plans.
  assert (Hperm : reverse plans ≡ₚ plans) by (rewrite reverse_Permutation; reflexivity).
  split; [exact Hperm |].
  exact (completion_order_is_irrelevant sample_extract sample_encode endpoint_ok
           sample_metadata nano_service sample_slides (reverse plans)
           (emptyResult sample_slides) Hperm).
Defined.

(** The sample run: one illustration plan, at index 4, and one call. *)
Lemma nano_banana_is_called_once_per_illustration_witness :
  analysis_ok "paper" (textService config_with_visuals) = Normal sample_metadata
  ∧ slides_ok sample_metadata (textService config_with_visuals) = Normal sample_slides
  ∧ generateVisuals config_with_visuals = true
  ∧ visualService config_with_visuals = Some nano_service
  ∧ ∃ result added,
      orchestratePresentation sample_extract sample_encode analysis_ok slides_ok
        endpoint_down "paper" config_with_visuals [] = (Normal result, [] ++ added)
      ∧ omap nanoCallIndex added = [4%nat].
Proof.
  do 4 (split; [reflexivity |]).
  destruct (nano_banana_is_called_once_per_illustration sample_extract sample_encode
              analysis_ok slides_ok endpoint_down "paper" config_with_visuals
              sample_metadata sample_slides nano_service []
              eq_refl eq_refl eq_refl eq_refl)
    as (result & added & Hrun & Hcalls).
  exists result, added. split; [exact Hrun |].
  rewrite Hcalls. reflexivity.
Defined.

(** The sample run with the endpoint down: one failure, two errors. *)
Lemma console_errors_count_failures_witness :
  analysis_ok "paper" (textService config_with_visuals) = Normal sample_metadata
  ∧ slides_ok sample_metadata (textService config_with_visuals) = Normal sample_slides
  ∧ generateVisuals config_with_visuals = true
  ∧ visualService config_with_visuals = Some nano_service
  ∧ ∃ result added,
      orchestratePresentation sample_extract sample_encode analysis_ok slides_ok
        endpoint_down "paper" config_with_visuals [] = (Normal result, [] ++ added)
      ∧ List.length (List.filter isConsoleError added) = 2%nat.
Proof.
  do 4 (split; [reflexivity |]).
  destruct (console_errors_count_failures sample_extract sample_encode
              analysis_ok slides_ok endpoint_down "paper" config_with_visuals
              sample_metadata sample_slides nano_service []
              eq_refl eq_refl eq_refl eq_refl)
    as (result & added & Hrun & Hcount).
  exists result, added. split; [exact Hrun |].
  rewrite Hcount. reflexivity.
Defined.

(* ===================================================================== *)
(** * Properties of the content validation *)
(* ===================================================================== *)

Lemma includes_unfold hay needle :
  includes hay needle
  = startsWith needle hay
    || match hay with
       | EmptyString => false
       | String _ h' => includes h' needle
       end.
Proof. by destruct hay. Qed.

Lemma startsWith_append needle : ∀ hay post,
  startsWith needle hay = true → startsWith needle (hay +:+ post) = true.
Proof.
  induction needle as [|a n IH]; intros [|b h] post; simpl; try done.
  intros H. apply andb_true_iff in H as [-> H]. simpl. by apply IH.
Qed.

Lemma includes_append hay needle post :
  includes hay needle = true → includes (hay +:+ post) needle = true.
Proof.
  induction hay as [|c h IH]; rewrite includes_unfold; intros H.
  - rewrite orb_false_r in H. rewrite (includes_unfold (_ +:+ _)).
    by rewrite (startsWith_append _ _ _ H).
  - change (String c h +:+ post) with (String c (h +:+ post)).
    rewrite (includes_unfold (String _ _)).
    apply orb_true_iff in H as [H | H].
    + change (String c (h +:+ post)) with (String c h +:+ post).
      by rewrite (startsWith_append _ _ _ H).
    + rewrite (IH H). apply orb_true_r.
Qed.

Lemma includes_prepend pre hay needle :
  includes hay needle = true → includes (pre +:+ hay) needle = true.
Proof.
  intros H. induction pre as [|c p IH]; [done |].
  change (String c p +:+ hay) with (String c (p +:+ hay)).
  rewrite includes_unfold, IH. apply orb_true_r.
Qed.

(** A word found in a text is found in every text around it. *)
Lemma includes_within pre hay post needle :
  includes hay needle = true → includes (pre +:+ hay +:+ post) needle = true.
Proof. intros H. by apply includes_prepend, includes_append. Qed.

Lemma lacks_both_within pre content post a b :
  negb (includes (pre +:+ content +:+ post) a)
  && negb (includes (pre +:+ content +:+ post) b) = true →
  negb (includes content a) && negb (includes content b) = true.
Proof.
  intros H. apply andb_true_iff in H as [Ha Hb].
  apply negb_true_iff in Ha, Hb. apply andb_true_iff.
  split; apply negb_true_iff.
  - destruct (includes content a) eqn:E; [| done].
    by rewrite (includes_within pre content post a E) in Ha.
  - destruct (includes content b) eqn:E; [| done].
    by rewrite (includes_within pre content post b E) in Hb.
Qed.

Lemma push_if_sublist (c' c : bool) (issue : string) (l' l : list string) :
  (c' = true → c = true) → l' `sublist_of` l →
  push_if c' issue l' `sublist_of` push_if c issue l.
Proof.
  intros Hc Hl. unfold push_if. destruct c'.
  - rewrite (Hc eq_refl). by apply sublist_app.
  - destruct c; [| done]. by apply sublist_inserts_r.
Qed.

Lemma valid_issues domain content :
  valid (validateDomainContent domain content)
  = bool_decide (List.length (issues (validateDomainContent domain content)) = 0%nat).
Proof. reflexivity. Qed.

(** X21: text added before or after a content raises no new issue: the
    issues of the longer text are among those of the shorter one, in the
    same order, and a content that is valid stays valid. *)
Theorem more_text_raises_no_new_issue (domain pre content post : string) :
  issues (validateDomainContent domain (pre +:+ content +:+ post))
    `sublist_of` issues (validateDomainContent domain content)
  ∧ implb (valid (validateDomainContent domain content))
          (valid (validateDomainContent domain (pre +:+ content +:+ post))) = true.
Proof.
  assert (Hs : issues (validateDomainContent domain (pre +:+ content +:+ post))
                 `sublist_of` issues (validateDomainContent domain content)).
  { unfold validateDomainContent. cbn [issues].
    repeat case_bool_decide;
      repeat (apply push_if_sublist; [apply lacks_both_within |]); done. }
  split; [exact Hs |].
  rewrite !valid_issues. apply sublist_length in Hs.
  repeat case_bool_decide; try done. lia.
Qed.

(* ===================================================================== *)
(** * Properties of the stored service list *)
(* ===================================================================== *)

Lemma List_filter_sublist {A} (p : A → bool) (l : list A) :
  List.filter p l `sublist_of` l.
Proof.
  induction l as [|x l IH]; cbn [List.filter]; [done |].
  destruct (p x); by constructor.
Qed.

Lemma List_filter_nil {A} (p : A → bool) (l : list A) :
  (∀ x, x ∈ l → p x = false) → List.filter p l = [].
Proof.
  induction l as [|x l IH]; intros H; cbn [List.filter]; [done |].
  rewrite (H x) by apply list_elem_of_here.
  apply IH. intros y Hy. apply H. by apply list_elem_of_further.
Qed.

Lemma List_filter_elem {A} (p : A → bool) (l : list A) x :
  x ∈ List.filter p l ↔ x ∈ l ∧ p x = true.
Proof. rewrite !list_elem_of_In. apply filter_In. Qed.

Lemma List_find_app {A} (p : A → bool) (l1 l2 : list A) :
  List.find p (l1 ++ l2)
  = match List.find p l1 with
    | Some x => Some x
    | None => List.find p l2
    end.
Proof.
  induction l1 as [|x l1 IH]; [done |].
  cbn [app List.find]. by destruct (p x).
Qed.

Lemma List_find_elem {A} (p : A → bool) (l : list A) x :
  x ∈ l → p x = true → is_Some (List.find p l).
Proof.
  induction l as [|y l IH]; intros Hin Hp; [by apply elem_of_nil in Hin |].
  cbn [List.find]. destruct (p y) eqn:E; [by eexists |].
  apply elem_of_cons in Hin as [-> | Hin]; [congruence | by apply IH].
Qed.

Section ServicesConfigFacts.

Variable DEFAULT_SERVICES : list AIService.
Variable JSON_parse : string → Completion (list AIService).

(** The defaults that the stored list does not name. *)
Local Abbreviation missingDefaults parsed :=
  (List.filter (λ s, negb (bool_decide (service_id s ∈ service_id <$> parsed)))
     DEFAULT_SERVICES).

Lemma getServices_stored (text : string) (parsed : list AIService) :
  text ≠ "" → JSON_parse text = Normal parsed →
  getServices DEFAULT_SERVICES JSON_parse true (Normal (Some text))
  = (parsed ++ missingDefaults parsed, []).
Proof.
  intros Htext Hparse. unfold getServices. cbn [negb truthy_opt default].
  unfold truthy_str. rewrite (bool_decide_eq_false_2 _ Htext). cbn [negb].
  unfold id. by rewrite Hparse.
Qed.

Lemma missingDefaults_elem (parsed : list AIService) (s : AIService) :
  s ∈ missingDefaults parsed
  ↔ s ∈ DEFAULT_SERVICES ∧ service_id s ∉ service_id <$> parsed.
Proof.
  rewrite List_filter_elem, negb_true_iff, bool_decide_eq_false. done.
Qed.

(** X22: whatever the store holds, every default service is in the
    loaded list, under its id: either the default itself or the stored
    service of that id. *)
Theorem getServices_covers_defaults (window : bool) (getItem : Completion (option string))
    (d : AIService) :
  d ∈ DEFAULT_SERVICES →
  ∃ s, s ∈ (getServices DEFAULT_SERVICES JSON_parse window getItem).1
       ∧ service_id s = service_id d.
Proof.
  intros Hd. unfold getServices.
  destruct window; cbn [negb]; [| by exists d].
  destruct getItem as [stored | e]; [| by exists d].
  destruct (truthy_opt stored); [| by exists d].
  destruct (JSON_parse _) as [parsed | e]; cbn [fst]; [| by exists d].
  destruct (decide (service_id d ∈ service_id <$> parsed)) as [Hin | Hout].
  - apply list_elem_of_fmap_1 in Hin as (s & Heq & Hin).
    exists s. split; [| done]. apply elem_of_app. by left.
  - exists d. split; [| done]. apply elem_of_app. right.
    by apply missingDefaults_elem.
Qed.

(** X23: a stored list that parses is loaded unchanged and first, without
    a console error; after it come exactly the defaults whose id it does
    not name, so a stored service shadows the default of its id, and ids
    that are distinct in the store and in the defaults are distinct in
    the loaded list. *)
Theorem getServices_merges_stored_first (text : string) (parsed : list AIService) :
  text ≠ "" → JSON_parse text = Normal parsed →
  let loaded := getServices DEFAULT_SERVICES JSON_parse true (Normal (Some text)) in
  loaded.2 = []
  ∧ parsed `prefix_of` loaded.1
  ∧ (∀ s, s ∈ loaded.1
          ↔ s ∈ parsed ∨ (s ∈ DEFAULT_SERVICES ∧ service_id s ∉ service_id <$> parsed))
  ∧ (∀ i, i ∈ service_id <$> parsed →
          List.find (λ s, bool_decide (service_id s = i)) loaded.1
          = List.find (λ s, bool_decide (service_id s = i)) parsed)
  ∧ (NoDup (service_id <$> parsed) → NoDup (service_id <$> DEFAULT_SERVICES) →
     NoDup (service_id <$> loaded.1)).
Proof.
  intros Htext Hparse loaded. subst loaded.
  rewrite (getServices_stored text parsed Htext Hparse). cbn [fst snd].
  split; [done |]. split; [by apply prefix_app_r |]. split; [| split].
  - intros s. by rewrite elem_of_app, missingDefaults_elem.
  - intros i Hi. rewrite List_find_app.
    apply list_elem_of_fmap_1 in Hi as (s & -> & Hs).
    destruct (List_find_elem (λ s0, bool_decide (service_id s0 = service_id s)) parsed s Hs)
      as [x Hx]; [by apply bool_decide_eq_true_2 |].
    by rewrite Hx.
  - intros Hp Hd. rewrite fmap_app. apply NoDup_app. split; [done |]. split.
    + intros i Hi Hm. apply list_elem_of_fmap_1 in Hm as (s & -> & Hs).
      apply missingDefaults_elem in Hs as [_ Hs]. done.
    + eapply sublist_NoDup; [exact Hd |]. apply fmap_sublist, List_filter_sublist.
Qed.

(** X24: the loaded list is the table of defaults unless the page runs in
    a browser and the store holds a text that parses; the console gets an
    error exactly when, in a browser, reading the store throws or the
    store holds a text that does not parse. *)
Theorem getServices_falls_back (window : bool) (getItem : Completion (option string)) :
  let loaded := getServices DEFAULT_SERVICES JSON_parse window getItem in
  (loaded.1 = DEFAULT_SERVICES
   ∨ ∃ text parsed, window = true ∧ getItem = Normal (Some text) ∧ text ≠ ""
                    ∧ JSON_parse text = Normal parsed)
  ∧ (loaded.2 ≠ []
     ↔ window = true
       ∧ ((∃ e, getItem = Throw e)
          ∨ ∃ text e, getItem = Normal (Some text) ∧ text ≠ ""
                      ∧ JSON_parse text = Throw e)).
Proof.
  cbv zeta. unfold getServices.
  destruct window; cbn [negb].
  2: { split; [by left |]. split; [done |]. by intros [? _]. }
  destruct getItem as [stored | e0]; cbn [fst snd].
  2: { split; [by left |]. split; [| done]. intros _. split; [done |]. left. by exists e0. }
  destruct stored as [text |]; cbn [truthy_opt default]; unfold id.
  2: { split; [by left |]. split; [done |].
       intros [_ [(? & ?) | (? & ? & ? & _)]]; done. }
  unfold truthy_str. case_bool_decide as Htext; cbn [negb].
  { split; [by left |]. split; [done |].
    intros [_ [(? & ?) | (t & ? & [= <-] & Hne & _)]]; done. }
  destruct (JSON_parse text) as [parsed | e] eqn:Hparse; cbn [fst snd].
  - split; [right; by exists text, parsed |]. split; [done |].
    intros [_ [(? & ?) | (t & e & [= <-] & _ & He)]]; [done | congruence].
  - split; [by left |]. split; [| done]. intros _. split; [done |].
    right. by exists text, e.
Qed.

(** X25: loading is stable: once the store holds the loaded list,
    loading again returns the same list, with no default added a second
    time. *)
Theorem getServices_merge_is_stable (text text' : string) (parsed : list AIService) :
  text ≠ "" → JSON_parse text = Normal parsed →
  text' ≠ "" →
  JSON_parse text'
  = Normal (getServices DEFAULT_SERVICES JSON_parse true (Normal (Some text))).1 →
  getServices DEFAULT_SERVICES JSON_parse true (Normal (Some text'))
  = getServices DEFAULT_SERVICES JSON_parse true (Normal (Some text)).
Proof.
  intros Htext Hparse Htext' Hparse'.
  rewrite (getServices_stored text parsed Htext Hparse) in *. cbn [fst] in Hparse'.
  rewrite (getServices_stored text' _ Htext' Hparse').
  rewrite (List_filter_nil
             (λ s, negb (bool_decide
                           (service_id s ∈ service_id <$> parsed ++ missingDefaults parsed)))
             DEFAULT_SERVICES); [by rewrite app_nil_r |].
  intros d Hd. apply negb_false_iff, bool_decide_eq_true_2.
  rewrite fmap_app, elem_of_app.
  destruct (decide (service_id d ∈ service_id <$> parsed)) as [Hin | Hout]; [by left |].
  right. apply list_elem_of_fmap_2. by apply missingDefaults_elem.
Qed.

End ServicesConfigFacts.

Lemma getServices_covers_defaults_witness :
  local_service "plotly-chart" chart_generation "Plotly.js"
    "Interactive data visualizations"
    ["line-charts"; "bar-charts"; "scatter-plots"; "3d-visualizations"] ∈ local_defaults
  ∧ ∃ s, s ∈ (getServices local_defaults parse_sample true
                (Normal (Some "[mermaid off]"))).1
         ∧ service_id s = "plotly-chart".
Proof.
  assert (Hd : local_service "plotly-chart" chart_generation "Plotly.js"
                 "Interactive data visualizations"
                 ["line-charts"; "bar-charts"; "scatter-plots"; "3d-visualizations"]
               ∈ local_defaults)
    by (apply (list_elem_of_lookup_2 _ 1%nat); reflexivity).
  split; [exact Hd |].
  exact (getServices_covers_defaults local_defaults parse_sample true
           (Normal (Some "[mermaid off]")) _ Hd).
Defined.

(** The store holds the diagram service switched off: it is loaded
    switched off, before the two other defaults. *)
Lemma getServices_merges_stored_first_witness :
  "[mermaid off]" ≠ ""
  ∧ parse_sample "[mermaid off]" = Normal stored_mermaid_off
  ∧ (getServices local_defaults parse_sample true (Normal (Some "[mermaid off]"))).2 = []
  ∧ stored_mermaid_off
      `prefix_of` (getServices local_defaults parse_sample true
                     (Normal (Some "[mermaid off]"))).1.
Proof.
  assert (Hne : "[mermaid off]" ≠ "") by discriminate.
  split; [exact Hne |]. split; [reflexivity |].
  destruct (getServices_merges_stored_first local_defaults parse_sample
              "[mermaid off]" stored_mermaid_off Hne eq_refl) as (Hlog & Hpre & _).
  split; [exact Hlog | exact Hpre].
Defined.

Lemma getServices_merge_is_stable_witness :
  "[mermaid off]" ≠ ""
  ∧ parse_sample "[mermaid off]" = Normal stored_mermaid_off
  ∧ "[merged]" ≠ ""
  ∧ parse_sample "[merged]"
    = Normal (getServices local_defaults parse_sample true
                (Normal (Some "[mermaid off]"))).1
  ∧ getServices local_defaults parse_sample true (Normal (Some "[merged]"))
    = getServices local_defaults parse_sample true (Normal (Some "[mermaid off]")).
Proof.
  assert (Hne : "[mermaid off]" ≠ "") by discriminate.
  assert (Hne' : "[merged]" ≠ "") by discriminate.
  assert (Hp : parse_sample "[merged]"
               = Normal (getServices local_defaults parse_sample true
                           (Normal (Some "[mermaid off]"))).1) by reflexivity.
  split; [exact Hne |]. split; [reflexivity |]. split; [exact Hne' |].
  split; [exact Hp |].
  exact (getServices_merge_is_stable local_defaults parse_sample "[mermaid off]"
           "[merged]" stored_mermaid_off Hne eq_refl Hne' Hp).
Defined.

(* ===================================================================== *)
(** * Properties of the lookups over a service list *)
(* ===================================================================== *)

Lemma existsb_find {A} (p : A → bool) (l : list A) :
  existsb p l = bool_decide (is_Some (List.find p l)).
Proof.
  induction l as [|x l IH]; cbn [existsb List.find].
  - symmetry. apply bool_decide_eq_false_2. by intros [? ?].
  - destruct (p x); cbn [orb]; [| done].
    symmetry. by apply bool_decide_eq_true_2.
Qed.

Lemma find_both_filter {A} (p q : A → bool) (l : list A) :
  List.find (λ x, p x && q x) l = head (List.filter p (List.filter q l)).
Proof.
  induction l as [|x l IH]; [done |].
  cbn [List.find List.filter].
  destruct (q x); cbn [List.filter]; destruct (p x); cbn [andb head]; done.
Qed.

Lemma find_never {A} (q : A → bool) (l : list A) :
  List.find (λ x, false && q x) l = None.
Proof. by induction l. Qed.

(** X26: [shouldUseVisualService] says whether the task [image], in any
    casing, resolves to a service. *)
Theorem shouldUseVisualService_agrees (t : string) (svcs : list AIService) :
  toLowerCase t = "image" →
  shouldUseVisualService svcs = bool_decide (is_Some (domain_getServiceForTask t svcs)).
Proof.
  intros Ht. unfold domain_getServiceForTask. rewrite Ht.
  change (taskMap "image") with (Some (OwnEntry image_generation)).
  unfold shouldUseVisualService, some, getActiveService. apply existsb_find.
Qed.

Lemma shouldUseVisualService_agrees_witness :
  toLowerCase "Image" = "image"
  ∧ shouldUseVisualService SERVICE_REGISTRY
    = bool_decide (is_Some (domain_getServiceForTask "Image" SERVICE_REGISTRY)).
Proof.
  split; [reflexivity |].
  apply (shouldUseVisualService_agrees "Image" SERVICE_REGISTRY). reflexivity.
Defined.

(** X27: the service a task resolves to is the first of the active
    services that has the type the task maps to; a task that maps to no
    type, or to an inherited property of the table, resolves to
    nothing. *)
Theorem task_resolves_to_first_active (t : string) (svcs : list AIService) :
  domain_getServiceForTask t svcs
  = match taskMap (toLowerCase t) with
    | Some (OwnEntry type) =>
        head (List.filter (λ s, bool_decide (service_type s = type))
                (getAllActiveServices svcs))
    | _ => None
    end.
Proof.
  unfold domain_getServiceForTask, getActiveService, getAllActiveServices.
  destruct (taskMap (toLowerCase t)) as [[type |] |]; [| apply find_never | done].
  apply (find_both_filter (λ s, bool_decide (service_type s = type)) enabled).
Qed.

(* ===================================================================== *)
(** * The settings component and the manager *)
(* ===================================================================== *)

Lemma Map_set_absent {V} (m : list (string * V)) k v :
  k ∉ m.*1 → Map_set k v m = m ++ [(k, v)].
Proof.
  induction m as [|[k0 v0] m IH]; intros Hk; [done |].
  cbn [Map_set]. rewrite fmap_cons in Hk. apply not_elem_of_cons in Hk as [Hne Hk].
  cbn [fst] in Hne. rewrite bool_decide_eq_false_2 by congruence.
  cbn [app]. f_equal. by apply IH.
Qed.

Lemma constructor_keeps_order (registry : list AIService) :
  NoDup (service_id <$> registry) →
  services (new_ServiceManager_from registry) = (λ s, (service_id s, s)) <$> registry.
Proof.
  unfold new_ServiceManager_from. cbn [services].
  assert (H : ∀ m : list (string * AIService),
    NoDup (m.*1 ++ (service_id <$> registry)) →
    fold_left (λ m service, Map_set (service_id service) service m) registry m
    = m ++ ((λ s, (service_id s, s)) <$> registry)).
  { induction registry as [|s registry IH]; intros m Hnd.
    - by rewrite app_nil_r.
    - cbn [fold_left]. rewrite fmap_cons in Hnd.
      rewrite Map_set_absent.
      + rewrite IH.
        * by rewrite <- app_assoc.
        * rewrite fmap_app, <- app_assoc. exact Hnd.
      + apply NoDup_app in Hnd as (_ & Hdisj & _).
        intros Hin. apply (Hdisj _ Hin). apply list_elem_of_here. }
  intros Hnd. by rewrite (H [] Hnd).
Qed.

Lemma Map_get_services (svcs : list AIService) k :
  Map_get k ((λ s, (service_id s, s)) <$> svcs)
  = List.find (λ s, bool_decide (service_id s = k)) svcs.
Proof.
  unfold Map_get. induction svcs as [|s svcs IH]; [done |].
  rewrite fmap_cons. cbn [List.find fst].
  destruct (bool_decide (service_id s = k)); [done | exact IH].
Qed.

Lemma updateService_absent (svcs : list AIService) k config :
  k ∉ service_id <$> svcs → updateService svcs k config = svcs.
Proof.
  unfold updateService. induction svcs as [|s svcs IH]; intros Hk; [done |].
  rewrite fmap_cons in Hk. apply not_elem_of_cons in Hk as [Hne Hk].
  rewrite fmap_cons, bool_decide_eq_false_2 by congruence.
  f_equal. by apply IH.
Qed.

Lemma Map_set_services (svcs : list AIService) k service config :
  NoDup (service_id <$> svcs) →
  List.find (λ s, bool_decide (service_id s = k)) svcs = Some service →
  Map_set k (with_config service config) ((λ s, (service_id s, s)) <$> svcs)
  = (λ s, (service_id s, s)) <$> updateService svcs k config.
Proof.
  induction svcs as [|s svcs IH]; intros Hnd Hfind; [done |].
  rewrite fmap_cons in Hnd. apply NoDup_cons in Hnd as [Hs Hnd].
  cbn [List.find] in Hfind. unfold updateService. rewrite !fmap_cons. cbn [Map_set].
  fold (updateService svcs k config).
  destruct (bool_decide (service_id s = k)) eqn:E.
  - injection Hfind as ->. apply bool_decide_eq_true_1 in E. subst k.
    rewrite updateService_absent by done. reflexivity.
  - f_equal. by apply IH.
Qed.

(** X28: on a list of services with distinct ids the settings component
    and the manager configure alike: the list the component hands to
    [onUpdate] is the list of the values of a manager that was built from
    the same services and configured by the same call, and for an id that
    names no service neither changes anything. *)
Theorem updateServiceConfig_agrees_with_configureService
    (svcs : list AIService) (serviceId : string) (config : gmap string JSValue) :
  NoDup (service_id <$> svcs) →
  Map_values (services (exec (configureService serviceId config)
                          (new_ServiceManager_from svcs)))
  = default svcs (updateServiceConfig svcs serviceId config).
Proof.
  intros Hnd.
  assert (Hvalues : ∀ l : list AIService, Map_values ((λ s, (service_id s, s)) <$> l) = l).
  { intros l. unfold Map_values. rewrite <- list_fmap_compose. apply list_fmap_id. }
  pose proof (Map_get_services svcs serviceId) as Hget.
  rewrite <- (constructor_keeps_order svcs Hnd) in Hget.
  unfold updateServiceConfig.
  destruct (List.find _ svcs) as [service |] eqn:Hfind.
  - rewrite (exec_configure_registered _ _ _ _ Hget). cbn [services default].
    rewrite (constructor_keeps_order svcs Hnd).
    by rewrite (Map_set_services svcs serviceId service _ Hnd Hfind), Hvalues.
  - rewrite (exec_configure_unregistered _ _ _ Hget). cbn [default].
    by rewrite (constructor_keeps_order svcs Hnd), Hvalues.
Qed.

(** Switching the chart service off, in the component and in the
    manager. *)
Lemma updateServiceConfig_agrees_with_configureService_witness :
  NoDup (service_id <$> local_defaults)
  ∧ Map_values (services (exec (configureService "plotly-chart" (switch false))
                            (new_ServiceManager_from local_defaults)))
    = default local_defaults (updateServiceConfig local_defaults "plotly-chart" (switch false)).
Proof.
  assert (Hnd : NoDup (service_id <$> local_defaults)) by compute_done.
  split; [exact Hnd |].
  exact (updateServiceConfig_agrees_with_configureService local_defaults "plotly-chart"
           (switch false) Hnd).
Defined.
